(** * Text-categorization datasets: batching arithmetic, label maps, cursors

    A shallow embedding of [preprocessing/preprocessing/utils.py]:
    [integer_floor], [_SimpleSequence], [BaseTextCategorizationDataset] and
    [LocalTextCategorizationDataset], with the properties of the design
    document proved about it.

    Python values are modelled as follows.
    - [int] is [Z] (unbounded).
    - [float] is an IEEE-754 binary64 number, [spec_float] of the standard
      library with [prec = 53] and [emax = 1024]; products and quotients
      are rounded to nearest, ties to even, as the hardware does.
    - an exception is a value of [Exception]; a computation that may raise
      is a value of [py A].
    - a [dict] is an association list in insertion order.
    - a [DataFrame] is a header and a list of rows of cells. *)

From Stdlib Require Import ZArith QArith Qpower Qround Qabs Lia Lqa.
From Stdlib Require Import Floats.SpecFloat.
From stdpp Require Import base list strings option pretty.

Open Scope Z_scope.

(** ** Exceptions *)

Inductive Exception :=
  | AssertionError
  | ZeroDivisionError
  | OverflowError
  | ValueError
  | NotImplementedError
  | KeyError.

Inductive py (A : Type) :=
  | Return (a : A)
  | Raise (e : Exception).
Arguments Return {A} a.
Arguments Raise {A} e.

#[global] Instance py_ret : MRet py := @Return.
#[global] Instance py_bind : MBind py := fun A B f m =>
  match m with
  | Return a => f a
  | Raise e => Raise e
  end.
#[global] Instance py_fmap : FMap py := fun A B f m =>
  match m with
  | Return a => Return (f a)
  | Raise e => Raise e
  end.

(** [assert c] *)
Definition assert (c : bool) : py unit :=
  if c then Return tt else Raise AssertionError.

Definition returns {A} (m : py A) : Prop := exists a, m = Return a.

(** ** Binary64 arithmetic, as Python and numpy perform it *)

Module Binary64.

Definition prec : Z := 53.
Definition emax : Z := 1024.

Abbreviation float := spec_float.

(** The rational a float denotes (0 for infinities and NaN, which the
    callers below never convert). *)
Definition pow2 (e : Z) : Q := Qpower 2 e.

Definition SF2Q (x : float) : Q :=
  match x with
  | S754_finite s m e => inject_Z (cond_Zopp s (Zpos m)) * pow2 e
  | _ => 0
  end.

Definition is_finite (x : float) : bool :=
  match x with
  | S754_zero _ | S754_finite _ _ _ => true
  | _ => false
  end.

(** The conversion [int -> float] that the cast of an integer operand
    performs: the nearest double. *)
Definition of_int (n : Z) : float := binary_normalize prec emax n 0 false.

(** [float(n)] as Python does it for an operand of [*]: too large an
    integer raises. *)
Definition float_of_int (n : Z) : py float :=
  let f := of_int n in
  if is_finite f then Return f else Raise OverflowError.

(** [x * y] on floats. *)
Definition mul (x y : float) : float := SFmul prec emax x y.

(** [x < y] on floats; false when either is NaN. *)
Definition ltb (x y : float) : bool := SFltb x y.

(** [a / b] on two [int]s: the correctly rounded quotient of the two
    integers. *)
Definition int_true_divide (a b : Z) : py float :=
  if b =? 0 then Raise ZeroDivisionError
  else if a =? 0 then Return (S754_zero (b <? 0))
  else
    let '(q, e, l) := SFdiv_core_binary prec emax (Z.abs a) 0 (Z.abs b) 0 in
    let f := binary_round_aux prec emax (xorb (a <? 0) (b <? 0)) q e l in
    if is_finite f then Return f else Raise OverflowError.

(** [int(np.floor(x))] for a float [x]: the floor of a finite double is
    the integer obtained by shifting its signed mantissa; [int] of NaN
    is a [ValueError], of an infinity an [OverflowError]. *)
Definition int_of_floor (x : float) : py Z :=
  match x with
  | S754_zero _ => Return 0
  | S754_finite s m e => Return (Z.shiftl (cond_Zopp s (Zpos m)) e)
  | S754_infinity _ => Raise OverflowError
  | S754_nan => Raise ValueError
  end.

Definition one : float := Eval vm_compute in of_int 1.

End Binary64.
Import Binary64.

(** A Python number handed to [integer_floor]: the callers pass a float
    (a product or a true quotient) or an int (a difference of ints). *)
Inductive number :=
  | PyInt (z : Z)
  | PyFloat (f : float).

(** [integer_floor(float_value)] is [int(np.floor(float_value))];
    [np.floor] casts an integer argument to a double first (numpy before
    2.1, for an integer below [2^64]; below [2^53] in absolute value,
    where the cast is exact, every version returns the same). *)
Definition integer_floor (float_value : number) : py Z :=
  match float_value with
  | PyFloat f => int_of_floor f
  | PyInt z => int_of_floor (of_int z)
  end.

(** ** Python lists, slices and dicts *)

(** [l[start:stop]] with Python's treatment of negative and out-of-range
    bounds: a slice truncates, it never raises. *)
Definition slice_bound (len k : Z) : Z :=
  if k <? 0 then Z.max 0 (k + len) else Z.min k len.

Definition py_slice {A} (l : list A) (start stop : Z) : list A :=
  let len := Z.of_nat (length l) in
  let lo := slice_bound len start in
  let hi := slice_bound len stop in
  take (Z.to_nat (hi - lo)) (drop (Z.to_nat lo) l).

(** [a % b] on ints. *)
Definition py_mod (a b : Z) : py Z :=
  if b =? 0 then Raise ZeroDivisionError else Return (a mod b).

(** A [dict]: keys in insertion order; assigning an existing key keeps its
    position and replaces its value. *)
Definition dict (K V : Type) := list (K * V).

Fixpoint dict_set {K V} `{EqDecision K} (k : K) (v : V) (d : dict K V) : dict K V :=
  match d with
  | [] => [(k, v)]
  | (k', v') :: d' =>
      if decide (k = k') then (k', v) :: d' else (k', v') :: dict_set k v d'
  end.

Fixpoint dict_get {K V} `{EqDecision K} (k : K) (d : dict K V) : option V :=
  match d with
  | [] => None
  | (k', v') :: d' => if decide (k = k') then Some v' else dict_get k d'
  end.

(** [d[k]] *)
Definition dict_getitem {K V} `{EqDecision K} (d : dict K V) (k : K) : py V :=
  match dict_get k d with
  | Some v => Return v
  | None => Raise KeyError
  end.

Definition items {K V} (d : dict K V) : list (K * V) := d.

(** [{k: v for k, v in kvs}] *)
Definition dict_comprehension {K V} `{EqDecision K} (kvs : list (K * V)) : dict K V :=
  fold_left (fun d kv => dict_set kv.1 kv.2 d) kvs [].

Definition enumerate {A} (l : list A) : list (nat * A) := imap pair l.

(** ** Data frames *)

(** A cell of the table: an integer, a string, or a missing value. *)
Inductive cell :=
  | CInt (z : Z)
  | CStr (s : string)
  | CNaN.

#[global] Instance cell_eq_dec : EqDecision cell.
Proof. solve_decision. Defined.

(** A frame as [read_csv] returns it: the header and the rows, each row
    holding one cell per column. *)
Record DataFrame := {
  columns : list string;
  rows : list (list cell)
}.

(** [len(df)] *)
Definition len_df (df : DataFrame) : Z := Z.of_nat (length (rows df)).

Fixpoint index_of (name : string) (cols : list string) : option nat :=
  match cols with
  | [] => None
  | c :: cols' => if decide (name = c) then Some 0%nat else S <$> index_of name cols'
  end.

(** [df[name]]: the column as a series, in row order. *)
Definition getitem_column (df : DataFrame) (name : string) : py (list cell) :=
  match index_of name (columns df) with
  | Some i => Return ((fun row => nth i row CNaN) <$> rows df)
  | None => Raise KeyError
  end.

(** [series == value] for an integer [value]. *)
Definition series_eq (s : list cell) (value : Z) : list bool :=
  (fun c => bool_decide (c = CInt value)) <$> s.

(** [df[mask]] for a boolean series [mask]. *)
Fixpoint select {A} (l : list A) (mask : list bool) : list A :=
  match l, mask with
  | a :: l', b :: mask' => if b then a :: select l' mask' else select l' mask'
  | _, _ => []
  end.

Definition getitem_mask (df : DataFrame) (mask : list bool) : DataFrame :=
  {| columns := columns df; rows := select (rows df) mask |}.

(** [series.value_counts()]: how often each value occurs, missing values
    left out. *)
Fixpoint count_incr (c : cell) (d : dict cell nat) : dict cell nat :=
  match d with
  | [] => [(c, 1%nat)]
  | (c', n) :: d' =>
      if decide (c = c') then (c', S n) :: d' else (c', n) :: count_incr c d'
  end.

Definition value_counts (s : list cell) : dict cell nat :=
  fold_left (fun d c => match c with CNaN => d | _ => count_incr c d end) s [].

(** [counts[counts >= x].index] *)
Definition index_at_least (counts : dict cell nat) (x : Z) : list cell :=
  fst <$> filter (fun kv => x <= Z.of_nat kv.2) counts.

(** [series.isin(values)] *)
Definition isin (s : list cell) (values : list cell) : list bool :=
  (fun c => bool_decide (c ∈ values)) <$> s.

(** [series.unique().tolist()]: the distinct values in first-seen order. *)
Definition unique (s : list cell) : list cell :=
  fold_left (fun acc c => if decide (c ∈ acc) then acc else acc ++ [c]) s [].

(** [to_categorical(y, num_classes)]: one row per index, 1 at the index. *)
Definition one_hot (num_classes : nat) (i : nat) : list Z :=
  (fun j => if decide (j = i) then 1 else 0) <$> seq 0 num_classes.

Definition to_categorical (y : list nat) (num_classes : nat) : list (list Z) :=
  one_hot num_classes <$> y.

(** ** [BaseTextCategorizationDataset] *)

(** A batch: the texts and their one-hot labels. *)
Definition Batch : Type := list cell * list (list Z).

Record BaseTextCategorizationDataset := {
  train_ratio : float;
  batch_size : Z
}.

(** The methods a subclass overrides, with the attributes of the base
    class it inherits: the two that the arithmetic of the base class
    calls, and the two batch methods, which call that arithmetic. *)
Class TextCategorizationDataset (Self : Type) := {
  super : Self -> BaseTextCategorizationDataset;
  _get_label_list : Self -> py (list cell);
  _get_num_samples : Self -> py Z
}.

Class BatchMethods (Self : Type) := {
  get_train_batch : Self -> py (Batch * Self);
  get_test_batch : Self -> py (Batch * Self)
}.

(** [BaseTextCategorizationDataset.__init__] *)
Definition Base__init__ (batch_size : Z) (train_ratio : float)
  : py BaseTextCategorizationDataset :=
  assert (ltb train_ratio one);;
  Return {| train_ratio := train_ratio; batch_size := batch_size |}.

(** The base class itself leaves the four methods unimplemented. *)
#[global] Instance Base_dataset : TextCategorizationDataset BaseTextCategorizationDataset := {
  super self := self;
  _get_label_list _ := Raise NotImplementedError;
  _get_num_samples _ := Raise NotImplementedError
}.

#[global] Instance Base_batches : BatchMethods BaseTextCategorizationDataset := {
  get_train_batch _ := Raise NotImplementedError;
  get_test_batch _ := Raise NotImplementedError
}.

Section BaseMethods.
Context {Self : Type} `{TextCategorizationDataset Self}.

Definition get_num_labels (self : Self) : py Z :=
  l ← _get_label_list self; Return (Z.of_nat (length l)).

Definition _get_num_train_samples (self : Self) : py Z :=
  n ← _get_num_samples self;
  fn ← float_of_int n;
  integer_floor (PyFloat (mul fn (train_ratio (super self)))).

Definition _get_num_test_samples (self : Self) : py Z :=
  n ← _get_num_samples self;
  t ← _get_num_train_samples self;
  integer_floor (PyInt (n - t)).

Definition _get_num_train_batches (self : Self) : py Z :=
  t ← _get_num_train_samples self;
  q ← int_true_divide t (batch_size (super self));
  integer_floor (PyFloat q).

Definition _get_num_test_batches (self : Self) : py Z :=
  t ← _get_num_test_samples self;
  q ← int_true_divide t (batch_size (super self));
  integer_floor (PyFloat q).

Definition get_index_to_label_map (self : Self) : py (dict nat cell) :=
  l ← _get_label_list self;
  Return (dict_comprehension (enumerate l)).

Definition get_label_to_index_map (self : Self) : py (dict cell nat) :=
  m ← get_index_to_label_map self;
  Return (dict_comprehension ((fun il => (il.2, il.1)) <$> items m)).

Definition to_indexes (self : Self) (labels : list cell) : py (list nat) :=
  label_to_index_map ← get_label_to_index_map self;
  mapM (dict_getitem label_to_index_map) labels.

End BaseMethods.

(** ** [_SimpleSequence] *)

Record _SimpleSequence (Self : Type) := {
  get_batch_method : Self -> py (Batch * Self);
  num_batches_method : Self -> py Z
}.
Arguments get_batch_method {Self}.
Arguments num_batches_method {Self}.

(** [len(seq)] and [seq[idx]]; the bound methods act on the dataset
    object, whose state is threaded through. *)
Definition __len__ {Self} (seq : _SimpleSequence Self) (self : Self) : py Z :=
  num_batches_method seq self.

Definition __getitem__ {Self} (seq : _SimpleSequence Self) (idx : Z) (self : Self)
  : py (Batch * Self) :=
  get_batch_method seq self.

Definition get_train_sequence {Self} `{TextCategorizationDataset Self}
  `{BatchMethods Self} : _SimpleSequence Self :=
  {| get_batch_method := get_train_batch;
     num_batches_method := _get_num_train_batches |}.

Definition get_test_sequence {Self} `{TextCategorizationDataset Self}
  `{BatchMethods Self} : _SimpleSequence Self :=
  {| get_batch_method := get_test_batch;
     num_batches_method := _get_num_test_batches |}.

(** ** [LocalTextCategorizationDataset] *)

Record LocalTextCategorizationDataset := {
  base : BaseTextCategorizationDataset;
  filename : string;
  preprocess_text : list cell -> list cell;
  _dataset : DataFrame;
  _label_list : list cell;
  x_train : list cell;
  x_test : list cell;
  y_train : list (list Z);
  y_test : list (list Z);
  train_batch_index : Z;
  test_batch_index : Z
}.

Definition set_train_batch_index (self : LocalTextCategorizationDataset) (i : Z) :=
  {| base := base self; filename := filename self;
     preprocess_text := preprocess_text self; _dataset := _dataset self;
     _label_list := _label_list self;
     x_train := x_train self; x_test := x_test self;
     y_train := y_train self; y_test := y_test self;
     train_batch_index := i; test_batch_index := test_batch_index self |}.

Definition set_test_batch_index (self : LocalTextCategorizationDataset) (i : Z) :=
  {| base := base self; filename := filename self;
     preprocess_text := preprocess_text self; _dataset := _dataset self;
     _label_list := _label_list self;
     x_train := x_train self; x_test := x_test self;
     y_train := y_train self; y_test := y_test self;
     train_batch_index := train_batch_index self; test_batch_index := i |}.

Definition expected_columns : list string :=
  ["post_id"; "tag_name"; "tag_id"; "tag_position"; "title"]%string.

(** keep only tag_position = position *)
Definition filter_tag_position (position : Z) (df : DataFrame) : py DataFrame :=
  s ← getitem_column df "tag_position";
  Return (getitem_mask df (series_eq s position)).

(** removes tags that are seen less than x times *)
Definition filter_tags_with_less_than_x_samples (x : Z) (df : DataFrame)
  : py DataFrame :=
  tags ← getitem_column df "tag_name";
  let tag_counts := value_counts tags in
  tags' ← getitem_column df "tag_name";
  Return (getitem_mask df (isin tags' (index_at_least tag_counts x))).

(** [load_dataset], applied to the frame [pd.read_csv(filename)] returned. *)
Definition load_dataset (dataset : DataFrame) (min_samples_per_label : Z)
  : py DataFrame :=
  assert (forallb (fun col => bool_decide (col ∈ columns dataset)) expected_columns);;
  d ← filter_tag_position 0 dataset;
  filter_tags_with_less_than_x_samples min_samples_per_label d.

#[global] Instance Local_dataset : TextCategorizationDataset LocalTextCategorizationDataset := {
  super := base;
  _get_label_list self := Return (_label_list self);
  _get_num_samples self := Return (len_df (_dataset self))
}.

Definition Local_get_train_batch (self : LocalTextCategorizationDataset)
  : py (Batch * LocalTextCategorizationDataset) :=
  let i := train_batch_index self in
  let start_idx := i * batch_size (base self) in
  let end_idx := (i + 1) * batch_size (base self) in
  let next_x := preprocess_text self (py_slice (x_train self) start_idx end_idx) in
  let next_y := py_slice (y_train self) start_idx end_idx in
  n ← _get_num_train_batches self;
  i' ← py_mod (train_batch_index self + 1) n;
  Return ((next_x, next_y), set_train_batch_index self i').

Definition Local_get_test_batch (self : LocalTextCategorizationDataset)
  : py (Batch * LocalTextCategorizationDataset) :=
  let i := test_batch_index self in
  let start_idx := i * batch_size (base self) in
  let end_idx := (i + 1) * batch_size (base self) in
  let next_x := preprocess_text self (py_slice (x_test self) start_idx end_idx) in
  let next_y := py_slice (y_test self) start_idx end_idx in
  n ← _get_num_test_batches self;
  i' ← py_mod (test_batch_index self + 1) n;
  Return ((next_x, next_y), set_test_batch_index self i').

#[global] Instance Local_batches : BatchMethods LocalTextCategorizationDataset := {
  get_train_batch := Local_get_train_batch;
  get_test_batch := Local_get_test_batch
}.

Section Local__init__.

(** [sklearn.model_selection.train_test_split(x, y, train_size=k,
    stratify=y)]: a library function that shuffles at random; [None] stands
    for the [ValueError] it raises on sizes it cannot stratify. *)
Variable train_test_split :
  list cell -> list (list Z) -> Z ->
  option (list cell * list cell * list (list Z) * list (list Z)).

(** [LocalTextCategorizationDataset.__init__]; [file] is what
    [pd.read_csv(filename)] returns. *)
Definition Local__init__ (file : DataFrame) (filename : string) (batch_size : Z)
  (train_ratio : float) (min_samples_per_label : Z)
  (preprocess_text : list cell -> list cell)
  : py LocalTextCategorizationDataset :=
  b ← Base__init__ batch_size train_ratio;
  d ← load_dataset file min_samples_per_label;
  let self :=
    {| base := b; filename := filename; preprocess_text := preprocess_text;
       _dataset := d; _label_list := [];
       x_train := []; x_test := []; y_train := []; y_test := [];
       train_batch_index := 0; test_batch_index := 0 |} in
  n_train ← _get_num_train_batches self;
  assert (0 <? n_train);;
  n_test ← _get_num_test_batches self;
  assert (0 <? n_test);;
  tags ← getitem_column d "tag_name";
  let label_list := unique tags in
  let self :=
    {| base := b; filename := filename; preprocess_text := preprocess_text;
       _dataset := d; _label_list := label_list;
       x_train := []; x_test := []; y_train := []; y_test := [];
       train_batch_index := 0; test_batch_index := 0 |} in
  tags' ← getitem_column d "tag_name";
  y ← to_indexes self tags';
  let y := to_categorical y (length label_list) in
  titles ← getitem_column d "title";
  train_size ← _get_num_train_samples self;
  match train_test_split titles y train_size with
  | None => Raise ValueError
  | Some (x_train, x_test, y_train, y_test) =>
      Return
        {| base := b; filename := filename; preprocess_text := preprocess_text;
           _dataset := d; _label_list := label_list;
           x_train := x_train; x_test := x_test;
           y_train := y_train; y_test := y_test;
           train_batch_index := 0; test_batch_index := 0 |}
  end.

End Local__init__.

(** ** A mock of the abstract methods, as the unit tests install it *)

Record MockDataset := {
  mock_base : BaseTextCategorizationDataset;
  mock_num_samples : Z;
  mock_label_list : list cell
}.

#[global] Instance Mock_dataset : TextCategorizationDataset MockDataset := {
  super := mock_base;
  _get_label_list self := Return (mock_label_list self);
  _get_num_samples self := Return (mock_num_samples self)
}.

(** ** Calling a batch method repeatedly *)

(** The batches of [k] successive calls, with the object after them. *)
Fixpoint call_repeatedly {Self} (method : Self -> py (Batch * Self)) (k : nat)
  (self : Self) : py (list Batch * Self) :=
  match k with
  | O => Return ([], self)
  | S k' =>
      '(b, self') ← method self;
      '(bs, self'') ← call_repeatedly method k' self';
      Return (b :: bs, self'')
  end.

(** The train batch at cursor position [i]. *)
Definition train_batch_at (self : LocalTextCategorizationDataset) (i : Z) : Batch :=
  (preprocess_text self
     (py_slice (x_train self) (i * batch_size (base self)) ((i + 1) * batch_size (base self))),
   py_slice (y_train self) (i * batch_size (base self)) ((i + 1) * batch_size (base self))).

Definition test_batch_at (self : LocalTextCategorizationDataset) (i : Z) : Batch :=
  (preprocess_text self
     (py_slice (x_test self) (i * batch_size (base self)) ((i + 1) * batch_size (base self))),
   py_slice (y_test self) (i * batch_size (base self)) ((i + 1) * batch_size (base self))).

(** ** The domain of the arithmetic *)

(** A train ratio in the documented range: a double [r] with
    [0.0 <= r < 1.0]. *)
Definition is_ratio (r : float) : bool :=
  valid_binary prec emax r && SFleb (S754_zero false) r && ltb r one.

(** What the library's [train_test_split] guarantees when it returns: the
    train part has [train_size] elements and the test part the rest. *)
Definition split_sizes
  (train_test_split : list cell -> list (list Z) -> Z ->
     option (list cell * list cell * list (list Z) * list (list Z))) : Prop :=
  forall x y k x_tr x_te y_tr y_te,
    train_test_split x y k = Some (x_tr, x_te, y_tr, y_te) ->
    Z.of_nat (length x_tr) = k /\ Z.of_nat (length y_tr) = k /\
    Z.of_nat (length x_te) = Z.of_nat (length x) - k /\
    Z.of_nat (length y_te) = Z.of_nat (length x) - k.

(** ** Rounding: the bracket of a real number on a binary grid *)

Definition fexp : Z -> Z := SpecFloat.fexp prec emax.

(** [x], in units of [2^e], lies in the half-open half-unit that starts at
    [m + r/2], and [s] tells whether it lies strictly inside. *)
Definition inbetween (mrs : shr_record) (e : Z) (x : Q) : Prop :=
  let h := inject_Z (2 * shr_m mrs + Z.b2z (shr_r mrs)) in
  (h * pow2 (e - 1) <= x /\ x < (h + 1) * pow2 (e - 1))%Q /\
  (shr_s mrs = false <-> (x == h * pow2 (e - 1))%Q).

(** The bracket a rounding location describes. *)
Definition inbetween_loc (m : Z) (l : location) (e : Z) (x : Q) : Prop :=
  inbetween (shr_record_of_loc m l) e x.

(** [k] right shifts of the bracket of [x] that started at [(m0, e0)]. *)
Definition shr_inv (m0 e0 : Z) (x : Q) (k : Z) (mrs : shr_record) : Prop :=
  0 <= shr_m mrs /\ shr_m mrs = Z.shiftr m0 k /\ inbetween mrs (e0 + k) x.

(** ** Fixtures of the unit tests *)

(** The doubles nearest to 0.8 and to 0.5. *)
Definition ratio_0_8 : float := S754_finite false 7205759403792794 (-53).
Definition ratio_0_5 : float := S754_finite false 4503599627370496 (-53).

Definition mock_100 : MockDataset :=
  {| mock_base := {| train_ratio := ratio_0_8; batch_size := 20 |};
     mock_num_samples := 100;
     mock_label_list := [CStr "label_a"; CStr "label_b"] |}.

Definition fixture_row (i tag : string) (position : Z) : list cell :=
  [CStr ("id_" +:+ i); CStr tag; CInt 1; CInt position; CStr ("title_" +:+ i)].

Definition fixture_2_rows : DataFrame :=
  {| columns := expected_columns;
     rows := [fixture_row "1" "tag_a" 0; fixture_row "2" "tag_b" 1] |}.

Definition fixture_6_rows : DataFrame :=
  {| columns := expected_columns;
     rows := [fixture_row "1" "tag_a" 0; fixture_row "2" "tag_a" 0;
              fixture_row "3" "tag_b" 0; fixture_row "4" "tag_b" 0;
              fixture_row "5" "tag_c" 0; fixture_row "6" "tag_c" 0] |}.

(** A split that keeps the order, standing in for the random one. *)
Definition split_in_order (x : list cell) (y : list (list Z)) (k : Z)
  : option (list cell * list cell * list (list Z) * list (list Z)) :=
  if (0 <=? k) && (k <=? Z.of_nat (length x)) && (length x =? length y)%nat then
    Some (take (Z.to_nat k) x, drop (Z.to_nat k) x,
          take (Z.to_nat k) y, drop (Z.to_nat k) y)
  else None.

(** ** [__repr__] *)

(** [self.__class__.__name__]; a mock patches methods of an object of the
    base class and leaves its class alone. *)
Class ClassName (Self : Type) := __name__ : string.

#[global] Instance Base_name : ClassName BaseTextCategorizationDataset :=
  "BaseTextCategorizationDataset"%string.
#[global] Instance Local_name : ClassName LocalTextCategorizationDataset :=
  "LocalTextCategorizationDataset"%string.
#[global] Instance Mock_name : ClassName MockDataset :=
  "BaseTextCategorizationDataset"%string.

(** [BaseTextCategorizationDataset.__repr__]: the f-string evaluates the
    train count, the test count and the number of labels in this order
    and formats each integer in decimal. *)
Definition __repr__ {Self} `{TextCategorizationDataset Self} `{ClassName Self}
  (self : Self) : py string :=
  n_train_samples ← _get_num_train_samples self;
  n_test_samples ← _get_num_test_samples self;
  n_labels ← get_num_labels self;
  Return (__name__ +:+ "(n_train_samples: " +:+ pretty n_train_samples +:+
          ", n_test_samples: " +:+ pretty n_test_samples +:+
          ", n_labels: " +:+ pretty n_labels +:+ ")")%string.

(** ** Definitions used by the statements below *)

Definition mock_with (r : float) (b n : Z) : MockDataset :=
  {| mock_base := {| train_ratio := r; batch_size := b |};
     mock_num_samples := n;
     mock_label_list := [] |}.

(** The two maps a label list [l] gives rise to. *)
Definition index_to_label (l : list cell) : dict nat cell :=
  dict_comprehension (enumerate l).

Definition label_to_index (l : list cell) : dict cell nat :=
  dict_comprehension ((fun il : nat * cell => (il.2, il.1)) <$> items (index_to_label l)).

(** The cell of [row] in the column [name] of [df]. *)
Definition cell_at (df : DataFrame) (name : string) (row : list cell) : cell :=
  match index_of name (columns df) with
  | Some i => nth i row CNaN
  | None => CNaN
  end.

(** How often [c] occurs in a series. *)
Definition occurrences (c : cell) (s : list cell) : nat :=
  length (filter (fun c' => c' = c) s).

(** Everything but the two cursors is the same in [s] and [s']. *)
Definition same_data (s s' : LocalTextCategorizationDataset) : Prop :=
  base s' = base s /\ filename s' = filename s /\
  preprocess_text s' = preprocess_text s /\
  _dataset s' = _dataset s /\ _label_list s' = _label_list s /\
  x_train s' = x_train s /\ y_train s' = y_train s /\
  x_test s' = x_test s /\ y_test s' = y_test s.

(** The dataset the constructor builds from the six-row fixture with
    batch size 1, ratio 0.5 and the in-order split. *)
Definition fixture_dataset : LocalTextCategorizationDataset :=
  {| base := {| train_ratio := ratio_0_5; batch_size := 1 |};
     filename := "fake_path";
     preprocess_text := fun x => x;
     _dataset := fixture_6_rows;
     _label_list := [CStr "tag_a"; CStr "tag_b"; CStr "tag_c"];
     x_train := [CStr "title_1"; CStr "title_2"; CStr "title_3"];
     x_test := [CStr "title_4"; CStr "title_5"; CStr "title_6"];
     y_train := [[1; 0; 0]; [1; 0; 0]; [0; 1; 0]];
     y_test := [[0; 1; 0]; [0; 0; 1]; [0; 0; 1]];
     train_batch_index := 0;
     test_batch_index := 0 |}.





(** The object as it is when the constructor checks the batch counts:
    the base attributes and the loaded frame are set, nothing else is. *)
Definition loaded_dataset (batch_size : Z) (train_ratio : float) (d : DataFrame)
  : LocalTextCategorizationDataset :=
  {| base := {| train_ratio := train_ratio; batch_size := batch_size |};
     filename := ""; preprocess_text := fun x => x;
     _dataset := d; _label_list := [];
     x_train := []; x_test := []; y_train := []; y_test := [];
     train_batch_index := 0; test_batch_index := 0 |}.

(** The cases of a fatal assertion as the design document lists them:
    a ratio of at least 1.0, a missing column, a batch count of zero. *)
Definition fatal_cases_as_specified (file : DataFrame) (batch_size : Z)
  (train_ratio : float) (min_samples_per_label : Z) : Prop :=
  SFleb one train_ratio = true \/
  (exists col, col ∈ expected_columns /\ col ∉ columns file) \/
  (exists d,
     load_dataset file min_samples_per_label = Return d /\
     (_get_num_train_batches (loaded_dataset batch_size train_ratio d) = Return 0 \/
      _get_num_test_batches (loaded_dataset batch_size train_ratio d) = Return 0)).

(** A computation that does not end in a failed assertion. *)
Definition no_assert {A} (m : py A) : Prop := m <> Raise AssertionError.

(** The double nearest to 0.33. *)
Definition ratio_0_33 : float := S754_finite false 5944751508129055 (-54).

(** Four rows in which [tag_a] occurs twice, once at position 0. *)
Definition fixture_positions : DataFrame :=
  {| columns := expected_columns;
     rows := [fixture_row "1" "tag_a" 0; fixture_row "2" "tag_a" 1;
              fixture_row "3" "tag_b" 0; fixture_row "4" "tag_b" 0] |}.

(** An object of the base class itself. *)
Definition base_20_0_8 : BaseTextCategorizationDataset :=
  {| train_ratio := ratio_0_8; batch_size := 20 |}.

(** A mock whose label list repeats a label, as no test installs it. *)
Definition mock_repeated_label : MockDataset :=
  {| mock_base := {| train_ratio := ratio_0_8; batch_size := 20 |};
     mock_num_samples := 100;
     mock_label_list := [CStr "label_a"; CStr "label_b"; CStr "label_a"] |}.

(** The tag names of a frame, in row order. *)
Definition tags_of (df : DataFrame) : list cell :=
  cell_at df "tag_name" <$> rows df.

(** The rows of a frame at tag position 0. *)
Definition position_0 (df : DataFrame) : list (list cell) :=
  filter (fun row => cell_at df "tag_position" row = CInt 0) (rows df).

(** A run of calls of the two batch methods in a given order, [true] for
    [get_train_batch] and [false] for [get_test_batch]. *)
Fixpoint call_in_order {Self} `{BatchMethods Self} (calls : list bool) (self : Self)
  : py (list Batch * Self) :=
  match calls with
  | [] => Return ([], self)
  | c :: calls' =>
      '(b, self') ← (if c then get_train_batch self else get_test_batch self);
      '(bs, self'') ← call_in_order calls' self';
      Return (b :: bs, self'')
  end.

(** How many of the calls are calls of [get_train_batch] ([c = true]) or
    of [get_test_batch] ([c = false]). *)
Definition calls_of (c : bool) (calls : list bool) : Z :=
  Z.of_nat (length (filter (fun c' => c' = c) calls)).

(** * Properties *)

(** ** Binary64: rounding to nearest *)

Lemma pow2_pos e : (0 < pow2 e)%Q.
Proof. apply Qpower_0_lt. reflexivity. Qed.

Lemma pow2_succ e : (pow2 (e + 1) == 2 * pow2 e)%Q.
Proof.
  unfold pow2. rewrite Qpower_plus by discriminate.
  rewrite Qpower_1_r. ring.
Qed.

Lemma pow2_add a b : (pow2 (a + b) == pow2 a * pow2 b)%Q.
Proof. unfold pow2. apply Qpower_plus. discriminate. Qed.

Lemma pow2_nonneg_Z e : 0 <= e -> (pow2 e == inject_Z (2 ^ e))%Q.
Proof. intros. unfold pow2. rewrite Zpower_Qpower by assumption. reflexivity. Qed.

Lemma digits2_log2 p : Zpos (digits2_pos p) = Z.log2 (Zpos p) + 1.
Proof.
  induction p as [p IH|p IH|]; simpl digits2_pos.
  - rewrite Pos2Z.inj_succ, IH. 
    change (Z.pos p~1) with (2 * Z.pos p + 1). rewrite Z.log2_succ_double by lia. lia.
  - rewrite Pos2Z.inj_succ, IH.
    change (Z.pos p~0) with (2 * Z.pos p). rewrite Z.log2_double by lia. lia.
  - reflexivity.
Qed.

Lemma Zdigits2_log2 m : 0 < m -> Zdigits2 m = Z.log2 m + 1.
Proof. destruct m; try lia. intros _. apply digits2_log2. Qed.


Lemma shr_1_m mrs : 0 <= shr_m mrs -> shr_m (shr_1 mrs) = Z.div2 (shr_m mrs).
Proof.
  destruct mrs as [m r s]. simpl.
  destruct m as [|[p|p|]|[p|p|]]; try reflexivity; lia.
Qed.

Lemma shr_1_r mrs : shr_r (shr_1 mrs) = Z.odd (shr_m mrs).
Proof.
  destruct mrs as [m r s]. simpl.
  destruct m as [|[p|p|]|[p|p|]]; reflexivity.
Qed.

Lemma shr_1_s mrs : shr_s (shr_1 mrs) = orb (shr_r mrs) (shr_s mrs).
Proof.
  destruct mrs as [m r s]. simpl.
  destruct m as [|[p|p|]|[p|p|]]; reflexivity.
Qed.

Lemma shr_1_inbetween mrs e x :
  0 <= shr_m mrs -> inbetween mrs e x -> inbetween (shr_1 mrs) (e + 1) x.
Proof.
  intros Hm [[Hlo Hhi] Hs]. unfold inbetween.
  rewrite shr_1_s. 
  assert (Hq : 2 * shr_m (shr_1 mrs) + Z.b2z (shr_r (shr_1 mrs)) = shr_m mrs).
  { rewrite shr_1_r, shr_1_m by assumption. symmetry. apply Z.div2_odd. }
  rewrite Hq. replace (e + 1 - 1) with (e - 1 + 1) by lia.
  rewrite pow2_succ.
  assert (Hp := pow2_pos (e - 1)).
  set (p := pow2 (e - 1)) in *.
  rewrite inject_Z_plus, inject_Z_mult in *.
  set (m := inject_Z (shr_m mrs)) in *.
  destruct (shr_r mrs), (shr_s mrs); simpl Z.b2z in *; simpl orb.
  all: change (inject_Z 2) with 2%Q in *; change (inject_Z 1) with 1%Q in *; change (inject_Z 0) with 0%Q in *.
  clearbody p m. clear Hq.
  all: split; [split; nra|].
  all: destruct Hs as [Hs1 Hs2]; split; intros Heq; try discriminate; try reflexivity.
  all: try (specialize (Hs1 eq_refl); nra).
  all: try nra.
Qed.



Lemma shr_inv_step m0 e0 x k mrs :
  0 <= k -> shr_inv m0 e0 x k mrs -> shr_inv m0 e0 x (k + 1) (shr_1 mrs).
Proof.
  intros Hk (Hm & Hsh & Hin). unfold shr_inv.
  rewrite shr_1_m by assumption. rewrite Z.div2_spec, Hsh.
  rewrite Z.shiftr_shiftr by lia. split; [|split].
  - apply Z.shiftr_nonneg. rewrite Hsh in Hm.
    now apply Z.shiftr_nonneg in Hm.
  - reflexivity.
  - replace (e0 + (k + 1)) with (e0 + k + 1) by lia.
    apply shr_1_inbetween; assumption.
Qed.

Lemma shr_inv_iter m0 e0 x p : forall k mrs,
  0 <= k -> shr_inv m0 e0 x k mrs ->
  shr_inv m0 e0 x (k + Zpos p) (SpecFloat.iter_pos shr_1 p mrs).
Proof.
  induction p as [p IH|p IH|]; intros k mrs Hk H; cbn [SpecFloat.iter_pos].
  - replace (k + Z.pos p~1) with (k + 1 + Z.pos p + Z.pos p) by lia.
    apply IH; [lia|]. apply IH; [lia|]. now apply shr_inv_step.
  - replace (k + Z.pos p~0) with (k + Z.pos p + Z.pos p) by lia.
    apply IH; [lia|]. now apply IH.
  - now apply shr_inv_step.
Qed.


Lemma fexp_eq d : fexp d = Z.max (d - 53) (-1074).
Proof. reflexivity. Qed.

Lemma shr_fexp_spec m e l x :
  0 <= m -> inbetween_loc m l e x ->
  let e' := Z.max e (fexp (Zdigits2 m + e)) in
  let mrs := fst (shr_fexp prec emax m e l) in
  snd (shr_fexp prec emax m e l) = e' /\
  shr_m mrs = Z.shiftr m (e' - e) /\ inbetween mrs e' x.
Proof.
  intros Hm Hin e' mrs. subst mrs. unfold shr_fexp, shr.
  fold (fexp (Zdigits2 m + e)). 
  assert (Hm' : shr_m (shr_record_of_loc m l) = m) by (destruct l as [|[]]; reflexivity).
  destruct (fexp (Zdigits2 m + e) - e) as [|p|p] eqn:Hn; simpl fst; simpl snd.
  - replace e' with e by lia. replace (e - e) with 0 by lia. rewrite Z.shiftr_0_r. auto.
  - assert (He : e' = e + Zpos p) by lia. rewrite He.
    destruct (shr_inv_iter m e x p 0 (shr_record_of_loc m l)) as (H1 & H2 & H3).
    + lia.
    + unfold shr_inv. rewrite Hm', Z.shiftr_0_r, Z.add_0_r. auto.
    + simpl in H2, H3. replace (e + Z.pos p - e) with (Z.pos p) by lia. auto.
  - replace e' with e by lia. replace (e - e) with 0 by lia. rewrite Z.shiftr_0_r. auto.
Qed.

Lemma Zdigits2_nonneg m : 0 <= Zdigits2 m.
Proof. destruct m; simpl; lia. Qed.

Lemma Zdigits2_lt m : 0 <= m -> m < 2 ^ Zdigits2 m.
Proof.
  intros Hm. destruct (Z.eq_dec m 0) as [->|Hne]; [reflexivity|].
  rewrite Zdigits2_log2 by lia.
  rewrite Z.add_1_r. apply Z.log2_spec. lia.
Qed.

Lemma Zdigits2_le_pow m d : 0 <= d -> 0 <= m < 2 ^ d -> Zdigits2 m <= d.
Proof.
  intros Hd Hm. destruct (Z.eq_dec m 0) as [->|Hne]; [simpl; lia|].
  rewrite Zdigits2_log2 by lia.
  assert (Z.log2 m < d) by (apply Z.log2_lt_pow2; lia). lia.
Qed.

Lemma shiftr_lt_pow2 m d k :
  0 <= m < 2 ^ d -> 0 <= k -> 0 <= d -> d - k <= 53 -> Z.shiftr m k < 2 ^ 53.
Proof.
  intros Hm Hk Hd Hdk. rewrite Z.shiftr_div_pow2 by assumption.
  apply Z.div_lt_upper_bound; [lia|].
  rewrite <- Z.pow_add_r by lia.
  apply Z.lt_le_trans with (2 ^ d); [lia|].
  apply Z.pow_le_mono_r; lia.
Qed.

(** Renormalising an exactly known mantissa of at most [prec + 1] bits. *)
Lemma shr_fexp_exact m1 e :
  0 <= m1 <= 2 ^ 53 -> -1074 <= e ->
  let mrs := fst (shr_fexp prec emax m1 e loc_Exact) in
  let e' := snd (shr_fexp prec emax m1 e loc_Exact) in
  0 <= shr_m mrs /\ e' <= e + 1 /\
  (inject_Z (shr_m mrs) * pow2 e' == inject_Z m1 * pow2 e)%Q.
Proof.
  intros Hm He. destruct (Z.eq_dec m1 (2 ^ 53)) as [->|Hne].
  - unfold shr_fexp. change (Zdigits2 (2 ^ 53)) with 54.
    fold (fexp (54 + e)). rewrite fexp_eq.
    replace (Z.max (54 + e - 53) (-1074) - e) with 1 by lia.
    change (shr (shr_record_of_loc (2 ^ 53) loc_Exact) e 1)
      with ({| shr_m := 2 ^ 52; shr_r := false; shr_s := false |}, e + 1).
    cbn [fst snd shr_m]. split; [lia|]. split; [lia|].
    rewrite pow2_succ. change (2 ^ 53) with (2 * 2 ^ 52).
    rewrite inject_Z_mult. change (inject_Z 2) with 2%Q. ring.
  - assert (Hd : Zdigits2 m1 <= 53) by (apply Zdigits2_le_pow; lia).
    unfold shr_fexp. fold (fexp (Zdigits2 m1 + e)). rewrite fexp_eq.
    destruct (Z.max (Zdigits2 m1 + e - 53) (-1074) - e) as [|p|p] eqn:Hn; try lia.
    all: simpl; split; [lia|]; split; [lia|reflexivity].
Qed.

Lemma pow2_pred e : (pow2 e == 2 * pow2 (e - 1))%Q.
Proof. rewrite <- pow2_succ. now replace (e - 1 + 1) with e by lia. Qed.

Lemma round_nearest_even_spec mrs e x :
  inbetween mrs e x ->
  let m := shr_m mrs in
  let m1 := round_nearest_even m (loc_of_shr_record mrs) in
  (m1 = m \/ m1 = m + 1) /\
  (inject_Z m * pow2 e <= x /\ x < inject_Z (m + 1) * pow2 e)%Q /\
  ((x == inject_Z m * pow2 e)%Q -> m1 = m) /\
  (inject_Z m1 * pow2 e - x <= pow2 (e - 1) /\
   x - inject_Z m1 * pow2 e <= pow2 (e - 1))%Q.
Proof.
  intros [[Hlo Hhi] Hs] m m1. subst m m1.
  destruct mrs as [m r s]. cbn [shr_m shr_r shr_s] in *.
  rewrite (pow2_pred e).
  assert (Hp := pow2_pos (e - 1)). revert Hlo Hhi Hs Hp.
  generalize (pow2 (e - 1)). intros p.
  rewrite !inject_Z_plus, !inject_Z_mult.
  change (inject_Z 2) with 2%Q. change (inject_Z 1) with 1%Q.
  destruct r, s; cbn [Z.b2z loc_of_shr_record round_nearest_even];
    change (inject_Z 1) with 1%Q; change (inject_Z 0) with 0%Q;
    intros Hlo Hhi [Hs1 Hs2] Hp.
  - rewrite inject_Z_plus. change (inject_Z 1) with 1%Q.
    repeat split; auto; try nra.
  - specialize (Hs1 eq_refl).
    assert (Hc : Z.even m = true -> (inject_Z m * (2 * p) - x <= p /\ x - inject_Z m * (2 * p) <= p)%Q) by (intros _; nra).
    assert (Hd : (inject_Z (m + 1) * (2 * p) - x <= p /\ x - inject_Z (m + 1) * (2 * p) <= p)%Q).
    { rewrite inject_Z_plus. change (inject_Z 1) with 1%Q. nra. }
    split; [destruct (Z.even m); auto|].
    split; [nra|]. split; [intros Hx; exfalso; nra|].
    destruct (Z.even m); auto.
  - repeat split; auto; try nra.
  - repeat split; auto; try nra.
Qed.

(** What [binary_round_aux] returns for a nonnegative bracket [(m, e, l)]
    of [x]: the multiple [m1 * 2^e'] of the target unit nearest to [x]. *)
Lemma binary_round_aux_spec sx m e l x :
  0 <= m -> inbetween_loc m l e x ->
  let e' := Z.max e (fexp (Zdigits2 m + e)) in
  let m' := Z.shiftr m (e' - e) in
  let f := binary_round_aux prec emax sx m e l in
  e' < 971 ->
  exists m1,
    (m1 = m' \/ m1 = m' + 1) /\ 0 <= m' /\
    (inject_Z m' * pow2 e' <= x /\ x < inject_Z (m' + 1) * pow2 e')%Q /\
    ((x == inject_Z m' * pow2 e')%Q -> m1 = m') /\
    (inject_Z m1 * pow2 e' - x <= pow2 (e' - 1) /\
     x - inject_Z m1 * pow2 e' <= pow2 (e' - 1))%Q /\
    is_finite f = true /\
    (SF2Q f == inject_Z (cond_Zopp sx m1) * pow2 e')%Q /\
    match f with
    | S754_finite s _ e2 => s = sx /\ e2 <= e' + 1
    | _ => True
    end.
Proof.
  intros Hm Hin e' m' f He'.
  destruct (shr_fexp_spec m e l x Hm Hin) as (H1 & H2 & H3).
  fold e' in H1, H2, H3. fold m' in H2.
  assert (Hm'0 : 0 <= m') by (apply Z.shiftr_nonneg; assumption).
  assert (Hm'53 : m' < 2 ^ 53).
  { apply shiftr_lt_pow2 with (d := Zdigits2 m).
    - split; [assumption|]. now apply Zdigits2_lt.
    - lia.
    - apply Zdigits2_nonneg.
    - subst e'. rewrite fexp_eq. lia. }
  assert (Hemin : -1074 <= e') by (subst e'; rewrite fexp_eq; lia).
  subst f. unfold binary_round_aux.
  destruct (shr_fexp prec emax m e l) as [mrs1 e1].
  cbn [fst snd] in H1, H2, H3. subst e1.
  destruct (round_nearest_even_spec mrs1 e' x H3) as (R1 & R2 & R3 & R4).
  set (m1 := round_nearest_even (shr_m mrs1) (loc_of_shr_record mrs1)) in *.
  clearbody m1. rewrite H2 in R1, R2, R3.
  exists m1.
  assert (Hm1 : 0 <= m1 <= 2 ^ 53) by lia.
  destruct (shr_fexp_exact m1 e' Hm1 Hemin) as (S1 & S2 & S3).
  destruct (shr_fexp prec emax m1 e' loc_Exact) as [mrs2 e2].
  cbn [fst snd] in S1, S2, S3.
  do 5 (split; [assumption|]).
  destruct (shr_m mrs2) as [|p|p] eqn:Hp; try lia.
  - split; [reflexivity|]. cbn [SF2Q].
    assert (Hz : (inject_Z m1 * pow2 e' == 0)%Q) by (rewrite <- S3; ring).
    split; [|exact I].
    destruct sx; cbn [cond_Zopp]; [rewrite inject_Z_opp|]; nra.
  - replace (e2 <=? emax - prec) with true by (symmetry; apply Z.leb_le; unfold emax, prec; lia).
    split; [reflexivity|]. cbn [SF2Q]. split; [|split; [reflexivity|assumption]].
    destruct sx; cbn [cond_Zopp].
    + rewrite inject_Z_opp. change (Z.neg p) with (- Z.pos p). rewrite inject_Z_opp. nra.
    + assumption.
Qed.

Lemma Qfloor_unique (v : Q) (k : Z) :
  (inject_Z k <= v)%Q -> (v < inject_Z (k + 1))%Q -> Qfloor v = k.
Proof.
  intros Hlo Hhi.
  assert (H1 : k <= Qfloor v).
  { rewrite <- (Qfloor_Z k). now apply Qfloor_resp_le. }
  assert (H2 : Qfloor v < k + 1).
  { rewrite Zlt_Qlt. eapply Qle_lt_trans; [apply Qfloor_le|assumption]. }
  lia.
Qed.

Lemma pow2_neg_Z e : e <= 0 -> (pow2 e * inject_Z (2 ^ (- e)) == 1)%Q.
Proof.
  intros He. rewrite <- pow2_nonneg_Z by lia. rewrite <- pow2_add.
  now replace (e + - e) with 0 by lia.
Qed.

Lemma int_of_floor_spec f :
  is_finite f = true -> int_of_floor f = Return (Qfloor (SF2Q f)).
Proof.
  destruct f as [s|s| |s m e]; try discriminate; intros _; try reflexivity.
  cbn [int_of_floor SF2Q]. f_equal. symmetry.
  set (z := cond_Zopp s (Z.pos m)).
  destruct (Z.leb_spec 0 e) as [He|He].
  - rewrite Z.shiftl_mul_pow2 by assumption.
    rewrite pow2_nonneg_Z by assumption.
    rewrite <- inject_Z_mult. apply Qfloor_Z.
  - rewrite Z.shiftl_div_pow2 by lia.
    assert (Hp : 0 < 2 ^ (- e)) by (apply Z.pow_pos_nonneg; lia).
    assert (Hq := pow2_neg_Z e ltac:(lia)).
    assert (Hpq : (0 < inject_Z (2 ^ (- e)))%Q) by (change 0%Q with (inject_Z 0); rewrite <- Zlt_Qlt; assumption).
    assert (Hp2 := pow2_pos e).
    apply Qfloor_unique.
    + assert (H := Z.mul_div_le z (2 ^ (- e)) Hp).
      rewrite Zle_Qle, inject_Z_mult in H. 
      revert H Hq Hpq Hp2. generalize (inject_Z (z / 2 ^ (- e))), (inject_Z z), (inject_Z (2 ^ (- e))), (pow2 e).
      intros k zq c p H Hq Hpq Hp2.
      assert (zq * p == zq * p * (p * c))%Q by (rewrite Hq; ring).
      assert (k == k * (p * c))%Q by (rewrite Hq; ring).
      nra.
    + assert (H := Z.mul_succ_div_gt z (2 ^ (- e)) Hp).
      rewrite <- Z.add_1_r in H.
      rewrite Zlt_Qlt, inject_Z_mult in H.
      revert H Hq Hpq Hp2. generalize (inject_Z (z / 2 ^ (- e) + 1)), (inject_Z z), (inject_Z (2 ^ (- e))), (pow2 e).
      intros k zq c p H Hq Hpq Hp2.
      assert (zq * p == zq * p * (p * c))%Q by (rewrite Hq; ring).
      assert (k == k * (p * c))%Q by (rewrite Hq; ring).
      nra.
Qed.

Lemma inbetween_loc_exact m e :
  inbetween_loc m loc_Exact e (inject_Z m * pow2 e).
Proof.
  unfold inbetween_loc, inbetween. cbn [shr_record_of_loc shr_m shr_r shr_s Z.b2z].
  rewrite (pow2_pred e). assert (Hp := pow2_pos (e - 1)).
  revert Hp. generalize (pow2 (e - 1)). intros p Hp.
  rewrite inject_Z_plus, inject_Z_mult.
  change (inject_Z 2) with 2%Q. change (inject_Z 0) with 0%Q.
  repeat split; try nra.
Qed.

Lemma inbetween_compat mrs e x y :
  (x == y)%Q -> inbetween mrs e x -> inbetween mrs e y.
Proof.
  intros Hxy [[H1 H2] [H3 H4]]. unfold inbetween.
  repeat split; try (rewrite <- Hxy; auto).
Qed.

Lemma pos_iter_xO m d : Zpos (Pos.iter xO m d) = Zpos m * 2 ^ Zpos d.
Proof.
  induction d as [|d IH] using Pos.peano_ind.
  - cbn [Pos.iter]. lia.
  - rewrite Pos.iter_succ, Pos2Z.inj_xO, IH, Pos2Z.inj_succ.
    rewrite Z.pow_succ_r by lia. ring.
Qed.

Lemma shl_align_spec mx ex ex' :
  let mz := fst (shl_align mx ex ex') in
  let ez := snd (shl_align mx ex ex') in
  ez = Z.min ex ex' /\ Zpos mz = Zpos mx * 2 ^ (ex - ez).
Proof.
  unfold shl_align. destruct (ex' - ex) as [|d|d] eqn:Hd; cbn [fst snd].
  - split; [lia|]. replace (ex - ex) with 0 by lia. lia.
  - split; [lia|]. replace (ex - ex) with 0 by lia. lia.
  - split; [lia|]. rewrite pos_iter_xO. f_equal. f_equal. lia.
Qed.

Lemma of_int_exact n :
  0 <= n < 2 ^ 53 ->
  is_finite (of_int n) = true /\ (SF2Q (of_int n) == inject_Z n)%Q /\
  match of_int n with
  | S754_finite s _ e => s = false /\ e <= 1
  | _ => True
  end.
Proof.
  intros Hn. destruct n as [|p|p]; try lia.
  - repeat split.
  - unfold of_int, binary_normalize, binary_round.
    destruct (shl_align_spec p 0 (SpecFloat.fexp prec emax (Z.pos (digits2_pos p) + 0))) as [E1 E2].
    destruct (shl_align p 0 _) as [mz ez]. cbn [fst snd] in E1, E2.
    change (Z.pos (digits2_pos p)) with (Zdigits2 (Z.pos p)) in E1.
    fold (fexp (Zdigits2 (Z.pos p) + 0)) in E1. rewrite fexp_eq in E1.
    assert (Hd : Zdigits2 (Z.pos p) <= 53) by (apply Zdigits2_le_pow; lia).
    assert (Hd0 := Zdigits2_nonneg (Z.pos p)).
    assert (Hez : ez <= 0) by lia.
    assert (Hdz : Zdigits2 (Z.pos mz) <= Zdigits2 (Z.pos p) - ez).
    { apply Zdigits2_le_pow; [lia|]. split; [lia|]. rewrite E2.
      replace (0 - ez) with (- ez) by lia.
      replace (Zdigits2 (Z.pos p) - ez) with (Zdigits2 (Z.pos p) + - ez) by lia.
      rewrite Z.pow_add_r by lia.
      assert (Hlt := Zdigits2_lt (Z.pos p) ltac:(lia)).
      assert (0 < 2 ^ (- ez)) by (apply Z.pow_pos_nonneg; lia).
      nia. }
    destruct (binary_round_aux_spec false (Z.pos mz) ez loc_Exact
                (inject_Z (Z.pos mz) * pow2 ez)) as (m1 & _ & _ & _ & R3 & _ & Rf & Rv & Rs).
    + lia.
    + apply inbetween_loc_exact.
    + rewrite fexp_eq. lia.
    + assert (He' : Z.max ez (fexp (Zdigits2 (Z.pos mz) + ez)) = ez)
        by (rewrite fexp_eq; lia).
      rewrite He' in *. replace (ez - ez) with 0 in R3 by lia.
      rewrite Z.shiftr_0_r in R3. specialize (R3 ltac:(reflexivity)). subst m1.
      split; [assumption|]. split.
      * rewrite Rv. cbn [cond_Zopp].
        rewrite E2, inject_Z_mult, <- Qmult_assoc.
        replace (0 - ez) with (- ez) by lia.
        rewrite (Qmult_comm (inject_Z (2 ^ (- ez)))), pow2_neg_Z by lia. ring.
      * destruct (binary_round_aux prec emax false (Z.pos mz) ez loc_Exact); auto.
        split; [tauto|lia].
Qed.

Lemma Zdigits2_ge m : 0 < m -> 2 ^ (Zdigits2 m - 1) <= m.
Proof.
  intros Hm. rewrite Zdigits2_log2 by assumption.
  replace (Z.log2 m + 1 - 1) with (Z.log2 m) by lia.
  now apply Z.log2_spec.
Qed.

Lemma pow2_lt_inv a b : (pow2 a < pow2 b)%Q -> a < b.
Proof. intros H. apply (Qpower_lt_compat_l_inv 2); [assumption|reflexivity]. Qed.

Lemma pow2_le a b : a <= b -> (pow2 a <= pow2 b)%Q.
Proof. intros H. apply Qpower_le_compat_l; [assumption|discriminate]. Qed.

(** A positive mantissa whose value is below [2^B] has at most [B - e]
    digits. *)
Lemma digits_bound m e B :
  0 < m -> (inject_Z m * pow2 e < pow2 B)%Q -> Zdigits2 m + e <= B.
Proof.
  intros Hm Hx.
  assert (Hd := Zdigits2_ge m Hm).
  assert (Hd1 : 0 <= Zdigits2 m - 1).
  { rewrite Zdigits2_log2 by assumption. assert (0 <= Z.log2 m) by apply Z.log2_nonneg. lia. }
  enough (Zdigits2 m - 1 + e < B) by lia.
  apply pow2_lt_inv. eapply Qle_lt_trans; [|exact Hx].
  rewrite pow2_add, pow2_nonneg_Z by assumption.
  apply Qmult_le_compat_r; [|apply Qlt_le_weak, pow2_pos].
  now rewrite <- Zle_Qle.
Qed.

(** On the grid of multiples of [2^e], [e <= 0], integers are grid points. *)
Lemma grid_le k m e x :
  e <= 0 -> (inject_Z k <= x)%Q -> (x < inject_Z (m + 1) * pow2 e)%Q ->
  (inject_Z k <= inject_Z m * pow2 e)%Q.
Proof.
  intros He Hk Hx. assert (Hq := pow2_neg_Z e He). assert (Hp := pow2_pos e).
  set (c := 2 ^ (- e)) in *.
  assert (Hc : 0 < c) by (apply Z.pow_pos_nonneg; lia).
  assert (HK : (inject_Z k == inject_Z (k * c) * pow2 e)%Q).
  { rewrite inject_Z_mult, <- Qmult_assoc, (Qmult_comm (inject_Z c)), Hq. ring. }
  rewrite HK in *.
  assert (Hlt : (inject_Z (k * c) * pow2 e < inject_Z (m + 1) * pow2 e)%Q)
    by (eapply Qle_lt_trans; eassumption).
  apply Qmult_lt_r in Hlt; [|assumption]. rewrite <- Zlt_Qlt in Hlt.
  apply Qmult_le_compat_r; [|now apply Qlt_le_weak].
  rewrite <- Zle_Qle. lia.
Qed.

Lemma grid_ge k m e x :
  e <= 0 -> (x < inject_Z k)%Q -> (inject_Z m * pow2 e <= x)%Q ->
  (inject_Z (m + 1) * pow2 e <= inject_Z k)%Q.
Proof.
  intros He Hk Hx. assert (Hq := pow2_neg_Z e He). assert (Hp := pow2_pos e).
  set (c := 2 ^ (- e)) in *.
  assert (HK : (inject_Z k == inject_Z (k * c) * pow2 e)%Q).
  { rewrite inject_Z_mult, <- Qmult_assoc, (Qmult_comm (inject_Z c)), Hq. ring. }
  rewrite HK in *.
  assert (Hlt : (inject_Z m * pow2 e < inject_Z (k * c) * pow2 e)%Q)
    by (eapply Qle_lt_trans; eassumption).
  apply Qmult_lt_r in Hlt; [|assumption]. rewrite <- Zlt_Qlt in Hlt.
  apply Qmult_le_compat_r; [|now apply Qlt_le_weak].
  rewrite <- Zle_Qle. lia.
Qed.

Lemma SF2Q_nonneg_sign s m e : (0 <= SF2Q (S754_finite s m e))%Q -> s = false.
Proof.
  destruct s; [|reflexivity]. cbn [SF2Q cond_Zopp]. intros H. exfalso.
  assert (Hp := pow2_pos e).
  change (Z.neg m) with (- Z.pos m) in H. rewrite inject_Z_opp in H.
  assert (0 < inject_Z (Z.pos m))%Q by (change 0%Q with (inject_Z 0); now rewrite <- Zlt_Qlt).
  nra.
Qed.

(** The product of an exactly converted sample count and a ratio in
    [[0, 1)] is a finite double between 0 and the count. *)
Lemma mul_of_int_bounds n r :
  0 <= n < 2 ^ 53 -> is_finite r = true ->
  (0 <= SF2Q r)%Q -> (SF2Q r < 1)%Q ->
  is_finite (mul (of_int n) r) = true /\
  (0 <= SF2Q (mul (of_int n) r))%Q /\
  (SF2Q (mul (of_int n) r) <= inject_Z n)%Q.
Proof.
  intros Hn Hfr Hr0 Hr1.
  destruct (of_int_exact n Hn) as (Hfn & Hvn & Hsn).
  assert (Hn0 : (0 <= inject_Z n)%Q)
    by (change 0%Q with (inject_Z 0); rewrite <- Zle_Qle; lia).
  destruct (of_int n) as [sx|sx| |sx mx ex]; try discriminate;
    destruct r as [sy|sy| |sy my ey]; try discriminate.
  1-3: unfold mul; cbn [SFmul SF2Q is_finite]; repeat split; lra.
  destruct Hsn as [-> Hex]. apply SF2Q_nonneg_sign in Hr0 as Hsy. subst sy.
  cbn [SF2Q cond_Zopp] in *.
  assert (Hpx := pow2_pos ex). assert (Hpy := pow2_pos ey).
  assert (Hmy : (1 <= inject_Z (Z.pos my))%Q) by (change 1%Q with (inject_Z 1); rewrite <- Zle_Qle; lia).
  assert (Hmx : (1 <= inject_Z (Z.pos mx))%Q) by (change 1%Q with (inject_Z 1); rewrite <- Zle_Qle; lia).
  assert (Hey : ey < 0).
  { apply pow2_lt_inv. change (pow2 0) with 1%Q. nra. }
  unfold mul, SFmul. cbn [xorb].
  set (x := (inject_Z (Z.pos (mx * my)) * pow2 (ex + ey))%Q).
  assert (Hx : (x == inject_Z n * (inject_Z (Z.pos my) * pow2 ey))%Q).
  { subst x. rewrite Pos2Z.inj_mul, inject_Z_mult, pow2_add, <- Hvn. ring. }
  assert (Hxn : (x < inject_Z n)%Q).
  { rewrite Hx. assert (0 < inject_Z n)%Q by (rewrite <- Hvn; nra). nra. }
  assert (Hn53 : (inject_Z n < pow2 53)%Q).
  { rewrite pow2_nonneg_Z by lia. rewrite <- Zlt_Qlt. lia. }
  assert (Hdig : Zdigits2 (Z.pos (mx * my)) + (ex + ey) <= 53).
  { apply digits_bound; [lia|]. fold x. lra. }
  destruct (binary_round_aux_spec false (Z.pos (mx * my)) (ex + ey) loc_Exact x)
    as (m1 & R1 & R0 & [R2 R2'] & _ & _ & Rf & Rv & _).
  - lia.
  - apply inbetween_loc_exact.
  - rewrite fexp_eq. lia.
  - set (e' := Z.max (ex + ey) (fexp (Zdigits2 (Z.pos (mx * my)) + (ex + ey)))) in *.
    assert (He' : e' <= 0) by (subst e'; rewrite fexp_eq; lia).
    set (m' := Z.shiftr (Z.pos (mx * my)) (e' - (ex + ey))) in *.
    split; [assumption|]. rewrite Rv. cbn [cond_Zopp].
    assert (Hp := pow2_pos e').
    assert (Hup := grid_ge n m' e' x He' Hxn R2).
    assert (Hm1 : (0 <= inject_Z m1 /\ inject_Z m1 <= inject_Z (m' + 1))%Q)
      by (change 0%Q with (inject_Z 0); rewrite <- !Zle_Qle; lia).
    split; [nra|].
    eapply Qle_trans; [|exact Hup].
    apply Qmult_le_compat_r; [tauto|lra].
Qed.

Lemma new_location_spec b r :
  0 < b -> 0 <= r < b ->
  match new_location b r with
  | loc_Exact => r = 0
  | loc_Inexact Lt => 0 < 2 * r < b
  | loc_Inexact Eq => 0 < r /\ 2 * r = b
  | loc_Inexact Gt => b < 2 * r
  end.
Proof.
  intros Hb Hr. unfold new_location, new_location_even, new_location_odd.
  destruct (Z.even b) eqn:Hev; destruct (Z.eqb_spec r 0) as [|Hr0]; try assumption.
  - destruct (Z.compare_spec (2 * r) b); lia.
  - assert (Hodd : Z.odd b = true) by (rewrite <- Z.negb_even, Hev; reflexivity).
    apply Z.odd_spec in Hodd. destruct Hodd as [c Hc].
    destruct (Z.compare_spec (2 * r + 1) b); lia.
Qed.

(** The quotient bracket computed by [SFdiv_core_binary] for two positive
    integers. *)
Lemma div_core_inbetween a b x :
  0 < a -> 0 < b -> (x * inject_Z b == inject_Z a)%Q ->
  let d := Zdigits2 a - Zdigits2 b in
  let e := Z.min (fexp d) 0 in
  exists q l,
    SFdiv_core_binary prec emax a 0 b 0 = (q, e, l) /\
    0 <= q /\ inbetween_loc q l e x /\ (inject_Z q * pow2 e <= x)%Q.
Proof.
  intros Ha Hb Hx d e. unfold SFdiv_core_binary.
  replace (Zdigits2 a + 0 - (Zdigits2 b + 0)) with d by (subst d; lia).
  fold (fexp d). change (0 - 0) with 0. fold e.
  assert (He : e <= 0) by (subst e; lia).
  set (m' := match 0 - e with Z.pos _ => Z.shiftl a (0 - e) | Z0 => a | Z.neg _ => 0 end).
  assert (Hm' : m' = a * 2 ^ (- e)).
  { subst m'. destruct (0 - e) as [|p|p] eqn:Hs; try lia.
    - replace (- e) with 0 by lia. lia.
    - rewrite <- Hs. rewrite Z.shiftl_mul_pow2 by lia.
      now replace (0 - e) with (- e) by lia. }
  clearbody m'.
  assert (Hc : 0 < 2 ^ (- e)) by (apply Z.pow_pos_nonneg; lia).
  assert (Hdiv := Z_div_mod_eq_full m' b).
  assert (Hmod := Z.mod_pos_bound m' b Hb).
  unfold Z.div_eucl at 1. fold (Z.div_eucl m' b).
  assert (Hqr : Z.div_eucl m' b = (m' / b, m' mod b)).
  { unfold Z.div, Z.modulo. now destruct (Z.div_eucl m' b). }
  rewrite Hqr. set (q := m' / b) in *. set (r := m' mod b) in *.
  exists q, (new_location b r). split; [reflexivity|].
  assert (Hq0 : 0 <= q) by (subst q; apply Z.div_pos; nia).
  split; [assumption|].
  assert (Hloc := new_location_spec b r Hb Hmod).
  assert (Hq := pow2_neg_Z e He).
  assert (Hp := pow2_pos (e - 1)).
  assert (HB : (0 < inject_Z b)%Q) by (change 0%Q with (inject_Z 0); now rewrite <- Zlt_Qlt).
  assert (Hae : (inject_Z a == (inject_Z q * inject_Z b + inject_Z r) * pow2 e)%Q).
  { rewrite <- inject_Z_mult, <- inject_Z_plus.
    replace (q * b + r) with (a * 2 ^ (- e)) by lia.
    rewrite inject_Z_mult, <- Qmult_assoc, (Qmult_comm (inject_Z (2 ^ (- e)))), Hq. ring. }
  rewrite (pow2_pred e) in Hae |- *.
  assert (HR : (0 <= inject_Z r)%Q) by (change 0%Q with (inject_Z 0); rewrite <- Zle_Qle; lia).
  assert (HRB : (inject_Z r < inject_Z b)%Q) by (rewrite <- Zlt_Qlt; lia).
  assert (HlocQ : match new_location b r with
                  | loc_Exact => (inject_Z r == 0)%Q
                  | loc_Inexact Lt => (0 < 2 * inject_Z r /\ 2 * inject_Z r < inject_Z b)%Q
                  | loc_Inexact Eq => (2 * inject_Z r == inject_Z b)%Q
                  | loc_Inexact Gt => (inject_Z b < 2 * inject_Z r)%Q
                  end).
  { destruct (new_location b r) as [|[]].
    - now rewrite Hloc.
    - destruct Hloc as [_ Hl]. rewrite <- Hl, inject_Z_mult. reflexivity.
    - change 2%Q with (inject_Z 2). change 0%Q with (inject_Z 0).
      rewrite <- inject_Z_mult, <- !Zlt_Qlt. assumption.
    - change 2%Q with (inject_Z 2). rewrite <- inject_Z_mult, <- !Zlt_Qlt. assumption. }
  clear Hloc. unfold inbetween_loc, inbetween.
  revert HlocQ.
  destruct (new_location b r) as [|[]];
    cbn [shr_record_of_loc shr_m shr_r shr_s Z.b2z];
    rewrite ?inject_Z_plus, ?inject_Z_mult;
    change (inject_Z 2) with 2%Q; change (inject_Z 1) with 1%Q; change (inject_Z 0) with 0%Q;
    intros Hloc.
  all: revert Hloc Hae Hx HB HR HRB Hp.
  all: generalize (pow2 (e - 1)), (inject_Z r), (inject_Z q), (inject_Z a), (inject_Z b).
  all: intros p R Q' A B Hloc Hae Hx HB HR HRB Hp.
  all: assert (HxB : (x * B == (Q' * B + R) * (2 * p))%Q) by (rewrite Hx, Hae; reflexivity).
  all: clear Hx Hae.
  all: repeat split; try discriminate.
  all: try (apply (Qmult_le_r _ _ B); [assumption|]; nra).
  all: try (apply (Qmult_lt_r _ _ B); [assumption|]; nra).
  all: try (intros _; apply (Qmult_inj_r _ _ B); [lra|]; nra).
  all: try (intros Hc'; exfalso; nra).
Qed.

(** The true quotient of a count below [2^53] by a positive integer is a
    finite double whose floor is the Euclidean quotient. *)
Lemma int_true_divide_floor a b :
  0 <= a < 2 ^ 53 -> 0 < b ->
  exists f, int_true_divide a b = Return f /\ is_finite f = true /\
            Qfloor (SF2Q f) = a / b.
Proof.
  intros Ha Hb. unfold int_true_divide.
  destruct (Z.eqb_spec b 0) as [|_]; [lia|].
  destruct (Z.eqb_spec a 0) as [->|Ha0].
  { eexists. split; [reflexivity|]. split; [reflexivity|]. cbn [SF2Q].
    rewrite Z.div_0_l by lia. reflexivity. }
  assert (Ha' : 0 < a) by lia.
  rewrite (Z.abs_eq a), (Z.abs_eq b) by lia.
  replace (a <? 0) with false by (symmetry; apply Z.ltb_ge; lia).
  replace (b <? 0) with false by (symmetry; apply Z.ltb_ge; lia).
  cbn [xorb].
  set (x := (inject_Z a / inject_Z b)%Q).
  assert (HB : (0 < inject_Z b)%Q) by (change 0%Q with (inject_Z 0); now rewrite <- Zlt_Qlt).
  assert (Hx : (x * inject_Z b == inject_Z a)%Q) by (subst x; field; lra).
  destruct (div_core_inbetween a b x Ha' Hb Hx) as (q & l & Hcore & Hq0 & Hin & Hqx).
  rewrite Hcore.
  set (d1 := Zdigits2 a) in *. set (d2 := Zdigits2 b) in *.
  set (e := Z.min (fexp (d1 - d2)) 0) in *.
  assert (Hd1 : d1 <= 53) by (apply Zdigits2_le_pow; lia).
  assert (Hd2 := Zdigits2_ge b Hb). fold d2 in Hd2.
  assert (Hd2' := Zdigits2_lt b ltac:(lia)). fold d2 in Hd2'.
  assert (Hd2p : 1 <= d2) by (subst d2; rewrite Zdigits2_log2 by lia; assert (0 <= Z.log2 b) by apply Z.log2_nonneg; lia).
  assert (Hd1' := Zdigits2_lt a ltac:(lia)). fold d1 in Hd1'.
  assert (Hd1p : 1 <= d1) by (subst d1; rewrite Zdigits2_log2 by lia; assert (0 <= Z.log2 a) by apply Z.log2_nonneg; lia).
  (* the quotient is below 2^(d1 - d2 + 1) *)
  assert (Hxlt : (x < pow2 (d1 - d2 + 1))%Q).
  { apply (Qmult_lt_r _ _ (inject_Z b)); [assumption|]. rewrite Hx.
    apply Qlt_le_trans with (inject_Z (2 ^ d1)); [now rewrite <- Zlt_Qlt|].
    apply Qle_trans with (pow2 (d1 - d2 + 1) * inject_Z (2 ^ (d2 - 1)))%Q.
    - rewrite <- !pow2_nonneg_Z by lia. rewrite <- pow2_add.
      replace (d1 - d2 + 1 + (d2 - 1)) with d1 by lia. apply Qle_refl.
    - apply Qmult_le_l; [apply pow2_pos|]. now rewrite <- Zle_Qle. }
  assert (Hdq : Zdigits2 q + e <= d1 - d2 + 1 \/ q = 0).
  { destruct (Z.eq_dec q 0) as [|Hq]; [now right|left].
    apply digits_bound; [lia|]. eapply Qle_lt_trans; eassumption. }
  set (e' := Z.max e (fexp (Zdigits2 q + e))).
  assert (He' : e' <= Z.max (d1 - d2 - 52) (-1074)).
  { assert (Hee : e <= Z.max (d1 - d2 - 53) (-1074)) by (subst e; rewrite fexp_eq; lia).
    subst e'. rewrite fexp_eq. destruct Hdq as [Hdq| ->]; [lia|]. cbn [Zdigits2]. lia. }
  destruct (binary_round_aux_spec false q e l x Hq0 Hin) as
    (m1 & R1 & R0 & [R2 R2'] & _ & [R4 _] & Rf & Rv & _).
  { fold e'. lia. }
  fold e' in R1, R0, R2, R2', R4, Rv.
  set (m' := Z.shiftr q (e' - e)) in *.
  rewrite Rf. eexists. split; [reflexivity|]. split; [assumption|].
  set (k := a / b).
  assert (Hk1 : k * b <= a) by (subst k; rewrite Z.mul_comm; apply Z.mul_div_le; lia).
  assert (Hk2 : a + 1 <= (k + 1) * b).
  { subst k. assert (H := Z.mul_succ_div_gt a b Hb). lia. }
  assert (Hkx : (inject_Z k <= x)%Q).
  { apply (Qmult_le_r _ _ (inject_Z b)); [assumption|]. rewrite Hx.
    rewrite <- inject_Z_mult, <- Zle_Qle. assumption. }
  assert (Hxk : (x * inject_Z b + 1 <= inject_Z (k + 1) * inject_Z b)%Q).
  { rewrite Hx. change 1%Q with (inject_Z 1).
    rewrite <- inject_Z_mult, <- inject_Z_plus, <- Zle_Qle. assumption. }
  assert (Hp := pow2_pos e').
  apply Qfloor_unique; rewrite Rv; cbn [cond_Zopp].
  - eapply Qle_trans; [apply (grid_le k m' e' x); [lia|assumption|assumption]|].
    apply Qmult_le_compat_r; [|lra]. rewrite <- Zle_Qle. lia.
  - apply Qle_lt_trans with (x + pow2 (e' - 1))%Q; [lra|].
    destruct (Z.le_gt_cases d2 1075) as [Hsmall|Hbig].
    + assert (Hh : (pow2 (e' - 1) <= pow2 (- d2))%Q) by (apply pow2_le; lia).
      assert (Hb2 : (pow2 (- d2) * inject_Z b < 1)%Q).
      { apply Qlt_le_trans with (pow2 (- d2) * inject_Z (2 ^ d2))%Q.
        - apply Qmult_lt_l; [apply pow2_pos|]. now rewrite <- Zlt_Qlt.
        - rewrite <- pow2_nonneg_Z, <- pow2_add by lia.
          replace (- d2 + d2) with 0 by lia. apply Qle_refl. }
      apply (Qmult_lt_r _ _ (inject_Z b)); [assumption|].
      revert Hh Hb2 Hxk HB. generalize (pow2 (e' - 1)), (pow2 (- d2)), (inject_Z (k + 1)), (inject_Z b).
      intros h h2 K B Hh Hb2 Hxk HB. nra.
    + assert (Hab : 2 * a < b).
      { assert (2 ^ 1075 <= 2 ^ (d2 - 1)) by (apply Z.pow_le_mono_r; lia).
        assert (2 * 2 ^ 53 < 2 ^ 1075) by (vm_compute; reflexivity). lia. }
      assert (Hk0 : k = 0) by (subst k; apply Z.div_small; lia).
      rewrite Hk0. change (inject_Z (0 + 1)) with 1%Q.
      assert (Hh : (pow2 (e' - 1) <= pow2 (-1))%Q) by (apply pow2_le; lia).
      change (pow2 (-1)) with (1 # 2)%Q in Hh.
      assert (Hx2 : (x * inject_Z b * 2 < inject_Z b)%Q).
      { rewrite Hx. change 2%Q with (inject_Z 2).
        rewrite <- inject_Z_mult, <- Zlt_Qlt. lia. }
      assert (Hx12 : (x < 1 # 2)%Q).
      { apply (Qmult_lt_r _ _ (inject_Z b)); [assumption|]. lra. }
      lra.
Qed.

(** ** Sample counts *)

Lemma canonical_digits m e :
  canonical_mantissa prec emax m e = true -> Z.pos m < 2 ^ 53 /\ -1074 <= e.
Proof.
  unfold canonical_mantissa. intros H. apply Z.eqb_eq in H.
  fold (fexp (Z.pos (digits2_pos m) + e)) in H. rewrite fexp_eq in H.
  change (Z.pos (digits2_pos m)) with (Zdigits2 (Z.pos m)) in H.
  split; [|lia].
  assert (Hd : Zdigits2 (Z.pos m) <= 53) by lia.
  eapply Z.lt_le_trans; [apply Zdigits2_lt; lia|].
  apply Z.pow_le_mono_r; lia.
Qed.

(** A ratio in range is finite and denotes a rational in [[0, 1)]. *)
Lemma is_ratio_spec r :
  is_ratio r = true ->
  is_finite r = true /\ (0 <= SF2Q r)%Q /\ (SF2Q r < 1)%Q.
Proof.
  unfold is_ratio. rewrite !andb_true_iff. intros [[Hv Hle] Hlt].
  destruct r as [s|s| |s m e]; try discriminate.
  - repeat split; cbn; lra.
  - destruct s; discriminate.
  - destruct s; [discriminate|]. split; [reflexivity|].
    cbn [valid_binary] in Hv. unfold bounded in Hv. apply andb_true_iff in Hv.
    destruct Hv as [Hc _]. apply canonical_digits in Hc. destruct Hc as [Hm He].
    cbn [SF2Q cond_Zopp]. assert (Hp := pow2_pos e).
    assert (Hm0 : (0 < inject_Z (Z.pos m))%Q) by (change 0%Q with (inject_Z 0); rewrite <- Zlt_Qlt; lia).
    split; [nra|].
    unfold ltb, SFltb, one in Hlt. cbn [SFcompare] in Hlt.
    assert (Hlim : (inject_Z (Z.pos m) * pow2 e < inject_Z (2 ^ 53) * pow2 (-53))%Q);
      [|eapply Qlt_le_trans; [exact Hlim|vm_compute; discriminate]].
    destruct (Z.compare_spec e (-52)) as [->|He52|He52]; try discriminate.
    + destruct (Pos.compare_cont Eq m 4503599627370496) eqn:Hcmp; try discriminate.
      assert (Hcmp' : Pos.compare m 4503599627370496 = Lt) by exact Hcmp.
      rewrite Pos.compare_lt_iff in Hcmp'.
      apply Qlt_le_trans with (inject_Z (2 ^ 52) * pow2 (-52))%Q; [|vm_compute; discriminate].
      apply Qmult_lt_r; [assumption|]. rewrite <- Zlt_Qlt.
      exact (Pos2Z.pos_lt_pos _ _ Hcmp').
    + apply Qlt_le_trans with (inject_Z (2 ^ 53) * pow2 e)%Q.
      * apply Qmult_lt_r; [assumption|]. now rewrite <- Zlt_Qlt.
      * apply Qmult_le_l; [vm_compute; reflexivity|]. apply pow2_le. lia.
Qed.

Lemma integer_floor_int z :
  0 <= z < 2 ^ 53 -> integer_floor (PyInt z) = Return z.
Proof.
  intros Hz. destruct (of_int_exact z Hz) as (Hf & Hv & _).
  cbn [integer_floor]. rewrite int_of_floor_spec by assumption.
  now rewrite (Qfloor_comp _ _ Hv), Qfloor_Z.
Qed.

Section Arithmetic.
Context {Self : Type} `{TextCategorizationDataset Self}.
Variables (self : Self) (n : Z).
Hypothesis Hsamples : _get_num_samples self = Return n.
Hypothesis Hn : 0 <= n < 2 ^ 53.
Hypothesis Hratio : is_ratio (train_ratio (super self)) = true.

Lemma train_samples_spec :
  exists t,
    _get_num_train_samples self = Return t /\
    t = Qfloor (SF2Q (mul (of_int n) (train_ratio (super self)))) /\
    0 <= t <= n.
Proof.
  destruct (is_ratio_spec _ Hratio) as (Hfr & Hr0 & Hr1).
  destruct (mul_of_int_bounds n _ Hn Hfr Hr0 Hr1) as (Hfv & Hv0 & Hvn).
  destruct (of_int_exact n Hn) as (Hfn & _ & _).
  eexists. split; [|split; [reflexivity|]].
  - unfold _get_num_train_samples. rewrite Hsamples. cbn [mbind py_bind].
    unfold float_of_int. rewrite Hfn. cbn [mbind py_bind integer_floor].
    now apply int_of_floor_spec.
  - split.
    + rewrite <- (Qfloor_Z 0). now apply Qfloor_resp_le.
    + rewrite <- (Qfloor_Z n) at 2. now apply Qfloor_resp_le.
Qed.

Lemma test_samples_spec t :
  _get_num_train_samples self = Return t -> 0 <= t <= n ->
  _get_num_test_samples self = Return (n - t).
Proof.
  intros Ht Htn. unfold _get_num_test_samples.
  rewrite Hsamples. cbn [mbind py_bind]. rewrite Ht. cbn [mbind py_bind].
  apply integer_floor_int. lia.
Qed.

End Arithmetic.

Lemma batches_spec t b :
  0 <= t < 2 ^ 53 -> 0 < b ->
  (q ← int_true_divide t b; integer_floor (PyFloat q)) = Return (t / b).
Proof.
  intros Ht Hb. destruct (int_true_divide_floor t b Ht Hb) as (f & Hf & Hfin & Hfl).
  rewrite Hf. cbn [mbind py_bind integer_floor].
  rewrite int_of_floor_spec by assumption. now rewrite Hfl.
Qed.

(** C1 (amended). For every number of samples [0 <= n < 2^53] and every
    train ratio that is a double with [0.0 <= r < 1.0],
    [_get_num_train_samples] returns the floor of the product [n * r] and
    [_get_num_test_samples] returns exactly [n] minus that train count. *)
Theorem num_train_test_samples {Self} `{TextCategorizationDataset Self}
  (self : Self) (n : Z) :
  _get_num_samples self = Return n ->
  0 <= n < 2 ^ 53 ->
  is_ratio (train_ratio (super self)) = true ->
  exists t,
    _get_num_train_samples self = Return t /\
    t = Qfloor (SF2Q (mul (of_int n) (train_ratio (super self)))) /\
    _get_num_test_samples self = Return (n - t).
Proof.
  intros Hs Hn Hr.
  destruct (train_samples_spec self n Hs Hn Hr) as (t & Ht & Hfl & Htn).
  exists t. split; [assumption|]. split; [assumption|].
  now apply test_samples_spec.
Qed.

Lemma num_train_test_samples_witness :
  exists t,
    _get_num_train_samples mock_100 = Return t /\
    t = Qfloor (SF2Q (mul (of_int 100) ratio_0_8)) /\
    _get_num_test_samples mock_100 = Return (100 - t).
Proof.
  refine (num_train_test_samples mock_100 100 _ _ _);
    [reflexivity | lia | vm_compute; reflexivity].
Defined.

(** C1 as stated fails outside that domain: a ratio of minus infinity
    passes the guard [train_ratio < 1.0] and makes the train count raise;
    a count above [2^53] is rounded when [np.floor] casts it, as numpy
    does before version 2.1. *)
Lemma num_train_test_samples_counterexample :
  ltb (S754_infinity true) one = true /\
  _get_num_train_samples (mock_with (S754_infinity true) 20 100)
    = Raise OverflowError /\
  ltb (S754_zero false) one = true /\
  _get_num_train_samples (mock_with (S754_zero false) 20 (2 ^ 53 + 1)) = Return 0 /\
  _get_num_test_samples (mock_with (S754_zero false) 20 (2 ^ 53 + 1)) = Return (2 ^ 53) /\
  2 ^ 53 <> 2 ^ 53 + 1 - 0.
Proof. repeat split; try (vm_compute; reflexivity). lia. Qed.

(** C2 (amended). For every number of samples [0 <= n < 2^53], every
    train ratio that is a double with [0.0 <= r < 1.0] and every positive
    batch size, [_get_num_train_batches] returns the floor of the train
    count divided by the batch size and [_get_num_test_batches] the floor
    of the test count divided by it: only full batches are counted. *)
Theorem num_batches_floor {Self} `{TextCategorizationDataset Self}
  (self : Self) (n : Z) :
  _get_num_samples self = Return n ->
  0 <= n < 2 ^ 53 ->
  is_ratio (train_ratio (super self)) = true ->
  0 < batch_size (super self) ->
  exists t,
    _get_num_train_samples self = Return t /\
    _get_num_test_samples self = Return (n - t) /\
    _get_num_train_batches self
      = Return (Qfloor (inject_Z t / inject_Z (batch_size (super self)))) /\
    _get_num_test_batches self
      = Return (Qfloor (inject_Z (n - t) / inject_Z (batch_size (super self)))) /\
    (forall k, _get_num_train_batches self = Return k ->
       k * batch_size (super self) <= t < (k + 1) * batch_size (super self)) /\
    (forall k, _get_num_test_batches self = Return k ->
       k * batch_size (super self) <= n - t < (k + 1) * batch_size (super self)).
Proof.
  intros Hs Hn Hr Hb.
  destruct (train_samples_spec self n Hs Hn Hr) as (t & Ht & _ & Htn).
  assert (Hte := test_samples_spec self n Hs Hn t Ht Htn).
  set (b := batch_size (super self)) in *.
  assert (Htrain : _get_num_train_batches self = Return (t / b)).
  { unfold _get_num_train_batches. rewrite Ht. cbn [mbind py_bind].
    apply batches_spec; lia. }
  assert (Htest : _get_num_test_batches self = Return ((n - t) / b)).
  { unfold _get_num_test_batches. rewrite Hte. cbn [mbind py_bind].
    apply batches_spec; lia. }
  exists t. split; [assumption|]. split; [assumption|].
  rewrite <- !Zdiv_Qdiv. split; [assumption|]. split; [assumption|].
  split; intros k Hk; [rewrite Htrain in Hk|rewrite Htest in Hk];
    injection Hk as <-.
  - assert (H1 := Z.mul_div_le t b Hb). assert (H2 := Z.mul_succ_div_gt t b Hb). lia.
  - assert (H1 := Z.mul_div_le (n - t) b Hb).
    assert (H2 := Z.mul_succ_div_gt (n - t) b Hb). lia.
Qed.

Lemma num_batches_floor_witness :
  exists t,
    _get_num_train_samples mock_100 = Return t /\
    _get_num_test_samples mock_100 = Return (100 - t) /\
    _get_num_train_batches mock_100 = Return (Qfloor (inject_Z t / inject_Z 20)) /\
    _get_num_test_batches mock_100 = Return (Qfloor (inject_Z (100 - t) / inject_Z 20)) /\
    (forall k, _get_num_train_batches mock_100 = Return k ->
       k * 20 <= t < (k + 1) * 20) /\
    (forall k, _get_num_test_batches mock_100 = Return k ->
       k * 20 <= 100 - t < (k + 1) * 20).
Proof.
  refine (num_batches_floor mock_100 100 _ _ _ _);
    [reflexivity | lia | vm_compute; reflexivity | reflexivity].
Defined.

(** C2 as stated fails outside that domain: the quotient of [2^60] train
    samples by 3 is rounded to a double before the floor is taken, and a
    ratio of minus infinity makes the count raise. *)
Lemma num_batches_floor_counterexample :
  ltb ratio_0_5 one = true /\
  _get_num_train_samples (mock_with ratio_0_5 3 (2 ^ 61)) = Return (2 ^ 60) /\
  _get_num_train_batches (mock_with ratio_0_5 3 (2 ^ 61))
    = Return 384307168202282304 /\
  2 ^ 60 / 3 = 384307168202282325 /\
  ltb (S754_infinity true) one = true /\
  _get_num_train_batches (mock_with (S754_infinity true) 20 100)
    = Raise OverflowError.
Proof. repeat split; vm_compute; reflexivity. Qed.

(** ** Dicts *)

Section Dict.
Context {K V : Type} `{EqDecision K}.
Implicit Types (d : dict K V) (k : K) (v : V).

Lemma dict_get_set k v k' d :
  dict_get k' (dict_set k v d) = if decide (k' = k) then Some v else dict_get k' d.
Proof.
  induction d as [|[k0 v0] d IH]; cbn [dict_set dict_get].
  - repeat case_decide; congruence.
  - destruct (decide (k = k0)) as [->|Hne]; cbn [dict_get];
      repeat case_decide; congruence.
Qed.

Lemma dict_set_keys k v d :
  k ∈ d.*1 -> (dict_set k v d).*1 = d.*1.
Proof.
  induction d as [|[k0 v0] d IH]; cbn [dict_set]; intros Hk.
  - inversion Hk.
  - case_decide; [reflexivity|]. cbn. f_equal. apply IH.
    cbn in Hk. apply elem_of_cons in Hk. destruct Hk; congruence.
Qed.

Lemma dict_set_keys_new k v d :
  k ∉ d.*1 -> dict_set k v d = d ++ [(k, v)].
Proof.
  induction d as [|[k0 v0] d IH]; cbn [dict_set]; intros Hk; [reflexivity|].
  cbn in Hk. apply not_elem_of_cons in Hk. destruct Hk as [Hne Hk].
  case_decide; [congruence|]. cbn. f_equal. now apply IH.
Qed.

Lemma dict_set_NoDup k v d : NoDup d.*1 -> NoDup (dict_set k v d).*1.
Proof.
  intros Hd. destruct (decide (k ∈ d.*1)) as [Hin|Hnin].
  - now rewrite dict_set_keys.
  - rewrite dict_set_keys_new, fmap_app by assumption. cbn.
    apply list.NoDup_app. split; [assumption|]. split.
    + intros x Hx Hx'. apply list_elem_of_singleton in Hx'. congruence.
    + apply list.NoDup_singleton.
Qed.

Lemma dict_get_elem_of k v d :
  NoDup d.*1 -> (k, v) ∈ d <-> dict_get k d = Some v.
Proof.
  induction d as [|[k0 v0] d IH]; cbn [dict_get]; intros Hd.
  - split; [intros Hk; inversion Hk|discriminate].
  - cbn in Hd. apply list.NoDup_cons in Hd. destruct Hd as [Hk0 Hd].
    rewrite elem_of_cons, (IH Hd). case_decide as Hk.
    + subst k0. split.
      * intros [Heq|Hget]; [congruence|]. exfalso. apply Hk0.
        apply (IH Hd) in Hget.
        apply (list_elem_of_fmap_2 fst) in Hget. exact Hget.
      * intros [= ->]. now left.
    + split; [intros [Heq|Hget]; [congruence|assumption]|now right].
Qed.

Lemma dict_comprehension_snoc (kvs : list (K * V)) k v :
  dict_comprehension (kvs ++ [(k, v)]) = dict_set k v (dict_comprehension kvs).
Proof. unfold dict_comprehension. now rewrite fold_left_app. Qed.

Lemma dict_comprehension_NoDup (kvs : list (K * V)) :
  NoDup (dict_comprehension kvs).*1.
Proof.
  induction kvs as [|[k v] kvs IH] using rev_ind.
  - constructor.
  - rewrite dict_comprehension_snoc. now apply dict_set_NoDup.
Qed.

Lemma dict_comprehension_Some (kvs : list (K * V)) k v :
  dict_get k (dict_comprehension kvs) = Some v -> (k, v) ∈ kvs.
Proof.
  induction kvs as [|[k0 v0] kvs IH] using rev_ind; [discriminate|].
  rewrite dict_comprehension_snoc, dict_get_set, elem_of_app.
  case_decide as Hk.
  - intros [= ->]. subst. right. apply list_elem_of_singleton. reflexivity.
  - intros Hget. left. now apply IH.
Qed.

Lemma dict_comprehension_None (kvs : list (K * V)) k :
  dict_get k (dict_comprehension kvs) = None <-> k ∉ kvs.*1.
Proof.
  induction kvs as [|[k0 v0] kvs IH] using rev_ind.
  - split; [intros _ Hk; inversion Hk|reflexivity].
  - rewrite dict_comprehension_snoc, dict_get_set, fmap_app, not_elem_of_app.
    cbn. rewrite list_elem_of_singleton. case_decide as Hk.
    + split; [discriminate|]. intros [_ Hne]. congruence.
    + rewrite IH. tauto.
Qed.

Lemma dict_comprehension_NoDup_Some (kvs : list (K * V)) k v :
  NoDup kvs.*1 -> (k, v) ∈ kvs -> dict_get k (dict_comprehension kvs) = Some v.
Proof.
  induction kvs as [|[k0 v0] kvs IH] using rev_ind; intros Hd Hk.
  - inversion Hk.
  - rewrite fmap_app in Hd. apply list.NoDup_app in Hd. destruct Hd as (Hd & Hdis & _).
    rewrite dict_comprehension_snoc, dict_get_set.
    apply elem_of_app in Hk. destruct Hk as [Hk|Hk].
    + case_decide as Heq.
      * exfalso. subst k0. apply (Hdis k).
        -- apply (list_elem_of_fmap_2 fst) in Hk. exact Hk.
        -- cbn. apply list_elem_of_singleton. reflexivity.
      * now apply IH.
    + apply list_elem_of_singleton in Hk. injection Hk as -> ->.
      case_decide; congruence.
Qed.

End Dict.

Lemma enumerate_elem_of {A} (l : list A) i x :
  (i, x) ∈ enumerate l <-> l !! i = Some x.
Proof.
  unfold enumerate. rewrite elem_of_lookup_imap. split.
  - intros (j & y & [= -> ->] & Hy). assumption.
  - intros Hx. eauto.
Qed.

Lemma enumerate_keys {A} (l : list A) :
  (enumerate l).*1 = seq 0 (length l).
Proof.
  unfold enumerate. rewrite fmap_imap.
  rewrite <- (list_fmap_id (seq 0 (length l))). apply (imap_seq_0 l id).
Qed.

Lemma enumerate_NoDup {A} (l : list A) : NoDup (enumerate l).*1.
Proof. rewrite enumerate_keys. apply NoDup_seq. Qed.

(** ** The two label maps *)


Section LabelMaps.
Variable l : list cell.

Lemma index_to_label_get i : dict_get i (index_to_label l) = l !! i.
Proof.
  unfold index_to_label. destruct (l !! i) as [x|] eqn:Hi.
  - apply dict_comprehension_NoDup_Some; [apply enumerate_NoDup|].
    now apply enumerate_elem_of.
  - apply dict_comprehension_None. rewrite enumerate_keys, elem_of_seq.
    apply lookup_ge_None in Hi. lia.
Qed.

Lemma index_to_label_items i x : (i, x) ∈ items (index_to_label l) <-> l !! i = Some x.
Proof.
  unfold items. rewrite dict_get_elem_of by apply dict_comprehension_NoDup.
  now rewrite index_to_label_get.
Qed.

Lemma label_to_index_Some label i :
  dict_get label (label_to_index l) = Some i -> l !! i = Some label.
Proof.
  intros Hget. apply dict_comprehension_Some in Hget.
  apply list_elem_of_fmap in Hget. destruct Hget as ([j x] & [= -> ->] & Hin).
  now apply index_to_label_items.
Qed.

Lemma label_to_index_None label :
  dict_get label (label_to_index l) = None <-> label ∉ l.
Proof.
  unfold label_to_index. rewrite dict_comprehension_None. apply not_iff_compat.
  rewrite <- list_fmap_compose. rewrite list_elem_of_fmap. split.
  - intros ([j x] & Heq & Hin). cbn in Heq. subst x.
    apply index_to_label_items in Hin. eapply list_elem_of_lookup_2; eassumption.
  - intros Hin. apply list_elem_of_lookup_1 in Hin. destruct Hin as [j Hj].
    exists (j, label). split; [reflexivity|]. now apply index_to_label_items.
Qed.

Lemma label_to_index_NoDup label i :
  NoDup l -> l !! i = Some label -> dict_get label (label_to_index l) = Some i.
Proof.
  intros Hnd Hi. destruct (dict_get label (label_to_index l)) as [j|] eqn:Hget.
  - apply label_to_index_Some in Hget. f_equal.
    eapply NoDup_lookup; eassumption.
  - apply label_to_index_None in Hget. exfalso. apply Hget.
    eapply list_elem_of_lookup_2; eassumption.
Qed.

End LabelMaps.

(** ** [mapM] in the exception monad *)

Lemma mapM_py_Return {A B} (f : A -> py B) (l : list A) (ks : list B) :
  mapM f l = Return ks <-> Forall2 (fun x k => f x = Return k) l ks.
Proof.
  revert ks. induction l as [|x l IH]; intros ks; cbn [mapM].
  - split; [intros [= <-]; constructor|intros Hf; inversion Hf; reflexivity].
  - split.
    + destruct (f x) as [y|e] eqn:Hx; cbn; [|discriminate].
      destruct (mapM f l) as [k|e] eqn:Hl; cbn; [|discriminate].
      intros [= <-]. constructor; [assumption|]. now apply IH.
    + intros Hf. inversion Hf as [|? k ? ks' Hx Hl]; subst.
      rewrite Hx. cbn. apply IH in Hl. rewrite Hl. reflexivity.
Qed.

Lemma mapM_py_Raise {A B} (f : A -> py B) (l : list A) (e : Exception) :
  mapM f l = Raise e -> exists x, x ∈ l /\ f x = Raise e.
Proof.
  induction l as [|x l IH]; cbn [mapM]; [discriminate|].
  destruct (f x) as [y|e'] eqn:Hx; cbn.
  - destruct (mapM f l) as [k|e'] eqn:Hl; cbn; [discriminate|].
    intros [= ->]. destruct (IH eq_refl) as (x' & Hin & Hx').
    exists x'. split; [now right|assumption].
  - intros [= ->]. exists x. split; [now left|assumption].
Qed.

Lemma mapM_py_total {A B} (f : A -> py B) (l : list A) :
  (forall x, x ∈ l -> exists k, f x = Return k) ->
  exists ks, mapM f l = Return ks.
Proof.
  induction l as [|x l IH]; intros Hf; cbn [mapM]; [now exists []|].
  destruct (Hf x ltac:(now left)) as [k ->].
  destruct IH as [ks ->]; [intros y Hy; apply Hf; now right|].
  now exists (k :: ks).
Qed.

Section LabelClaims.
Context {Self : Type} `{TextCategorizationDataset Self}.
Variables (self : Self) (l : list cell).
Hypothesis Hlabels : _get_label_list self = Return l.

Lemma get_index_to_label_map_eq :
  get_index_to_label_map self = Return (index_to_label l).
Proof. unfold get_index_to_label_map. now rewrite Hlabels. Qed.

Lemma get_label_to_index_map_eq :
  get_label_to_index_map self = Return (label_to_index l).
Proof. unfold get_label_to_index_map. now rewrite get_index_to_label_map_eq. Qed.

End LabelClaims.

(** C6. For a duplicate-free label list the two maps are mutual inverses,
    with the dense indices [0 .. num_labels - 1] in label-list order. *)
Theorem label_maps_mutual_inverses {Self} `{TextCategorizationDataset Self}
  (self : Self) (l : list cell) :
  _get_label_list self = Return l ->
  NoDup l ->
  exists index_to_label_map label_to_index_map,
    get_index_to_label_map self = Return index_to_label_map /\
    get_label_to_index_map self = Return label_to_index_map /\
    (forall i : nat, dict_get i index_to_label_map = l !! i) /\
    (forall label, label ∈ l ->
       exists i, dict_get label label_to_index_map = Some i /\
                 dict_get i index_to_label_map = Some label) /\
    (forall i : nat, (i < length l)%nat ->
       exists label, dict_get i index_to_label_map = Some label /\
                     dict_get label label_to_index_map = Some i).
Proof.
  intros Hl Hnd. exists (index_to_label l), (label_to_index l).
  split; [now apply get_index_to_label_map_eq|].
  split; [now apply get_label_to_index_map_eq|].
  split; [apply index_to_label_get|]. split.
  - intros label Hin. apply list_elem_of_lookup_1 in Hin. destruct Hin as [i Hi].
    exists i. split; [now apply label_to_index_NoDup|].
    now rewrite index_to_label_get.
  - intros i Hi. apply lookup_lt_is_Some_2 in Hi. destruct Hi as [label Hi].
    exists label. split; [now rewrite index_to_label_get|].
    now apply label_to_index_NoDup.
Qed.

Lemma label_maps_mutual_inverses_witness :
  exists index_to_label_map label_to_index_map,
    get_index_to_label_map mock_100 = Return index_to_label_map /\
    get_label_to_index_map mock_100 = Return label_to_index_map /\
    (forall i : nat, dict_get i index_to_label_map
                     = [CStr "label_a"; CStr "label_b"] !! i) /\
    (forall label, label ∈ [CStr "label_a"; CStr "label_b"] ->
       exists i, dict_get label label_to_index_map = Some i /\
                 dict_get i index_to_label_map = Some label) /\
    (forall i : nat, (i < 2)%nat ->
       exists label, dict_get i index_to_label_map = Some label /\
                     dict_get label label_to_index_map = Some i).
Proof.
  refine (label_maps_mutual_inverses mock_100 [CStr "label_a"; CStr "label_b"] _ _);
    [reflexivity | refine (bool_decide_unpack (NoDup _) _); vm_compute; exact I].
Defined.

(** C7. [to_indexes] keeps length and order when every label is in the
    vocabulary, and raises [KeyError] exactly when one is not. *)
Theorem to_indexes_spec {Self} `{TextCategorizationDataset Self}
  (self : Self) (l labels : list cell) :
  _get_label_list self = Return l ->
  ((forall label, label ∈ labels -> label ∈ l) ->
   exists idxs label_to_index_map,
     to_indexes self labels = Return idxs /\
     get_label_to_index_map self = Return label_to_index_map /\
     length idxs = length labels /\
     forall (k : nat) label, labels !! k = Some label ->
       exists i, idxs !! k = Some i /\
                 dict_get label label_to_index_map = Some i /\
                 l !! i = Some label) /\
  (to_indexes self labels = Raise KeyError <->
   exists label, label ∈ labels /\ label ∉ l).
Proof.
  intros Hl. unfold to_indexes. rewrite (get_label_to_index_map_eq self l Hl).
  cbn [mbind py_bind]. split.
  - intros Hall.
    destruct (mapM_py_total (dict_getitem (label_to_index l)) labels) as [idxs Hidxs].
    { intros x Hx. unfold dict_getitem.
      destruct (dict_get x (label_to_index l)) as [i|] eqn:Hget; [eauto|].
      apply label_to_index_None in Hget. exfalso. auto. }
    exists idxs, (label_to_index l). split; [assumption|]. split; [reflexivity|].
    apply mapM_py_Return in Hidxs. split.
    + symmetry. eapply Forall2_length; eassumption.
    + intros k label Hk.
      destruct (Forall2_lookup_l _ _ _ _ _ Hidxs Hk) as (i & Hi & Hget).
      exists i. unfold dict_getitem in Hget.
      destruct (dict_get label (label_to_index l)) as [j|] eqn:Hj; [|discriminate].
      injection Hget as ->. split; [assumption|]. split; [reflexivity|].
      now apply label_to_index_Some.
  - split.
    + intros Hraise. apply mapM_py_Raise in Hraise.
      destruct Hraise as (label & Hin & Hget). exists label. split; [assumption|].
      apply label_to_index_None. unfold dict_getitem in Hget.
      now destruct (dict_get label (label_to_index l)).
    + intros (label & Hin & Hnot).
      destruct (mapM (dict_getitem (label_to_index l)) labels) as [idxs|e] eqn:Hm.
      * exfalso. apply mapM_py_Return in Hm.
        apply list_elem_of_lookup_1 in Hin. destruct Hin as [k Hk].
        destruct (Forall2_lookup_l _ _ _ _ _ Hm Hk) as (i & _ & Hget).
        apply label_to_index_None in Hnot. unfold dict_getitem in Hget.
        now rewrite Hnot in Hget.
      * apply mapM_py_Raise in Hm. destruct Hm as (x & _ & Hget).
        unfold dict_getitem in Hget.
        destruct (dict_get x (label_to_index l)); [discriminate|]. congruence.
Qed.

Lemma to_indexes_spec_witness :
  ((forall label, label ∈ [CStr "label_a"; CStr "label_b"; CStr "label_a"] ->
      label ∈ [CStr "label_a"; CStr "label_b"]) ->
   exists idxs label_to_index_map,
     to_indexes mock_100 [CStr "label_a"; CStr "label_b"; CStr "label_a"]
       = Return idxs /\
     get_label_to_index_map mock_100 = Return label_to_index_map /\
     length idxs = 3%nat /\
     forall (k : nat) label,
       [CStr "label_a"; CStr "label_b"; CStr "label_a"] !! k = Some label ->
       exists i, idxs !! k = Some i /\
                 dict_get label label_to_index_map = Some i /\
                 [CStr "label_a"; CStr "label_b"] !! i = Some label) /\
  (to_indexes mock_100 [CStr "label_a"; CStr "label_b"; CStr "label_a"]
     = Raise KeyError <->
   exists label, label ∈ [CStr "label_a"; CStr "label_b"; CStr "label_a"] /\
                 label ∉ [CStr "label_a"; CStr "label_b"]).
Proof.
  refine (to_indexes_spec mock_100 [CStr "label_a"; CStr "label_b"]
            [CStr "label_a"; CStr "label_b"; CStr "label_a"] _).
  reflexivity.
Defined.

(** ** Frames: masks, counts *)

Lemma index_of_elem_of name cols :
  name ∈ cols -> exists i, index_of name cols = Some i.
Proof.
  induction cols as [|c cols IH]; intros Hin; [inversion Hin|].
  cbn [index_of]. case_decide; [eauto|].
  apply elem_of_cons in Hin. destruct Hin as [|Hin]; [congruence|].
  destruct (IH Hin) as [i ->]. cbn. eauto.
Qed.

Lemma getitem_column_cell_at df name :
  name ∈ columns df ->
  getitem_column df name = Return (cell_at df name <$> rows df).
Proof.
  intros Hin. unfold getitem_column, cell_at.
  destruct (index_of_elem_of _ _ Hin) as [i ->]. reflexivity.
Qed.

Lemma select_bool_decide {A} (P : A -> Prop) `{forall x, Decision (P x)} (l : list A) :
  select l ((fun x => bool_decide (P x)) <$> l) = filter P l.
Proof.
  induction l as [|x l IH]; [reflexivity|]. cbn [fmap list_fmap select].
  rewrite filter_cons. destruct (decide (P x)) as [Hx|Hx].
  - rewrite bool_decide_eq_true_2 by assumption. now rewrite IH.
  - rewrite bool_decide_eq_false_2 by assumption. exact IH.
Qed.

Lemma count_incr_get c c' d :
  dict_get c' (count_incr c d) =
  if decide (c' = c) then Some (S (default 0%nat (dict_get c d))) else dict_get c' d.
Proof.
  induction d as [|[c0 n0] d IH]; cbn [count_incr dict_get].
  - repeat case_decide; try congruence. reflexivity.
  - destruct (decide (c = c0)) as [->|Hne]; cbn [dict_get];
      repeat case_decide; try congruence. reflexivity.
Qed.

Lemma count_incr_NoDup c d : NoDup d.*1 -> NoDup (count_incr c d).*1.
Proof.
  induction d as [|[c0 n0] d IH]; cbn [count_incr]; intros Hd.
  - cbn. apply list.NoDup_singleton.
  - cbn in Hd. apply list.NoDup_cons in Hd. destruct Hd as [Hc0 Hd].
    case_decide as Hc; cbn; apply list.NoDup_cons; (split; [|auto]).
    + assumption.
    + intros Hin. apply Hc0. apply list_elem_of_fmap in Hin.
      destruct Hin as ([c1 n1] & Heq & Hin). cbn in Heq. subst c1.
      assert (Hget : dict_get c0 (count_incr c d) = Some n1)
        by (apply dict_get_elem_of; auto).
      rewrite count_incr_get in Hget. case_decide; [congruence|].
      apply dict_get_elem_of in Hget; [|assumption].
      apply (list_elem_of_fmap_2 fst) in Hget. exact Hget.
Qed.

Lemma value_counts_snoc s c :
  value_counts (s ++ [c]) =
  match c with CNaN => value_counts s | _ => count_incr c (value_counts s) end.
Proof. unfold value_counts. now rewrite fold_left_app. Qed.

Lemma value_counts_NoDup s : NoDup (value_counts s).*1.
Proof.
  induction s as [|c s IH] using rev_ind; [constructor|].
  rewrite value_counts_snoc. destruct c; auto using count_incr_NoDup.
Qed.

Lemma occurrences_snoc c s c' :
  occurrences c (s ++ [c']) =
  if decide (c' = c) then S (occurrences c s) else occurrences c s.
Proof.
  unfold occurrences. rewrite list.filter_app, length_app.
  rewrite filter_cons, filter_nil. case_decide; cbn; lia.
Qed.

Lemma occurrences_pos c s : (0 < occurrences c s)%nat <-> c ∈ s.
Proof.
  unfold occurrences. split.
  - intros Hlen. destruct (filter (fun c' => c' = c) s) as [|x k] eqn:Hf;
      [cbn in Hlen; lia|].
    assert (Hx : x ∈ filter (fun c' => c' = c) s) by (rewrite Hf; now left).
    apply list_elem_of_filter in Hx. destruct Hx as [-> Hx]. assumption.
  - intros Hin.
    assert (Hx : c ∈ filter (fun c' => c' = c) s) by (apply list_elem_of_filter; auto).
    destruct (filter (fun c' => c' = c) s); [inversion Hx|cbn; lia].
Qed.

Lemma value_counts_get s c :
  dict_get c (value_counts s) =
  if decide (c = CNaN) then None
  else if decide (occurrences c s = 0%nat) then None
  else Some (occurrences c s).
Proof.
  induction s as [|c' s IH] using rev_ind.
  - cbn. now case_decide.
  - rewrite value_counts_snoc, occurrences_snoc.
    destruct (decide (c' = CNaN)) as [->|Hnan].
    + rewrite IH. repeat case_decide; congruence.
    + assert (Hstep : dict_get c (count_incr c' (value_counts s)) =
                      if decide (c = c') then Some (S (default 0%nat (dict_get c' (value_counts s))))
                      else dict_get c (value_counts s)) by apply count_incr_get.
      assert (Hgoal : dict_get c (count_incr c' (value_counts s)) =
                      if decide (c = CNaN) then None
                      else if decide ((if decide (c' = c) then S (occurrences c s)
                                       else occurrences c s) = 0%nat) then None
                      else Some (if decide (c' = c) then S (occurrences c s)
                                 else occurrences c s)).
      { rewrite Hstep. destruct (decide (c = c')) as [->|Hne].
        - rewrite IH. repeat case_decide; try congruence; try lia.
          + cbn. f_equal. lia.
          + reflexivity.
        - rewrite IH. repeat case_decide; congruence. }
      destruct c'; try congruence; exact Hgoal.
Qed.

Lemma index_at_least_elem_of s x c :
  c ∈ index_at_least (value_counts s) x <->
  c <> CNaN /\ c ∈ s /\ x <= Z.of_nat (occurrences c s).
Proof.
  unfold index_at_least. rewrite list_elem_of_fmap. split.
  - intros ([c0 n] & -> & Hin). apply list_elem_of_filter in Hin.
    destruct Hin as [Hx Hin]. cbn in *.
    apply dict_get_elem_of in Hin; [|apply value_counts_NoDup].
    rewrite value_counts_get in Hin.
    repeat case_decide; try discriminate. injection Hin as <-.
    split; [assumption|]. split; [apply occurrences_pos; lia|assumption].
  - intros (Hnan & Hin & Hx). exists (c, occurrences c s). split; [reflexivity|].
    apply list_elem_of_filter. split; [assumption|].
    apply dict_get_elem_of; [apply value_counts_NoDup|].
    rewrite value_counts_get. apply occurrences_pos in Hin.
    repeat case_decide; try congruence; lia.
Qed.

Lemma filter_ext_elem_of {A} (P1 P2 : A -> Prop)
  `{forall x, Decision (P1 x)} `{forall x, Decision (P2 x)} (l : list A) :
  (forall x, x ∈ l -> P1 x <-> P2 x) -> filter P1 l = filter P2 l.
Proof.
  induction l as [|x l IH]; intros Hext; [reflexivity|].
  rewrite !filter_cons.
  assert (Hx := Hext x ltac:(now left)).
  rewrite IH by (intros y Hy; apply Hext; now right).
  repeat case_decide; tauto.
Qed.

Lemma expected_columns_present df :
  (forall col, col ∈ expected_columns -> col ∈ columns df) ->
  forallb (fun col => bool_decide (col ∈ columns df)) expected_columns = true.
Proof.
  intros Hcols. apply forallb_forall. intros col Hcol.
  apply bool_decide_eq_true_2, Hcols, list_elem_of_In, Hcol.
Qed.

Lemma filter_tag_position_spec df position :
  "tag_position"%string ∈ columns df ->
  filter_tag_position position df =
  Return {| columns := columns df;
            rows := filter (fun row => cell_at df "tag_position" row = CInt position)
                      (rows df) |}.
Proof.
  intros Hcol. unfold filter_tag_position.
  rewrite getitem_column_cell_at by assumption. cbn [mbind py_bind].
  unfold getitem_mask, series_eq. rewrite <- list_fmap_compose.
  f_equal. f_equal.
  apply (select_bool_decide (fun row => cell_at df "tag_position" row = CInt position)).
Qed.

Lemma filter_tags_spec df x :
  "tag_name"%string ∈ columns df ->
  filter_tags_with_less_than_x_samples x df =
  Return {| columns := columns df;
            rows := filter (fun row =>
                      cell_at df "tag_name" row <> CNaN /\
                      x <= Z.of_nat (occurrences (cell_at df "tag_name" row)
                                       (cell_at df "tag_name" <$> rows df)))
                      (rows df) |}.
Proof.
  intros Hcol. unfold filter_tags_with_less_than_x_samples.
  rewrite getitem_column_cell_at by assumption. cbn [mbind py_bind].
  unfold getitem_mask, isin. rewrite <- list_fmap_compose.
  f_equal. f_equal.
  set (tags := cell_at df "tag_name" <$> rows df).
  trans (filter (fun row => cell_at df "tag_name" row
                             ∈ index_at_least (value_counts tags) x) (rows df)).
  { apply (select_bool_decide
             (fun row => cell_at df "tag_name" row ∈ index_at_least (value_counts tags) x)). }
  apply filter_ext_elem_of. intros row Hrow.
  rewrite index_at_least_elem_of. split; [tauto|].
  intros [Hnan Hx]. split; [assumption|]. split; [|assumption].
  subst tags. now apply list_elem_of_fmap_2.
Qed.

Lemma tag_position_expected : "tag_position"%string ∈ expected_columns.
Proof. unfold expected_columns. do 3 right. now left. Qed.

Lemma tag_name_expected : "tag_name"%string ∈ expected_columns.
Proof. unfold expected_columns. right. now left. Qed.

Lemma load_dataset_present (df : DataFrame) (min_samples_per_label : Z) :
  (forall col, col ∈ expected_columns -> col ∈ columns df) ->
  let position_0 :=
    filter (fun row => cell_at df "tag_position" row = CInt 0) (rows df) in
  let tags := cell_at df "tag_name" <$> position_0 in
  load_dataset df min_samples_per_label =
  Return {| columns := columns df;
            rows := filter (fun row =>
                      cell_at df "tag_name" row <> CNaN /\
                      min_samples_per_label
                        <= Z.of_nat (occurrences (cell_at df "tag_name" row) tags))
                      position_0 |}.
Proof.
  intros Hcols position_0 tags.
  unfold load_dataset. rewrite expected_columns_present by assumption.
  cbn [assert mbind py_bind].
  rewrite filter_tag_position_spec by (apply Hcols, tag_position_expected).
  cbn [mbind py_bind]. fold position_0.
  rewrite filter_tags_spec by (apply Hcols, tag_name_expected).
  reflexivity.
Qed.

(** C5. [load_dataset] keeps the rows with [tag_position == 0] and, among
    those, the rows whose tag occurs at least [min_samples_per_label] times
    in that subset; the two-row fixture yields its first row. *)
Theorem load_dataset_filters (df : DataFrame) (min_samples_per_label : Z) :
  (forall col, col ∈ expected_columns -> col ∈ columns df) ->
  let position_0 :=
    filter (fun row => cell_at df "tag_position" row = CInt 0) (rows df) in
  let tags := cell_at df "tag_name" <$> position_0 in
  load_dataset df min_samples_per_label =
  Return {| columns := columns df;
            rows := filter (fun row =>
                      cell_at df "tag_name" row <> CNaN /\
                      min_samples_per_label
                        <= Z.of_nat (occurrences (cell_at df "tag_name" row) tags))
                      position_0 |} /\
  load_dataset fixture_2_rows 1 =
  Return {| columns := expected_columns; rows := [fixture_row "1" "tag_a" 0] |}.
Proof.
  intros Hcols position_0 tags. split; [|vm_compute; reflexivity].
  now apply load_dataset_present.
Qed.

Lemma load_dataset_filters_witness :
  load_dataset fixture_6_rows 2 = Return fixture_6_rows /\
  load_dataset fixture_2_rows 1 =
  Return {| columns := expected_columns; rows := [fixture_row "1" "tag_a" 0] |}.
Proof.
  destruct (load_dataset_filters fixture_6_rows 2) as [H1 H2].
  - intros col Hcol. exact Hcol.
  - split; [|exact H2]. rewrite H1. vm_compute. reflexivity.
Defined.

(** ** Binds and assertions *)

Lemma bind_Return {A B} (m : py A) (f : A -> py B) (b : B) :
  m ≫= f = Return b -> exists a, m = Return a /\ f a = Return b.
Proof. destruct m as [a|e]; cbn; [eauto|discriminate]. Qed.

Lemma assert_Return c : assert c = Return tt <-> c = true.
Proof. destruct c; cbn; split; congruence. Qed.

(** One step through a sequence of statements that returned. *)
Tactic Notation "step_returned" hyp(H) "as" simple_intropattern(a) simple_intropattern(Ha) :=
  apply bind_Return in H; destruct H as (a & Ha & H).

(** ** The batch methods of the local dataset *)

Lemma num_train_batches_set_train self i :
  _get_num_train_batches (set_train_batch_index self i) = _get_num_train_batches self.
Proof. reflexivity. Qed.

Lemma num_test_batches_set_test self i :
  _get_num_test_batches (set_test_batch_index self i) = _get_num_test_batches self.
Proof. reflexivity. Qed.

Lemma Local_get_train_batch_eq self nb :
  _get_num_train_batches self = Return nb -> nb <> 0 ->
  get_train_batch self =
  Return (train_batch_at self (train_batch_index self),
          set_train_batch_index self ((train_batch_index self + 1) mod nb)).
Proof.
  intros Hnb Hne. cbn [get_train_batch Local_batches]. unfold Local_get_train_batch.
  rewrite Hnb. cbn [mbind py_bind]. unfold py_mod.
  destruct (Z.eqb_spec nb 0); [contradiction|]. reflexivity.
Qed.

Lemma Local_get_test_batch_eq self nb :
  _get_num_test_batches self = Return nb -> nb <> 0 ->
  get_test_batch self =
  Return (test_batch_at self (test_batch_index self),
          set_test_batch_index self ((test_batch_index self + 1) mod nb)).
Proof.
  intros Hnb Hne. cbn [get_test_batch Local_batches]. unfold Local_get_test_batch.
  rewrite Hnb. cbn [mbind py_bind]. unfold py_mod.
  destruct (Z.eqb_spec nb 0); [contradiction|]. reflexivity.
Qed.

Lemma same_data_refl s : same_data s s.
Proof. repeat split. Qed.

Lemma same_data_trans s1 s2 s3 :
  same_data s1 s2 -> same_data s2 s3 -> same_data s1 s3.
Proof. unfold same_data. intuition congruence. Qed.

Lemma same_data_set_train s i : same_data s (set_train_batch_index s i).
Proof. repeat split. Qed.

Lemma same_data_set_test s i : same_data s (set_test_batch_index s i).
Proof. repeat split. Qed.

Lemma same_data_train_batch_at s s' i :
  same_data s s' -> train_batch_at s' i = train_batch_at s i.
Proof.
  unfold same_data, train_batch_at.
  intros (-> & _ & -> & _ & _ & -> & -> & _). reflexivity.
Qed.


(** [k] successive calls from cursor [c] return the batches at
    [c, c + 1, ...] modulo the batch count. *)
Lemma call_repeatedly_train nb k : forall self,
  _get_num_train_batches self = Return nb ->
  0 <= train_batch_index self < nb ->
  exists self',
    call_repeatedly get_train_batch k self =
    Return ((fun j : nat => train_batch_at self
                              ((train_batch_index self + Z.of_nat j) mod nb))
              <$> seq 0 k,
            self') /\
    same_data self self' /\
    test_batch_index self' = test_batch_index self /\
    train_batch_index self' = (train_batch_index self + Z.of_nat k) mod nb.
Proof.
  induction k as [|k IH]; intros self Hnb Hc.
  - exists self. cbn [call_repeatedly seq fmap list_fmap].
    split. { reflexivity. } split. { apply same_data_refl. }
    split. { reflexivity. } rewrite Z.add_0_r, Z.mod_small; lia.
  - cbn [call_repeatedly]. rewrite (Local_get_train_batch_eq self nb) by (auto; lia).
    cbn [mbind py_bind].
    set (s1 := set_train_batch_index self ((train_batch_index self + 1) mod nb)).
    assert (Hc1 : 0 <= train_batch_index s1 < nb).
    { cbn [train_batch_index s1 set_train_batch_index]. apply Z.mod_pos_bound. lia. }
    destruct (IH s1) as (self' & Hcall & Hsame & Htest & Hcur); [assumption..|].
    rewrite Hcall. cbn [mbind py_bind]. exists self'.
    split; [|split; [|split]].
    + f_equal. f_equal. cbn [seq fmap list_fmap]. f_equal.
      * rewrite Z.add_0_r, Z.mod_small by lia. reflexivity.
      * rewrite <- fmap_S_seq, <- list_fmap_compose. apply list_fmap_ext.
        intros i j _. cbn [compose].
        rewrite (same_data_train_batch_at self s1) by apply same_data_set_train.
        f_equal. cbn [train_batch_index s1 set_train_batch_index].
        rewrite Zplus_mod_idemp_l. f_equal. lia.
    + eapply same_data_trans; [apply same_data_set_train|exact Hsame].
    + rewrite Htest. reflexivity.
    + rewrite Hcur. cbn [train_batch_index s1 set_train_batch_index].
      rewrite Zplus_mod_idemp_l. f_equal. lia.
Qed.

(** ** The constructor *)

Lemma Base__init___Return b r base0 :
  Base__init__ b r = Return base0 ->
  ltb r one = true /\ base0 = {| train_ratio := r; batch_size := b |}.
Proof.
  unfold Base__init__. destruct (ltb r one); cbn; [|discriminate].
  intros [= <-]. auto.
Qed.

Lemma Local__init___inv split file fn b r m pp self :
  Local__init__ split file fn b r m pp = Return self ->
  ltb r one = true /\
  base self = {| train_ratio := r; batch_size := b |} /\
  filename self = fn /\ preprocess_text self = pp /\
  load_dataset file m = Return (_dataset self) /\
  train_batch_index self = 0 /\ test_batch_index self = 0 /\
  (exists nb, _get_num_train_batches self = Return nb /\ 0 < nb) /\
  (exists nb, _get_num_test_batches self = Return nb /\ 0 < nb) /\
  (exists t titles y,
     _get_num_train_samples self = Return t /\
     getitem_column (_dataset self) "title" = Return titles /\
     split titles y t = Some (x_train self, x_test self, y_train self, y_test self)).
Proof.
  intros H. unfold Local__init__ in H. cbv zeta in H.
  step_returned H as b0 Hb.
  apply Base__init___Return in Hb. destruct Hb as [Hr ->].
  step_returned H as d Hd.
  step_returned H as nb Hnb.
  step_returned H as [] Hnb0.
  step_returned H as nb' Hnb'.
  step_returned H as [] Hnb'0.
  step_returned H as tags Htags.
  step_returned H as tags' Htags'.
  step_returned H as y Hy.
  step_returned H as titles Htitles.
  step_returned H as t Ht.
  destruct (split titles _ t) as [[[[xtr xte] ytr] yte]|] eqn:Hsplit; [|discriminate].
  injection H as <-. cbn [base filename preprocess_text _dataset train_batch_index
                         test_batch_index x_train x_test y_train y_test].
  apply assert_Return, Z.ltb_lt in Hnb0. apply assert_Return, Z.ltb_lt in Hnb'0.
  repeat (split; [first [assumption | reflexivity]|]).
  split; [exists nb; split; [exact Hnb|assumption]|].
  split; [exists nb'; split; [exact Hnb'|assumption]|].
  eexists t, titles, _. split; [exact Ht|]. split; [exact Htitles|exact Hsplit].
Qed.

(** ** Cursors *)

Lemma fixture_dataset_constructed :
  Local__init__ split_in_order fixture_6_rows "fake_path" 1 ratio_0_5 1 (fun x => x)
  = Return fixture_dataset.
Proof. vm_compute. reflexivity. Qed.

Lemma same_data_test_batch_at s s' i :
  same_data s s' -> test_batch_at s' i = test_batch_at s i.
Proof.
  unfold same_data, test_batch_at.
  intros (-> & _ & -> & _ & _ & _ & _ & -> & ->). reflexivity.
Qed.

Lemma call_repeatedly_test nb k : forall self,
  _get_num_test_batches self = Return nb ->
  0 <= test_batch_index self < nb ->
  exists self',
    call_repeatedly get_test_batch k self =
    Return ((fun j : nat => test_batch_at self
                              ((test_batch_index self + Z.of_nat j) mod nb))
              <$> seq 0 k,
            self') /\
    same_data self self' /\
    train_batch_index self' = train_batch_index self /\
    test_batch_index self' = (test_batch_index self + Z.of_nat k) mod nb.
Proof.
  induction k as [|k IH]; intros self Hnb Hc.
  - exists self. cbn [call_repeatedly seq fmap list_fmap].
    split. { reflexivity. } split. { apply same_data_refl. }
    split. { reflexivity. } rewrite Z.add_0_r, Z.mod_small; lia.
  - cbn [call_repeatedly]. rewrite (Local_get_test_batch_eq self nb) by (auto; lia).
    cbn [mbind py_bind].
    set (s1 := set_test_batch_index self ((test_batch_index self + 1) mod nb)).
    assert (Hc1 : 0 <= test_batch_index s1 < nb).
    { cbn [test_batch_index s1 set_test_batch_index]. apply Z.mod_pos_bound. lia. }
    destruct (IH s1) as (self' & Hcall & Hsame & Htrain & Hcur); [assumption..|].
    rewrite Hcall. cbn [mbind py_bind]. exists self'.
    split; [|split; [|split]].
    + f_equal. f_equal. cbn [seq fmap list_fmap]. f_equal.
      * rewrite Z.add_0_r, Z.mod_small by lia. reflexivity.
      * rewrite <- fmap_S_seq, <- list_fmap_compose. apply list_fmap_ext.
        intros i j _. cbn [compose].
        rewrite (same_data_test_batch_at self s1) by apply same_data_set_test.
        f_equal. cbn [test_batch_index s1 set_test_batch_index].
        rewrite Zplus_mod_idemp_l. f_equal. lia.
    + eapply same_data_trans; [apply same_data_set_test|exact Hsame].
    + rewrite Htrain. reflexivity.
    + rewrite Hcur. cbn [test_batch_index s1 set_test_batch_index].
      rewrite Zplus_mod_idemp_l. f_equal. lia.
Qed.

(** C3. After [_get_num_train_batches() + 1] calls on a constructed
    dataset the last batch is the first one again: call number [k]
    returns the batch at cursor [k mod num_batches]. *)
Theorem train_batches_wrap_around split file fn b r m pp self :
  Local__init__ split file fn b r m pp = Return self ->
  exists nb batches self',
    _get_num_train_batches self = Return nb /\ 0 < nb /\
    call_repeatedly get_train_batch (Z.to_nat nb + 1) self = Return (batches, self') /\
    batches !! 0%nat = Some (train_batch_at self 0) /\
    batches !! Z.to_nat nb = Some (train_batch_at self 0) /\
    (forall k : nat, (k <= Z.to_nat nb)%nat ->
       batches !! k = Some (train_batch_at self (Z.of_nat k mod nb))) /\
    train_batch_index self' = 1 mod nb.
Proof.
  intros Hinit. apply Local__init___inv in Hinit.
  destruct Hinit as (_ & _ & _ & _ & _ & Hc & _ & (nb & Hnb & Hpos) & _).
  destruct (call_repeatedly_train nb (Z.to_nat nb + 1) self Hnb) as
    (self' & Hcall & _ & _ & Hcur); [lia|].
  rewrite Hc in Hcall, Hcur. eexists nb, _, self'.
  split; [assumption|]. split; [assumption|]. split; [exact Hcall|].
  assert (Hk : forall k : nat, (k <= Z.to_nat nb)%nat ->
            ((fun j : nat => train_batch_at self ((0 + Z.of_nat j) mod nb))
               <$> seq 0 (Z.to_nat nb + 1)) !! k
            = Some (train_batch_at self (Z.of_nat k mod nb))).
  { intros k Hk. rewrite list_lookup_fmap, lookup_seq_lt by lia. reflexivity. }
  split; [|split; [|split]].
  - rewrite Hk by lia. reflexivity.
  - rewrite Hk by lia. rewrite Z2Nat.id by lia. now rewrite Z.mod_same by lia.
  - exact Hk.
  - rewrite Hcur. rewrite Nat2Z.inj_add, Z2Nat.id by lia.
    rewrite Z.add_0_l, <- Zplus_mod_idemp_l, Z.mod_same by lia. reflexivity.
Qed.

Lemma train_batches_wrap_around_witness :
  exists nb batches self',
    _get_num_train_batches fixture_dataset = Return nb /\ 0 < nb /\
    call_repeatedly get_train_batch (Z.to_nat nb + 1) fixture_dataset
      = Return (batches, self') /\
    batches !! 0%nat = Some (train_batch_at fixture_dataset 0) /\
    batches !! Z.to_nat nb = Some (train_batch_at fixture_dataset 0) /\
    (forall k : nat, (k <= Z.to_nat nb)%nat ->
       batches !! k = Some (train_batch_at fixture_dataset (Z.of_nat k mod nb))) /\
    train_batch_index self' = 1 mod nb.
Proof.
  refine (train_batches_wrap_around split_in_order fixture_6_rows "fake_path" 1
            ratio_0_5 1 (fun x => x) fixture_dataset _).
  vm_compute. reflexivity.
Defined.

(** C10. A batch method changes its own cursor and nothing else. *)
Theorem batch_methods_frame (self self' : LocalTextCategorizationDataset) (b : Batch) :
  (get_train_batch self = Return (b, self') ->
   test_batch_index self' = test_batch_index self /\ same_data self self') /\
  (get_test_batch self = Return (b, self') ->
   train_batch_index self' = train_batch_index self /\ same_data self self').
Proof.
  split; intros Hcall;
    cbn [get_train_batch get_test_batch Local_batches] in Hcall;
    unfold Local_get_train_batch, Local_get_test_batch in Hcall;
    apply bind_Return in Hcall; destruct Hcall as (nb & _ & Hcall);
    apply bind_Return in Hcall; destruct Hcall as (i & _ & Hcall);
    injection Hcall as _ <-; split; try reflexivity.
  - apply same_data_set_train.
  - apply same_data_set_test.
Qed.

(** ** Sequences *)

Lemma getitem_is_next_batch {Self} `{TextCategorizationDataset Self}
  `{BatchMethods Self} (self : Self) (idx : Z) :
  __getitem__ get_train_sequence idx self = get_train_batch self /\
  __getitem__ get_test_sequence idx self = get_test_batch self.
Proof. split; reflexivity. Qed.

(** C8. The train (test) sequence has the train (test) batch count as its
    length; an element access is a call of the batch method, whatever the
    index; so two accesses at any indices [idx1], [idx2] return the batches
    at the cursor and at the cursor plus one, and advance the cursor by
    two. *)
Theorem simple_sequence_ignores_index (self : LocalTextCategorizationDataset)
  (n_train n_test idx1 idx2 : Z) :
  _get_num_train_batches self = Return n_train ->
  _get_num_test_batches self = Return n_test ->
  0 <= train_batch_index self < n_train ->
  0 <= test_batch_index self < n_test ->
  __len__ get_train_sequence self = Return n_train /\
  __len__ get_test_sequence self = Return n_test /\
  __getitem__ get_train_sequence idx1 self = get_train_batch self /\
  __getitem__ get_test_sequence idx1 self = get_test_batch self /\
  (exists s1 s2,
     __getitem__ get_train_sequence idx1 self
       = Return (train_batch_at self (train_batch_index self), s1) /\
     __getitem__ get_train_sequence idx2 s1
       = Return (train_batch_at self ((train_batch_index self + 1) mod n_train), s2) /\
     train_batch_index s2 = (train_batch_index self + 2) mod n_train) /\
  (exists s1 s2,
     __getitem__ get_test_sequence idx1 self
       = Return (test_batch_at self (test_batch_index self), s1) /\
     __getitem__ get_test_sequence idx2 s1
       = Return (test_batch_at self ((test_batch_index self + 1) mod n_test), s2) /\
     test_batch_index s2 = (test_batch_index self + 2) mod n_test).
Proof.
  intros Htr Hte Hc Hc'. split; [exact Htr|]. split; [exact Hte|].
  split; [reflexivity|]. split; [reflexivity|]. split.
  - unfold __getitem__. cbn [get_train_sequence get_batch_method].
    rewrite (Local_get_train_batch_eq self n_train) by (auto; lia).
    set (s1 := set_train_batch_index self ((train_batch_index self + 1) mod n_train)).
    exists s1. eexists. split; [reflexivity|].
    rewrite (Local_get_train_batch_eq s1 n_train) by (auto; lia).
    rewrite (same_data_train_batch_at self s1) by apply same_data_set_train.
    split; [reflexivity|].
    cbn [train_batch_index s1 set_train_batch_index].
    rewrite Zplus_mod_idemp_l. f_equal. lia.
  - unfold __getitem__. cbn [get_test_sequence get_batch_method].
    rewrite (Local_get_test_batch_eq self n_test) by (auto; lia).
    set (s1 := set_test_batch_index self ((test_batch_index self + 1) mod n_test)).
    exists s1. eexists. split; [reflexivity|].
    rewrite (Local_get_test_batch_eq s1 n_test) by (auto; lia).
    rewrite (same_data_test_batch_at self s1) by apply same_data_set_test.
    split; [reflexivity|].
    cbn [test_batch_index s1 set_test_batch_index].
    rewrite Zplus_mod_idemp_l. f_equal. lia.
Qed.

Lemma simple_sequence_ignores_index_witness :
  __len__ get_train_sequence fixture_dataset = Return 3 /\
  __len__ get_test_sequence fixture_dataset = Return 3 /\
  __getitem__ get_train_sequence 2 fixture_dataset = get_train_batch fixture_dataset /\
  __getitem__ get_test_sequence 2 fixture_dataset = get_test_batch fixture_dataset /\
  (exists s1 s2,
     __getitem__ get_train_sequence 2 fixture_dataset
       = Return (train_batch_at fixture_dataset 0, s1) /\
     __getitem__ get_train_sequence 0 s1
       = Return (train_batch_at fixture_dataset ((0 + 1) mod 3), s2) /\
     train_batch_index s2 = (0 + 2) mod 3) /\
  (exists s1 s2,
     __getitem__ get_test_sequence 2 fixture_dataset
       = Return (test_batch_at fixture_dataset 0, s1) /\
     __getitem__ get_test_sequence 0 s1
       = Return (test_batch_at fixture_dataset ((0 + 1) mod 3), s2) /\
     test_batch_index s2 = (0 + 2) mod 3).
Proof.
  refine (simple_sequence_ignores_index fixture_dataset 3 3 2 0 _ _ _ _);
    [vm_compute; reflexivity | vm_compute; reflexivity | cbn; lia | cbn; lia].
Defined.

(** ** Slices *)

Lemma py_slice_inside {A} (l : list A) (start stop : Z) :
  0 <= start <= stop -> stop <= Z.of_nat (length l) ->
  py_slice l start stop = take (Z.to_nat (stop - start)) (drop (Z.to_nat start) l) /\
  Z.of_nat (length (py_slice l start stop)) = stop - start.
Proof.
  intros Hs He. unfold py_slice, slice_bound.
  destruct (Z.ltb_spec start 0); [lia|]. destruct (Z.ltb_spec stop 0); [lia|].
  rewrite !Z.min_l by lia. split; [reflexivity|].
  rewrite length_take, length_drop. lia.
Qed.


(** ** Split sizes of a constructed dataset *)

Lemma getitem_column_length df name s :
  getitem_column df name = Return s -> length s = length (rows df).
Proof.
  unfold getitem_column. destruct (index_of name (columns df)); [|discriminate].
  intros [= <-]. apply length_fmap.
Qed.

Lemma constructed_sizes split file fn b r m pp self :
  split_sizes split ->
  Local__init__ split file fn b r m pp = Return self ->
  len_df (_dataset self) < 2 ^ 53 ->
  _get_num_train_samples self = Return (Z.of_nat (length (x_train self))) /\
  length (y_train self) = length (x_train self) /\
  _get_num_test_samples self = Return (Z.of_nat (length (x_test self))) /\
  length (y_test self) = length (x_test self) /\
  Z.of_nat (length (x_train self)) < 2 ^ 53 /\
  Z.of_nat (length (x_test self)) < 2 ^ 53.
Proof.
  intros Hsizes Hinit Hlen. apply Local__init___inv in Hinit.
  destruct Hinit as (_ & _ & _ & _ & _ & _ & _ & _ & _ & t & titles & y & Ht & Hti & Hsp).
  apply Hsizes in Hsp. destruct Hsp as (H1 & H2 & H3 & H4).
  apply getitem_column_length in Hti. unfold len_df in Hlen.
  rewrite Hti in H3, H4.
  assert (Htest : _get_num_test_samples self = Return (Z.of_nat (length (x_test self)))).
  { unfold _get_num_test_samples. cbn [_get_num_samples Local_dataset mbind py_bind].
    rewrite Ht. cbn [mbind py_bind]. unfold len_df. rewrite <- H3.
    apply integer_floor_int. lia. }
  rewrite H1. split; [exact Ht|]. split; [lia|]. split; [exact Htest|].
  split; [lia|]. lia.
Qed.






(** ** Failed assertions of the constructor *)

Lemma bind_Raise {A B} (m : py A) (f : A -> py B) (e : Exception) :
  m ≫= f = Raise e -> m = Raise e \/ exists a, m = Return a /\ f a = Raise e.
Proof. destruct m as [a|e']; cbn; [eauto|]. intros [= ->]. now left. Qed.

(** One step through a sequence of statements that raised: either this
    statement raised, or it returned and a later one raised. *)
Tactic Notation "step_raised" hyp(H) "as" simple_intropattern(a) simple_intropattern(Ha) :=
  apply bind_Raise in H; destruct H as [H|(a & Ha & H)].

Lemma no_assert_bind {A B} (m : py A) (f : A -> py B) :
  no_assert m -> (forall a, m = Return a -> no_assert (f a)) -> no_assert (m ≫= f).
Proof.
  unfold no_assert. intros Hm Hf H. apply bind_Raise in H.
  destruct H as [H|(a & Ha & H)]; [auto|]. eapply Hf; eassumption.
Qed.

Lemma no_assert_Return {A} (a : A) : no_assert (Return a).
Proof. discriminate. Qed.

Lemma no_assert_int_of_floor f : no_assert (int_of_floor f).
Proof. destruct f; discriminate. Qed.

Lemma no_assert_integer_floor v : no_assert (integer_floor v).
Proof. destruct v; apply no_assert_int_of_floor. Qed.

Lemma no_assert_float_of_int n : no_assert (float_of_int n).
Proof. unfold float_of_int. destruct (is_finite (of_int n)); discriminate. Qed.

Lemma no_assert_int_true_divide a b : no_assert (int_true_divide a b).
Proof.
  unfold int_true_divide. destruct (b =? 0); [discriminate|].
  destruct (a =? 0); [discriminate|].
  destruct (SFdiv_core_binary prec emax (Z.abs a) 0 (Z.abs b) 0) as [[q e] l].
  destruct (is_finite _); discriminate.
Qed.

Lemma no_assert_num_train_samples (self : LocalTextCategorizationDataset) :
  no_assert (_get_num_train_samples self).
Proof.
  unfold _get_num_train_samples. apply no_assert_bind; [apply no_assert_Return|].
  intros n _. apply no_assert_bind; [apply no_assert_float_of_int|].
  intros fn _. apply no_assert_integer_floor.
Qed.

Lemma no_assert_num_train_batches (self : LocalTextCategorizationDataset) :
  no_assert (_get_num_train_batches self).
Proof.
  unfold _get_num_train_batches.
  apply no_assert_bind; [apply no_assert_num_train_samples|].
  intros t _. apply no_assert_bind; [apply no_assert_int_true_divide|].
  intros q _. apply no_assert_integer_floor.
Qed.

Lemma no_assert_num_test_batches (self : LocalTextCategorizationDataset) :
  no_assert (_get_num_test_batches self).
Proof.
  unfold _get_num_test_batches, _get_num_test_samples.
  apply no_assert_bind.
  - apply no_assert_bind; [apply no_assert_Return|]. intros n _.
    apply no_assert_bind; [apply no_assert_num_train_samples|]. intros t _.
    apply no_assert_integer_floor.
  - intros t _. apply no_assert_bind; [apply no_assert_int_true_divide|].
    intros q _. apply no_assert_integer_floor.
Qed.

Lemma no_assert_getitem_column df name : no_assert (getitem_column df name).
Proof. unfold getitem_column. destruct (index_of name (columns df)); discriminate. Qed.

Lemma no_assert_to_indexes (self : LocalTextCategorizationDataset) labels :
  no_assert (to_indexes self labels).
Proof.
  unfold to_indexes. apply no_assert_bind; [discriminate|].
  intros mp _ H. apply mapM_py_Raise in H. destruct H as (x & _ & H).
  unfold dict_getitem in H. destruct (dict_get x mp); discriminate.
Qed.

Create HintDb no_assert.
#[local] Hint Resolve no_assert_Return no_assert_integer_floor
  no_assert_float_of_int no_assert_int_true_divide no_assert_num_train_samples
  no_assert_num_train_batches no_assert_num_test_batches
  no_assert_getitem_column no_assert_to_indexes : no_assert.

(** A statement that cannot fail an assertion did not raise one. *)
Ltac not_an_assertion H :=
  exfalso; revert H;
  match goal with |- ?m = Raise AssertionError -> False => change (no_assert m) end;
  auto with no_assert.

Lemma forallb_false_elem_of {A} (f : A -> bool) (l : list A) :
  forallb f l = false <-> exists x, x ∈ l /\ f x = false.
Proof.
  induction l as [|x l IH]; cbn [forallb].
  - split; [discriminate|]. intros (x & Hx & _). inversion Hx.
  - rewrite andb_false_iff, IH. split.
    + intros [Hx|(y & Hy & Hfy)]; [exists x; split; [now left|assumption]|].
      exists y. split; [now right|assumption].
    + intros (y & Hy & Hfy). apply elem_of_cons in Hy.
      destruct Hy as [->|Hy]; [now left|right; eauto].
Qed.

Lemma load_dataset_assertion file m :
  load_dataset file m = Raise AssertionError <->
  exists col, col ∈ expected_columns /\ col ∉ columns file.
Proof.
  split.
  - intros H. unfold load_dataset in H.
    destruct (forallb _ expected_columns) eqn:Hall.
    + exfalso. assert (Hcols : forall col, col ∈ expected_columns -> col ∈ columns file).
      { intros col Hcol. rewrite forallb_forall in Hall.
        apply list_elem_of_In in Hcol. apply Hall in Hcol.
        now apply bool_decide_eq_true_1 in Hcol. }
      assert (Hl := load_dataset_present file m Hcols). cbv zeta in Hl.
      unfold load_dataset in Hl. rewrite Hall in Hl. rewrite Hl in H. discriminate.
    + apply forallb_false_elem_of in Hall. destruct Hall as (col & Hcol & Hf).
      exists col. split; [assumption|]. now apply bool_decide_eq_false_1 in Hf.
  - intros (col & Hcol & Hmiss). unfold load_dataset.
    assert (Hall : forallb (fun col => bool_decide (col ∈ columns file)) expected_columns = false).
    { apply forallb_false_elem_of. exists col. split; [assumption|].
      now apply bool_decide_eq_false_2. }
    rewrite Hall. reflexivity.
Qed.

Lemma ltb_false_Base__init__ b r :
  ltb r one = false -> Base__init__ b r = Raise AssertionError.
Proof. unfold Base__init__. now intros ->. Qed.

Lemma ltb_true_Base__init__ b r :
  ltb r one = true ->
  Base__init__ b r = Return {| train_ratio := r; batch_size := b |}.
Proof. unfold Base__init__. now intros ->. Qed.

Lemma assert_Raise c e : assert c = Raise e -> c = false /\ e = AssertionError.
Proof. destruct c; cbn; [discriminate|]. intros [= <-]. auto. Qed.

(** C4 (amended). Construction ends in a failed assertion exactly when
    the ratio is not below 1.0, or a required column is missing, or the
    train batch count or (that one being positive) the test batch count
    of the loaded frame is not positive. *)
Theorem construction_assertion_cases split file fn b r m pp :
  Local__init__ split file fn b r m pp = Raise AssertionError <->
  ltb r one = false \/
  (exists col, col ∈ expected_columns /\ col ∉ columns file) \/
  (exists d n_train,
     load_dataset file m = Return d /\
     _get_num_train_batches (loaded_dataset b r d) = Return n_train /\
     (n_train <= 0 \/
      exists n_test,
        _get_num_test_batches (loaded_dataset b r d) = Return n_test /\
        n_test <= 0)).
Proof.
  split.
  - intros H. unfold Local__init__ in H. cbv zeta in H.
    destruct (ltb r one) eqn:Hr; [|now left]. right.
    rewrite (ltb_true_Base__init__ b r Hr) in H. cbn [mbind py_bind] in H.
    step_raised H as d Hd.
    { left. exact (proj1 (load_dataset_assertion file m) H). }
    right. exists d.
    step_raised H as nb Hnb.
    { not_an_assertion H. }
    exists nb. split; [assumption|]. split; [exact Hnb|].
    step_raised H as [] Hpos.
    { left. apply assert_Raise in H. destruct H as [H _]. now apply Z.ltb_ge. }
    right.
    step_raised H as nb' Hnb'.
    { not_an_assertion H. }
    exists nb'. split; [exact Hnb'|].
    step_raised H as [] Hpos'.
    { apply assert_Raise in H. destruct H as [H _]. now apply Z.ltb_ge. }
    exfalso.
    step_raised H as tags _.
    { not_an_assertion H. }
    step_raised H as tags' _.
    { not_an_assertion H. }
    step_raised H as y _.
    { not_an_assertion H. }
    step_raised H as titles _.
    { not_an_assertion H. }
    step_raised H as t _.
    { not_an_assertion H. }
    destruct (split titles _ t) as [[[[? ?] ?] ?]|]; discriminate.
  - intros Hcases. unfold Local__init__. cbv zeta.
    destruct (ltb r one) eqn:Hr;
      [|now rewrite (ltb_false_Base__init__ b r Hr)].
    rewrite (ltb_true_Base__init__ b r Hr). cbn [mbind py_bind].
    destruct Hcases as [Hf|[Hcol|(d & nb & Hd & Hnb & Hcount)]]; [discriminate| |].
    + apply (proj2 (load_dataset_assertion file m)) in Hcol. rewrite Hcol. reflexivity.
    + rewrite Hd. cbn [mbind py_bind].
      change (_get_num_train_batches (loaded_dataset b r d) = Return nb) in Hnb.
      unfold loaded_dataset in Hnb.
      match goal with
      | |- ?m ≫= _ = _ => change m with (_get_num_train_batches (loaded_dataset b r d))
      end.
      unfold loaded_dataset. rewrite Hnb. cbn [mbind py_bind].
      destruct (Z.ltb_spec 0 nb) as [Hpos|Hneg]; cbn [assert mbind py_bind];
        [|reflexivity].
      destruct Hcount as [Hle|(nb' & Hnb' & Hle)]; [lia|].
      match goal with
      | |- ?m ≫= _ = _ => change m with (_get_num_test_batches (loaded_dataset b r d))
      end.
      rewrite Hnb'. cbn [mbind py_bind].
      destruct (Z.ltb_spec 0 nb') as [Hpos'|Hneg]; [lia|]. reflexivity.
Qed.

(** C4 as stated fails: a negative batch size makes the batch count
    negative, and a NaN ratio is not below 1.0, and construction ends in a
    failed assertion in both cases although none of the listed cases
    holds. *)
Lemma construction_assertion_counterexample :
  Local__init__ split_in_order fixture_6_rows "fake_path" (-2) ratio_0_5 1 (fun x => x)
    = Raise AssertionError /\
  ~ fatal_cases_as_specified fixture_6_rows (-2) ratio_0_5 1 /\
  Local__init__ split_in_order fixture_6_rows "fake_path" 2 S754_nan 1 (fun x => x)
    = Raise AssertionError /\
  ~ fatal_cases_as_specified fixture_6_rows 2 S754_nan 1.
Proof.
  split; [vm_compute; reflexivity|]. split; [|split; [vm_compute; reflexivity|]].
  - intros [H|[(col & Hcol & Hmiss)|(d & Hd & Hcount)]].
    + vm_compute in H. discriminate.
    + apply Hmiss. exact Hcol.
    + assert (Hl : load_dataset fixture_6_rows 1 = Return fixture_6_rows)
        by (vm_compute; reflexivity).
      rewrite Hl in Hd. injection Hd as <-.
      destruct Hcount as [H|H]; vm_compute in H; discriminate.
  - intros [H|[(col & Hcol & Hmiss)|(d & Hd & Hcount)]].
    + vm_compute in H. discriminate.
    + apply Hmiss. exact Hcol.
    + assert (Hl : load_dataset fixture_6_rows 1 = Return fixture_6_rows)
        by (vm_compute; reflexivity).
      rewrite Hl in Hd. injection Hd as <-.
      destruct Hcount as [H|H]; vm_compute in H; discriminate.
Qed.

(** ** Unit tests and examples *)

(** The tests of [tests/test_utils.py], run on the model. *)

Example test__get_num_train_samples :
  _get_num_train_samples mock_100 = Return 80.
Proof. vm_compute. reflexivity. Qed.

Example test__get_num_train_batches :
  _get_num_train_batches mock_100 = Return 4.
Proof. vm_compute. reflexivity. Qed.

Example test__get_num_test_batches :
  _get_num_test_batches mock_100 = Return 1.
Proof. vm_compute. reflexivity. Qed.

Example test_get_index_to_label_map :
  get_index_to_label_map mock_100
  = Return [(0%nat, CStr "label_a"); (1%nat, CStr "label_b")].
Proof. vm_compute. reflexivity. Qed.

Example test_index_to_label_and_label_to_index_are_identity :
  get_label_to_index_map mock_100
  = Return [(CStr "label_a", 0%nat); (CStr "label_b", 1%nat)].
Proof. vm_compute. reflexivity. Qed.

Example test_to_indexes :
  to_indexes mock_100 [CStr "label_a"; CStr "label_b"; CStr "label_a"]
  = Return [0; 1; 0]%nat.
Proof. vm_compute. reflexivity. Qed.

Example test__get_num_samples_is_correct :
  _get_num_samples fixture_dataset = Return 6.
Proof. reflexivity. Qed.

Example test_get_train_batch_returns_expected_shape :
  exists self batch self',
    Local__init__ split_in_order fixture_6_rows "fake_path" 2 ratio_0_5 1
      (fun x => x) = Return self /\
    get_train_batch self = Return (batch, self') /\
    length batch.1 = 2%nat /\ length <$> batch.2 = [3; 3]%nat.
Proof. do 3 eexists. repeat split; vm_compute; reflexivity. Qed.

Example test_get_test_batch_returns_expected_shape :
  exists self batch self',
    Local__init__ split_in_order fixture_6_rows "fake_path" 2 ratio_0_5 1
      (fun x => x) = Return self /\
    get_test_batch self = Return (batch, self') /\
    length batch.1 = 2%nat /\ length <$> batch.2 = [3; 3]%nat.
Proof. do 3 eexists. repeat split; vm_compute; reflexivity. Qed.

Example test_get_train_batch_raises_assertion_error :
  Local__init__ split_in_order fixture_6_rows "fake_path" 5 ratio_0_5 1 (fun x => x)
  = Raise AssertionError.
Proof. vm_compute. reflexivity. Qed.

(** The test count is the rest after the floored train count: with 10
    samples and a ratio of 0.33 it is 7, whereas the floor of
    [10 * (1.0 - 0.33)] is 6. *)
Example test_samples_are_the_rest :
  _get_num_train_samples (mock_with ratio_0_33 1 10) = Return 3 /\
  _get_num_test_samples (mock_with ratio_0_33 1 10) = Return 7 /\
  integer_floor (PyFloat (mul (of_int 10) (SFsub prec emax one ratio_0_33)))
  = Return 6.
Proof. repeat split; vm_compute; reflexivity. Qed.

(** Tags are counted after the position filter: [tag_a] occurs twice in
    the file but once at position 0, and a threshold of 2 drops it. *)
Example tags_are_counted_after_the_position_filter :
  load_dataset fixture_positions 2
  = Return {| columns := expected_columns;
              rows := [fixture_row "3" "tag_b" 0; fixture_row "4" "tag_b" 0] |}.
Proof. vm_compute. reflexivity. Qed.

(** A split in order has the sizes the library's split guarantees. *)
Lemma split_in_order_sizes : split_sizes split_in_order.
Proof.
  intros x y k x_tr x_te y_tr y_te. unfold split_in_order.
  destruct (Z.leb_spec 0 k); [|discriminate].
  destruct (Z.leb_spec k (Z.of_nat (length x))); [|discriminate].
  destruct (Nat.eqb_spec (length x) (length y)) as [Hxy|]; [|discriminate].
  cbn [andb]. intros [= <- <- <- <-].
  rewrite !length_take, !length_drop. lia.
Qed.

(** * Further properties of the code *)

(** ** [integer_floor] on every argument *)

(** X1. [integer_floor] of a float is its mathematical floor when the float is
    finite; an infinity raises [OverflowError] and NaN [ValueError]. *)
Theorem integer_floor_of_float (f : float) :
  integer_floor (PyFloat f) =
  match f with
  | S754_nan => Raise ValueError
  | S754_infinity _ => Raise OverflowError
  | _ => Return (Qfloor (SF2Q f))
  end.
Proof.
  destruct f as [s|s| |s m e]; try reflexivity.
  cbn [integer_floor]. now apply int_of_floor_spec.
Qed.

Lemma binary_round_opp m e :
  binary_round prec emax true m e = SFopp (binary_round prec emax false m e).
Proof.
  unfold binary_round. destruct (shl_align m e _) as [mz ez].
  unfold binary_round_aux.
  destruct (shr_fexp prec emax (Z.pos mz) ez loc_Exact) as [mrs1 e1].
  destruct (shr_fexp prec emax _ e1 loc_Exact) as [mrs2 e2].
  destruct (shr_m mrs2); try reflexivity.
  destruct (e2 <=? emax - prec); reflexivity.
Qed.

Lemma of_int_opp n : of_int (- n) = SFopp (of_int n) \/ n = 0.
Proof.
  destruct n as [|p|p]; [now right| |]; left.
  - change (of_int (- Z.pos p)) with (binary_round prec emax true p 0).
    change (of_int (Z.pos p)) with (binary_round prec emax false p 0).
    apply binary_round_opp.
  - change (of_int (- Z.neg p)) with (binary_round prec emax false p 0).
    change (of_int (Z.neg p)) with (binary_round prec emax true p 0).
    rewrite binary_round_opp.
    now destruct (binary_round prec emax false p 0) as [[]|[]| |[] ? ?].
Qed.

Lemma SF2Q_opp f : (SF2Q (SFopp f) == - SF2Q f)%Q.
Proof.
  destruct f as [s|s| |s m e]; cbn [SFopp SF2Q]; try reflexivity.
  destruct s; cbn [negb cond_Zopp].
  - change (Z.neg m) with (- Z.pos m). rewrite inject_Z_opp. ring.
  - change (Z.neg m) with (- Z.pos m). rewrite inject_Z_opp. ring.
Qed.

Lemma is_finite_opp f : is_finite (SFopp f) = is_finite f.
Proof. now destruct f. Qed.

(** X2. The cast that [np.floor] performs on an integer loses nothing below
    [2^53] in absolute value: [integer_floor] is the identity there. *)
Theorem integer_floor_of_int (z : Z) :
  - 2 ^ 53 < z < 2 ^ 53 -> integer_floor (PyInt z) = Return z.
Proof.
  intros Hz. destruct (Z.le_gt_cases 0 z) as [Hpos|Hneg].
  - apply integer_floor_int. lia.
  - destruct (of_int_exact (- z)) as (Hf & Hv & _); [lia|].
    destruct (of_int_opp (- z)) as [Hopp|]; [|lia].
    rewrite Z.opp_involutive in Hopp.
    cbn [integer_floor]. rewrite Hopp.
    rewrite int_of_floor_spec by now rewrite is_finite_opp.
    f_equal. rewrite (Qfloor_comp _ (inject_Z z)).
    + apply Qfloor_Z.
    + rewrite SF2Q_opp, Hv, inject_Z_opp. ring.
Qed.

Lemma integer_floor_of_int_witness :
  integer_floor (PyInt (-20)) = Return (-20).
Proof. apply (integer_floor_of_int (-20)). lia. Defined.

(** ** The test split is never empty *)

(** A double below 1.0 is at most the double just below 1.0. *)
Lemma ratio_below_one r :
  is_ratio r = true -> (SF2Q r <= 1 - pow2 (-53))%Q.
Proof.
  intros Hr. destruct (is_ratio_spec r Hr) as (_ & _ & Hlt).
  unfold is_ratio in Hr. rewrite !andb_true_iff in Hr. destruct Hr as [[Hv Hle] _].
  destruct r as [s|s| |s m e]; try discriminate.
  destruct s; [discriminate|].
  cbn [valid_binary] in Hv. unfold bounded in Hv. apply andb_true_iff in Hv.
  destruct Hv as [Hc _]. apply canonical_digits in Hc. destruct Hc as [Hm He].
  cbn [SF2Q cond_Zopp] in *. assert (Hp := pow2_pos e).
  {
    assert (Hm1 : (1 <= inject_Z (Z.pos m))%Q)
      by (change 1%Q with (inject_Z 1); rewrite <- Zle_Qle; lia).
    destruct (Z.le_gt_cases 0 e) as [He0|He0].
    { assert (H1 := pow2_le 0 e He0). change (pow2 0) with 1%Q in H1. nra. }
    destruct (Z.le_gt_cases (-53) e) as [He53|He53].
    + assert (Hg := grid_ge 1 (Z.pos m) e (inject_Z (Z.pos m) * pow2 e)
                      ltac:(lia) Hlt ltac:(apply Qle_refl)).
      rewrite inject_Z_plus in Hg.
      assert (H53 := pow2_le (-53) e He53).
      change (inject_Z 1) with 1%Q in Hg. nra.
    + assert (H54 := pow2_le e (-54) ltac:(lia)).
      assert (Hm53 : (inject_Z (Z.pos m) <= inject_Z (2 ^ 53))%Q)
        by (rewrite <- Zle_Qle; lia).
      apply Qle_trans with (inject_Z (2 ^ 53) * pow2 (-54))%Q;
        [|vm_compute; discriminate].
      apply Qle_trans with (inject_Z (2 ^ 53) * pow2 e)%Q.
      * apply Qmult_le_compat_r; [assumption|lra].
      * apply Qmult_le_l; [vm_compute; reflexivity|assumption]. }
Qed.

Lemma pow2_lt a b : a < b -> (pow2 a < pow2 b)%Q.
Proof.
  intros Hab. apply Qlt_le_trans with (pow2 (a + 1)); [|apply pow2_le; lia].
  rewrite pow2_succ. assert (Hp := pow2_pos a). lra.
Qed.

(** The rounded product [n * r] stays strictly below [n]. *)
Lemma mul_of_int_lt n r :
  0 < n < 2 ^ 53 -> is_ratio r = true ->
  (SF2Q (mul (of_int n) r) < inject_Z n)%Q.
Proof.
  intros Hn Hratio.
  destruct (is_ratio_spec r Hratio) as (Hfr & Hr0 & Hr1).
  assert (Hr53 := ratio_below_one r Hratio).
  destruct (of_int_exact n ltac:(lia)) as (Hfn & Hvn & Hsn).
  assert (Hn0 : (0 < inject_Z n)%Q)
    by (change 0%Q with (inject_Z 0); rewrite <- Zlt_Qlt; lia).
  destruct (of_int n) as [sx|sx| |sx mx ex]; try discriminate;
    destruct r as [sy|sy| |sy my ey]; try discriminate.
  1-2: cbn [SF2Q] in Hvn; lra.
  { unfold mul. cbn [SFmul SF2Q]. lra. }
  destruct Hsn as [-> Hex]. apply SF2Q_nonneg_sign in Hr0 as Hsy. subst sy.
  cbn [SF2Q cond_Zopp] in *.
  assert (Hpx := pow2_pos ex). assert (Hpy := pow2_pos ey).
  assert (Hmy : (1 <= inject_Z (Z.pos my))%Q)
    by (change 1%Q with (inject_Z 1); rewrite <- Zle_Qle; lia).
  assert (Hey : ey < 0).
  { apply pow2_lt_inv. change (pow2 0) with 1%Q. nra. }
  unfold mul, SFmul. cbn [xorb].
  set (M := Z.pos (mx * my)).
  set (x := (inject_Z M * pow2 (ex + ey))%Q).
  assert (Hx : (x == inject_Z n * (inject_Z (Z.pos my) * pow2 ey))%Q).
  { subst x M. rewrite Pos2Z.inj_mul, inject_Z_mult, pow2_add, <- Hvn. ring. }
  assert (H53 := pow2_pos (-53)).
  assert (Hgap : (inject_Z n * pow2 (-53) <= inject_Z n - x)%Q) by (rewrite Hx; nra).
  assert (Hxn : (x < inject_Z n)%Q) by nra.
  assert (Hn53 : (inject_Z n < pow2 53)%Q).
  { rewrite pow2_nonneg_Z by lia. rewrite <- Zlt_Qlt. lia. }
  assert (HM : 0 < M) by (subst M; lia).
  assert (Hdig : Zdigits2 M + (ex + ey) <= 53).
  { apply digits_bound; [lia|]. fold x. lra. }
  destruct (binary_round_aux_spec false M (ex + ey) loc_Exact x)
    as (m1 & R1 & R0 & [R2 R2'] & R3 & [R4 R4'] & Rf & Rv & _).
  - lia.
  - apply inbetween_loc_exact.
  - rewrite fexp_eq. lia.
  - set (D := Zdigits2 M + (ex + ey)) in *.
    set (e' := Z.max (ex + ey) _) in *.
    set (m' := Z.shiftr M (e' - (ex + ey))) in *.
    rewrite Rv. cbn [cond_Zopp].
    destruct R1 as [->| ->]; [lra|].
    destruct (Qlt_le_dec (inject_Z (m' + 1) * pow2 e') (inject_Z n)) as [|Hge];
      [assumption|exfalso].
    assert (Hhalf : (inject_Z n * pow2 (-53) <= pow2 (e' - 1))%Q) by lra.
    assert (Hcases : e' = ex + ey \/ e' = -1074 \/ e' = D - 53)
      by (subst e'; rewrite fexp_eq; lia).
    destruct Hcases as [He'|[He'|He']].
    + assert (Hm' : m' = M).
      { subst m'. rewrite He'. replace (ex + ey - (ex + ey)) with 0 by lia.
        apply Z.shiftr_0_r. }
      assert (m' + 1 = m'); [|lia].
      apply R3. rewrite Hm', He'. reflexivity.
    + rewrite He' in Hhalf.
      assert (Hlt := pow2_lt (-1074 - 1) (-53) ltac:(lia)).
      assert (Hn1 : (1 <= inject_Z n)%Q)
        by (change 1%Q with (inject_Z 1); rewrite <- Zle_Qle; lia).
      nra.
    + assert (Hd := Zdigits2_ge M HM).
      assert (Hd1 : 0 <= Zdigits2 M - 1).
      { rewrite Zdigits2_log2 by assumption.
        assert (0 <= Z.log2 M) by apply Z.log2_nonneg. lia. }
      assert (Hlow : (pow2 (D - 1) <= x)%Q).
      { subst x D. replace (Zdigits2 M + (ex + ey) - 1)
          with ((Zdigits2 M - 1) + (ex + ey)) by lia.
        rewrite pow2_add, pow2_nonneg_Z by assumption.
        apply Qmult_le_compat_r; [|apply Qlt_le_weak, pow2_pos].
        now rewrite <- Zle_Qle. }
      assert (Heq : (pow2 (e' - 1) == pow2 (D - 1) * pow2 (-53))%Q).
      { rewrite <- pow2_add. rewrite He'. replace (D - 53 - 1) with (D - 1 + -53) by lia.
        reflexivity. }
      rewrite Heq in Hhalf.
      assert (Hpd := pow2_pos (D - 1)). nra.
Qed.

(** X3. With a ratio in [[0.0, 1.0)] and at least one sample, the train count
    is strictly below the number of samples: at least one sample is left
    for the test split, and the two counts add up to the total. *)
Theorem test_split_never_empty {Self} `{TextCategorizationDataset Self}
  (self : Self) (n : Z) :
  _get_num_samples self = Return n ->
  0 < n < 2 ^ 53 ->
  is_ratio (train_ratio (super self)) = true ->
  exists n_train n_test,
    _get_num_train_samples self = Return n_train /\
    _get_num_test_samples self = Return n_test /\
    n_train + n_test = n /\ 0 <= n_train < n /\ 1 <= n_test <= n.
Proof.
  intros Hs Hn Hr.
  destruct (train_samples_spec self n Hs ltac:(lia) Hr) as (t & Ht & Hfl & Htn).
  assert (Hte := test_samples_spec self n Hs ltac:(lia) t Ht Htn).
  assert (Hlt : t < n).
  { rewrite Hfl. apply Z.lt_le_trans with (Qceiling (inject_Z n)); [|rewrite Qceiling_Z; lia].
    assert (Hm := mul_of_int_lt n _ Hn Hr).
    rewrite Zlt_Qlt. eapply Qle_lt_trans; [apply Qfloor_le|].
    eapply Qlt_le_trans; [exact Hm|]. rewrite Qceiling_Z. apply Qle_refl. }
  exists t, (n - t). repeat split; try assumption; lia.
Qed.

Lemma test_split_never_empty_witness :
  exists n_train n_test,
    _get_num_train_samples mock_100 = Return n_train /\
    _get_num_test_samples mock_100 = Return n_test /\
    n_train + n_test = 100 /\ 0 <= n_train < 100 /\ 1 <= n_test <= 100.
Proof.
  refine (test_split_never_empty mock_100 100 _ _ _);
    [reflexivity | lia | vm_compute; reflexivity].
Defined.

(** ** The methods a subclass has to provide *)

(** X4. An exception of [_get_num_samples] reaches the caller of every count
    built on it, one of [_get_label_list] the caller of every label
    method, and one of a batch method the caller of the sequence's item
    access; in the base class, where these four raise
    [NotImplementedError], all of these methods raise it. *)
Theorem hook_errors_propagate {Self} `{TextCategorizationDataset Self}
  `{BatchMethods Self} (self : Self) (e : Exception) (labels : list cell) :
  (_get_num_samples self = Raise e ->
   _get_num_train_samples self = Raise e /\
   _get_num_test_samples self = Raise e /\
   _get_num_train_batches self = Raise e /\
   _get_num_test_batches self = Raise e /\
   __len__ get_train_sequence self = Raise e /\
   __len__ get_test_sequence self = Raise e) /\
  (_get_label_list self = Raise e ->
   get_num_labels self = Raise e /\
   get_index_to_label_map self = Raise e /\
   get_label_to_index_map self = Raise e /\
   to_indexes self labels = Raise e) /\
  (get_train_batch self = Raise e ->
   forall idx, __getitem__ get_train_sequence idx self = Raise e) /\
  (get_test_batch self = Raise e ->
   forall idx, __getitem__ get_test_sequence idx self = Raise e).
Proof.
  split; [|split; [|split; intros Hraise idx; exact Hraise]]; intros Hraise.
  - assert (Htrain : _get_num_train_samples self = Raise e)
      by (unfold _get_num_train_samples; now rewrite Hraise).
    assert (Htest : _get_num_test_samples self = Raise e)
      by (unfold _get_num_test_samples; now rewrite Hraise).
    cbn [__len__ num_batches_method get_train_sequence get_test_sequence].
    unfold _get_num_train_batches, _get_num_test_batches.
    rewrite Htrain, Htest. repeat split; reflexivity.
  - unfold to_indexes, get_label_to_index_map, get_index_to_label_map, get_num_labels.
    rewrite Hraise. repeat split; reflexivity.
Qed.

Lemma hook_errors_propagate_witness :
  (_get_num_train_samples base_20_0_8 = Raise NotImplementedError /\
   _get_num_test_samples base_20_0_8 = Raise NotImplementedError /\
   _get_num_train_batches base_20_0_8 = Raise NotImplementedError /\
   _get_num_test_batches base_20_0_8 = Raise NotImplementedError /\
   __len__ get_train_sequence base_20_0_8 = Raise NotImplementedError /\
   __len__ get_test_sequence base_20_0_8 = Raise NotImplementedError) /\
  (get_num_labels base_20_0_8 = Raise NotImplementedError /\
   get_index_to_label_map base_20_0_8 = Raise NotImplementedError /\
   get_label_to_index_map base_20_0_8 = Raise NotImplementedError /\
   to_indexes base_20_0_8 [] = Raise NotImplementedError) /\
  (forall idx, __getitem__ get_train_sequence idx base_20_0_8
               = Raise NotImplementedError) /\
  (forall idx, __getitem__ get_test_sequence idx base_20_0_8
               = Raise NotImplementedError).
Proof.
  destruct (hook_errors_propagate base_20_0_8 NotImplementedError [])
    as (H1 & H2 & H3 & H4).
  split; [|split; [|split]]; [apply H1|apply H2|apply H3|apply H4]; reflexivity.
Defined.

(** ** What a constructed dataset was constructed with *)

Lemma binary_round_aux_sign sx m e l :
  match binary_round_aux prec emax sx m e l with
  | S754_zero s | S754_infinity s | S754_finite s _ _ => s = sx
  | S754_nan => True
  end.
Proof.
  unfold binary_round_aux.
  destruct (shr_fexp prec emax m e l) as [mrs1 e1].
  destruct (shr_fexp prec emax _ e1 loc_Exact) as [mrs2 e2].
  destruct (shr_m mrs2); try reflexivity.
  destruct (e2 <=? emax - prec); reflexivity.
Qed.

(** The floor has the sign of the float. *)
Lemma int_of_floor_sign f k :
  int_of_floor f = Return k ->
  match f with
  | S754_zero _ => k = 0
  | S754_finite true _ _ => k < 0
  | S754_finite false _ _ => 0 <= k
  | _ => False
  end.
Proof.
  destruct f as [s|s| |s m e]; cbn [int_of_floor]; try discriminate;
    intros [= <-]; [reflexivity|].
  destruct s; cbn [cond_Zopp].
  - apply Z.nle_gt. rewrite Z.shiftl_nonneg. lia.
  - apply Z.shiftl_nonneg. lia.
Qed.

Lemma of_int_sign z :
  match of_int z with
  | S754_zero s | S754_infinity s | S754_finite s _ _ => s = (z <? 0)
  | S754_nan => True
  end.
Proof.
  destruct z as [|p|p]; [reflexivity| |];
    unfold of_int, binary_normalize, binary_round;
    destruct (shl_align p 0 _) as [mz ez]; apply binary_round_aux_sign.
Qed.

Lemma integer_floor_int_sign z k :
  integer_floor (PyInt z) = Return k ->
  (0 <= z -> 0 <= k) /\ (z <= 0 -> k <= 0).
Proof.
  cbn [integer_floor]. intros Hk.
  destruct (Z.eq_dec z 0) as [->|Hz].
  { change (of_int 0) with (S754_zero false) in Hk. injection Hk as <-. lia. }
  apply int_of_floor_sign in Hk.
  assert (Hs := of_int_sign z).
  destruct (of_int z) as [s|s| |s m e]; cbn beta iota in Hk, Hs;
    try contradiction; [lia|].
  subst s. destruct (Z.ltb_spec z 0); lia.
Qed.

(** A positive quotient needs operands of the same sign. *)
Lemma int_true_divide_sign a b q k :
  int_true_divide a b = Return q -> int_of_floor q = Return k -> 0 < k ->
  (0 < a /\ 0 < b) \/ (a < 0 /\ b < 0).
Proof.
  unfold int_true_divide.
  destruct (Z.eqb_spec b 0) as [|Hb]; [discriminate|].
  destruct (Z.eqb_spec a 0) as [|Ha].
  { intros [= <-] [= <-]. lia. }
  destruct (SFdiv_core_binary prec emax (Z.abs a) 0 (Z.abs b) 0) as [[m e] l].
  assert (Hs := binary_round_aux_sign (xorb (a <? 0) (b <? 0)) m e l).
  destruct (is_finite _); [|discriminate]. intros [= <-] Hk Hpos.
  apply int_of_floor_sign in Hk.
  destruct (binary_round_aux prec emax _ m e l) as [s|s| |s m' e'];
    cbn beta iota in Hk, Hs; try contradiction; [lia|].
  subst s. destruct (Z.ltb_spec a 0), (Z.ltb_spec b 0); cbn [xorb] in Hk; lia.
Qed.

(** A train count that is not zero needs samples and a finite ratio of
    its sign. *)
Lemma train_samples_sign n r fn t :
  0 <= n -> float_of_int n = Return fn ->
  int_of_floor (mul fn r) = Return t -> t <> 0 ->
  0 < n /\ exists m e, r = S754_finite (t <? 0) m e.
Proof.
  intros Hn Hfn Ht Hne. unfold float_of_int in Hfn.
  assert (Hs := of_int_sign n).
  destruct (is_finite (of_int n)) eqn:Hfin; [|discriminate].
  injection Hfn as <-.
  destruct n as [|p|p]; [|clear Hn|lia].
  { exfalso. revert Ht. change (of_int 0) with (S754_zero false).
    destruct r as [s|s| |s m e]; unfold mul; cbn [SFmul int_of_floor];
      try discriminate; intros [= <-]; lia. }
  split; [lia|].
  destruct (of_int (Z.pos p)) as [sx|sx| |sx mx ex]; cbn beta iota in Hs;
    try discriminate.
  - exfalso. revert Ht.
    destruct r as [s|s| |s m e]; unfold mul; cbn [SFmul int_of_floor];
      try discriminate; intros [= <-]; lia.
  - change (Z.pos p <? 0) with false in Hs. subst sx.
    destruct r as [s|s| |s m e]; unfold mul in Ht; cbn [SFmul int_of_floor xorb] in Ht;
      try discriminate.
    + injection Ht as <-. lia.
    + assert (Hsgn := binary_round_aux_sign s (Z.pos (mx * m)) (ex + e) loc_Exact).
      apply int_of_floor_sign in Ht.
      destruct (binary_round_aux prec emax s (Z.pos (mx * m)) (ex + e) loc_Exact)
        as [s'|s'| |s' m' e']; cbn beta iota in Ht, Hsgn; try contradiction.
      subst s'. exists m, e. f_equal.
      destruct s, (Z.ltb_spec t 0); try reflexivity; lia.
Qed.

Lemma Local__init___signs split file fn b r m pp self :
  Local__init__ split file fn b r m pp = Return self ->
  0 < b /\
  ltb (S754_zero false) r = true /\ ltb r one = true /\ is_finite r = true /\
  exists n_train n_test,
    _get_num_train_samples self = Return n_train /\
    _get_num_test_samples self = Return n_test /\
    0 < n_train < len_df (_dataset self) /\ 0 < n_test.
Proof.
  intros Hinit. apply Local__init___inv in Hinit.
  destruct Hinit as (Hr1 & Hbase & _ & _ & _ & _ & _ & (nb & Hnb & Hpos) &
                     (nb' & Hnb' & Hpos') & _).
  unfold _get_num_train_batches in Hnb. unfold _get_num_test_batches in Hnb'.
  cbn [super Local_dataset] in Hnb, Hnb'. rewrite Hbase in Hnb, Hnb'.
  cbn [batch_size] in Hnb, Hnb'.
  step_returned Hnb as t Ht. step_returned Hnb as q Hq.
  step_returned Hnb' as t' Ht'. step_returned Hnb' as q' Hq'.
  cbn [integer_floor] in Hnb, Hnb'.
  assert (Hsame := int_true_divide_sign t b q nb Hq Hnb Hpos).
  assert (Hsame' := int_true_divide_sign t' b q' nb' Hq' Hnb' Hpos').
  assert (Hlen : 0 <= len_df (_dataset self)) by (unfold len_df; lia).
  assert (Ht0 := Ht). unfold _get_num_train_samples in Ht0.
  cbn [_get_num_samples super Local_dataset mbind py_bind] in Ht0.
  rewrite Hbase in Ht0. cbn [train_ratio] in Ht0.
  step_returned Ht0 as f Hf. cbn [integer_floor] in Ht0.
  assert (Ht'0 := Ht'). unfold _get_num_test_samples in Ht'0.
  cbn [_get_num_samples Local_dataset mbind py_bind] in Ht'0.
  rewrite Ht in Ht'0. cbn [mbind py_bind] in Ht'0.
  apply integer_floor_int_sign in Ht'0. destruct Ht'0 as [Hge Hle].
  assert (Hb : 0 < b) by lia.
  assert (Htpos : 0 < t) by lia.
  destruct (train_samples_sign _ r f t Hlen Hf Ht0 ltac:(lia)) as (_ & mr & er & ->).
  destruct (Z.ltb_spec t 0); [lia|].
  split; [assumption|]. split; [reflexivity|]. split; [assumption|].
  split; [reflexivity|].
  exists t, t'. split; [assumption|]. split; [assumption|]. lia.
Qed.

(** X5. Construction returns only for a positive batch size and a finite
    ratio strictly between 0.0 and 1.0, and then both splits receive
    samples: the train count lies strictly between 0 and the number of
    rows kept. *)
Theorem constructed_parameters split file fn b r m pp self :
  Local__init__ split file fn b r m pp = Return self ->
  0 < b /\
  ltb (S754_zero false) r = true /\ ltb r one = true /\ is_finite r = true /\
  exists n_train n_test,
    _get_num_train_samples self = Return n_train /\
    _get_num_test_samples self = Return n_test /\
    0 < n_train < len_df (_dataset self) /\ 0 < n_test.
Proof. apply Local__init___signs. Qed.

Lemma constructed_parameters_witness :
  0 < 1 /\
  ltb (S754_zero false) ratio_0_5 = true /\ ltb ratio_0_5 one = true /\
  is_finite ratio_0_5 = true /\
  exists n_train n_test,
    _get_num_train_samples fixture_dataset = Return n_train /\
    _get_num_test_samples fixture_dataset = Return n_test /\
    0 < n_train < len_df (_dataset fixture_dataset) /\ 0 < n_test.
Proof.
  refine (constructed_parameters split_in_order fixture_6_rows "fake_path" 1
            ratio_0_5 1 (fun x => x) fixture_dataset _).
  vm_compute. reflexivity.
Defined.

(** ** The label maps of a list that repeats labels *)

Section DictOrder.
Context {K V : Type} `{EqDecision K}.

Lemma dict_comprehension_id (kvs : list (K * V)) :
  NoDup kvs.*1 -> dict_comprehension kvs = kvs.
Proof.
  induction kvs as [|[k v] kvs IH] using rev_ind; intros Hd; [reflexivity|].
  rewrite fmap_app in Hd. apply list.NoDup_app in Hd. destruct Hd as (Hd & Hdis & _).
  rewrite dict_comprehension_snoc, IH by assumption.
  apply dict_set_keys_new. intros Hk. apply (Hdis k Hk).
  cbn. apply list_elem_of_singleton. reflexivity.
Qed.

(** A comprehension keeps, for each key, the value it met last. *)
Lemma dict_comprehension_last (kvs : list (K * V)) (k : K) (v : V) :
  dict_get k (dict_comprehension kvs) = Some v <->
  exists i : nat, kvs !! i = Some (k, v) /\
    forall (j : nat) v', (i < j)%nat -> kvs !! j <> Some (k, v').
Proof.
  induction kvs as [|[k0 v0] kvs IH] using rev_ind.
  - cbn. split; [discriminate|]. intros (i & Hi & _). discriminate.
  - rewrite dict_comprehension_snoc, dict_get_set. case_decide as Hk.
    + subst k0. split.
      * intros [= ->]. exists (length kvs). split.
        -- rewrite lookup_app_r, Nat.sub_diag by lia. reflexivity.
        -- intros j v' Hj Hlook. apply lookup_lt_Some in Hlook.
           rewrite length_app in Hlook. cbn in Hlook. lia.
      * intros (i & Hi & Hlast).
        destruct (decide (i = length kvs)) as [->|Hne].
        -- rewrite lookup_app_r, Nat.sub_diag in Hi by lia. now injection Hi as ->.
        -- exfalso. assert (Hlt : (i < length kvs)%nat).
           { apply lookup_lt_Some in Hi. rewrite length_app in Hi. cbn in Hi. lia. }
           apply (Hlast (length kvs) v0 Hlt).
           rewrite lookup_app_r, Nat.sub_diag by lia. reflexivity.
    + rewrite IH. split.
      * intros (i & Hi & Hlast). exists i. split.
        -- rewrite lookup_app_l by (eapply lookup_lt_Some; eassumption). assumption.
        -- intros j v' Hj Hlook.
           destruct (decide (j < length kvs)%nat) as [Hlt|Hge].
           ++ rewrite lookup_app_l in Hlook by assumption. eapply Hlast; eassumption.
           ++ rewrite lookup_app_r in Hlook by lia.
              destruct (j - length kvs)%nat; [|discriminate].
              cbn in Hlook. congruence.
      * intros (i & Hi & Hlast).
        assert (Hlt : (i < length kvs)%nat).
        { destruct (decide (i < length kvs)%nat) as [|Hge]; [assumption|].
          rewrite lookup_app_r in Hi by lia.
          destruct (i - length kvs)%nat; [|discriminate]. cbn in Hi. congruence. }
        exists i. rewrite lookup_app_l in Hi by assumption. split; [assumption|].
        intros j v' Hj Hlook. apply (Hlast j v' Hj).
        rewrite lookup_app_l by (eapply lookup_lt_Some; eassumption). assumption.
Qed.

End DictOrder.

Lemma index_to_label_enumerate (l : list cell) : index_to_label l = enumerate l.
Proof. apply dict_comprehension_id, enumerate_NoDup. Qed.

Lemma enumerate_lookup {A} (l : list A) (i : nat) :
  enumerate l !! i = pair i <$> l !! i.
Proof. unfold enumerate. apply list_lookup_imap. Qed.

Lemma label_to_index_last (l : list cell) (label : cell) (i : nat) :
  dict_get label (label_to_index l) = Some i <->
  l !! i = Some label /\ forall j : nat, (i < j)%nat -> l !! j <> Some label.
Proof.
  unfold label_to_index, items. rewrite index_to_label_enumerate.
  rewrite dict_comprehension_last. split.
  - intros (k & Hk & Hlast).
    rewrite list_lookup_fmap, enumerate_lookup in Hk.
    destruct (l !! k) as [x|] eqn:Hx; [|discriminate].
    cbn in Hk. injection Hk as -> ->. split; [assumption|].
    intros j Hj Hlook. apply (Hlast j j Hj).
    rewrite list_lookup_fmap, enumerate_lookup, Hlook. reflexivity.
  - intros [Hi Hlast]. exists i. split.
    + rewrite list_lookup_fmap, enumerate_lookup, Hi. reflexivity.
    + intros j v' Hj Hlook.
      rewrite list_lookup_fmap, enumerate_lookup in Hlook.
      destruct (l !! j) as [x|] eqn:Hx; [|discriminate].
      cbn in Hlook. injection Hlook as Hlabel Hv. subst x.
      now apply (Hlast j).
Qed.

(** X6. For every label list, repeated labels included: the index-to-label
    map has one entry per position, in order; the label-to-index map
    sends a label to the last position that carries it and has one entry
    per distinct label; so every position is recovered from its label
    exactly when the list repeats no label. *)
Theorem label_maps_of_any_list {Self} `{TextCategorizationDataset Self}
  (self : Self) (l : list cell) :
  _get_label_list self = Return l ->
  exists index_to_label_map label_to_index_map,
    get_index_to_label_map self = Return index_to_label_map /\
    get_label_to_index_map self = Return label_to_index_map /\
    items index_to_label_map = enumerate l /\
    (forall (label : cell) (i : nat),
       dict_get label label_to_index_map = Some i <->
       l !! i = Some label /\ forall j : nat, (i < j)%nat -> l !! j <> Some label) /\
    NoDup label_to_index_map.*1 /\
    (forall label, label ∈ label_to_index_map.*1 <-> label ∈ l) /\
    ((forall (i : nat) label, l !! i = Some label ->
        dict_get label label_to_index_map = Some i) <-> NoDup l).
Proof.
  intros Hl. exists (index_to_label l), (label_to_index l).
  split; [now apply get_index_to_label_map_eq|].
  split; [now apply get_label_to_index_map_eq|].
  split; [apply index_to_label_enumerate|].
  split; [apply label_to_index_last|].
  split; [apply dict_comprehension_NoDup|].
  split.
  - intros label. destruct (dict_get label (label_to_index l)) as [i|] eqn:Hget.
    + split; intros _.
      * apply label_to_index_Some in Hget. eapply list_elem_of_lookup_2; eassumption.
      * apply dict_get_elem_of in Hget; [|apply dict_comprehension_NoDup].
        apply (list_elem_of_fmap_2 fst) in Hget. exact Hget.
    + split; intros Hin; exfalso.
      * apply list_elem_of_fmap in Hin. destruct Hin as ([k v] & -> & Hin).
        apply dict_get_elem_of in Hin; [|apply dict_comprehension_NoDup].
        cbn in Hget. congruence.
      * apply label_to_index_None in Hget. contradiction.
  - split.
    + intros Hall. apply NoDup_alt. intros i j x Hi Hj.
      apply Hall in Hi. apply Hall in Hj. congruence.
    + intros Hnd i label Hi. now apply label_to_index_NoDup.
Qed.

Lemma label_maps_of_any_list_witness :
  exists index_to_label_map label_to_index_map,
    get_index_to_label_map mock_repeated_label = Return index_to_label_map /\
    get_label_to_index_map mock_repeated_label = Return label_to_index_map /\
    items index_to_label_map
      = enumerate [CStr "label_a"; CStr "label_b"; CStr "label_a"] /\
    (forall (label : cell) (i : nat),
       dict_get label label_to_index_map = Some i <->
       [CStr "label_a"; CStr "label_b"; CStr "label_a"] !! i = Some label /\
       forall j : nat, (i < j)%nat ->
         [CStr "label_a"; CStr "label_b"; CStr "label_a"] !! j <> Some label) /\
    NoDup label_to_index_map.*1 /\
    (forall label, label ∈ label_to_index_map.*1 <->
                   label ∈ [CStr "label_a"; CStr "label_b"; CStr "label_a"]) /\
    ((forall (i : nat) label,
        [CStr "label_a"; CStr "label_b"; CStr "label_a"] !! i = Some label ->
        dict_get label label_to_index_map = Some i) <->
     NoDup [CStr "label_a"; CStr "label_b"; CStr "label_a"]).
Proof.
  refine (label_maps_of_any_list mock_repeated_label
            [CStr "label_a"; CStr "label_b"; CStr "label_a"] _).
  reflexivity.
Defined.

(** With the repeated label the maps are [{0: a, 1: b, 2: a}] and
    [{a: 2, b: 1}]. *)
Example repeated_label_maps :
  get_index_to_label_map mock_repeated_label
    = Return [(0%nat, CStr "label_a"); (1%nat, CStr "label_b"); (2%nat, CStr "label_a")] /\
  get_label_to_index_map mock_repeated_label
    = Return [(CStr "label_a", 2%nat); (CStr "label_b", 1%nat)].
Proof. split; vm_compute; reflexivity. Qed.

(** ** The frame that [load_dataset] returns *)

Lemma load_dataset_Return df m d :
  load_dataset df m = Return d ->
  (forall col, col ∈ expected_columns -> col ∈ columns df) /\
  d = {| columns := columns df;
         rows := filter (fun row =>
                   cell_at df "tag_name" row <> CNaN /\
                   m <= Z.of_nat (occurrences (cell_at df "tag_name" row)
                                    (cell_at df "tag_name" <$> position_0 df)))
                   (position_0 df) |}.
Proof.
  intros H.
  assert (Hcols : forall col, col ∈ expected_columns -> col ∈ columns df).
  { unfold load_dataset in H.
    destruct (forallb _ expected_columns) eqn:Hall; [|discriminate].
    intros col Hcol. rewrite forallb_forall in Hall.
    apply list_elem_of_In in Hcol. apply Hall in Hcol.
    now apply bool_decide_eq_true_1 in Hcol. }
  split; [assumption|].
  assert (Hl := load_dataset_present df m Hcols). cbv zeta in Hl.
  rewrite Hl in H. injection H as <-. reflexivity.
Qed.

Lemma load_dataset_Raise df m e :
  load_dataset df m = Raise e -> e = AssertionError.
Proof.
  unfold load_dataset. intros H.
  destruct (forallb _ expected_columns) eqn:Hall.
  - exfalso.
    assert (Hcols : forall col, col ∈ expected_columns -> col ∈ columns df).
    { intros col Hcol. rewrite forallb_forall in Hall.
      apply list_elem_of_In in Hcol. apply Hall in Hcol.
      now apply bool_decide_eq_true_1 in Hcol. }
    assert (Hl := load_dataset_present df m Hcols). cbv zeta in Hl.
    unfold load_dataset in Hl. rewrite Hall in Hl. rewrite Hl in H. discriminate.
  - cbn in H. congruence.
Qed.

Lemma cell_at_columns df df' name row :
  columns df' = columns df -> cell_at df' name row = cell_at df name row.
Proof. unfold cell_at. now intros ->. Qed.

Lemma occurrences_cons c x s :
  occurrences c (x :: s) =
  if decide (x = c) then S (occurrences c s) else occurrences c s.
Proof. unfold occurrences. rewrite filter_cons. case_decide; reflexivity. Qed.

Lemma occurrences_le_length c s : (occurrences c s <= length s)%nat.
Proof. unfold occurrences. apply length_filter. Qed.

(** A filter that decides by the tag keeps all rows of a tag or none. *)
Lemma occurrences_filter_by_tag {A} (f : A -> cell) (Q : cell -> Prop)
  `{forall x, Decision (Q (f x))} (l : list A) (c : cell) :
  (Q c -> occurrences c (f <$> filter (fun x => Q (f x)) l) = occurrences c (f <$> l)) /\
  (~ Q c -> occurrences c (f <$> filter (fun x => Q (f x)) l) = 0%nat).
Proof.
  induction l as [|x l [IH1 IH2]]; [split; reflexivity|].
  rewrite filter_cons. cbn [fmap list_fmap]. split; intros HQ.
  - destruct (decide (Q (f x))) as [Hx|Hx]; cbn [fmap list_fmap];
      rewrite !occurrences_cons, ?IH1 by assumption; [reflexivity|].
    case_decide; [congruence|reflexivity].
  - destruct (decide (Q (f x))) as [Hx|Hx]; cbn [fmap list_fmap];
      rewrite ?occurrences_cons, ?IH2 by assumption; [|reflexivity].
    case_decide; [congruence|reflexivity].
Qed.

Lemma filter_all {A} (P : A -> Prop) `{forall x, Decision (P x)} (l : list A) :
  (forall x, x ∈ l -> P x) -> filter P l = l.
Proof.
  induction l as [|x l IH]; intros Hall; [reflexivity|].
  rewrite filter_cons_True by (apply Hall; now left).
  f_equal. apply IH. intros y Hy. apply Hall. now right.
Qed.

Section Loaded.
Variables (df d : DataFrame) (m : Z).
Hypothesis Hload : load_dataset df m = Return d.

Lemma loaded_columns : columns d = columns df.
Proof. apply load_dataset_Return in Hload. destruct Hload as [_ ->]. reflexivity. Qed.

Lemma loaded_cell_at name row : cell_at d name row = cell_at df name row.
Proof. apply cell_at_columns, loaded_columns. Qed.

Lemma loaded_row row :
  row ∈ rows d <->
  row ∈ rows df /\ cell_at df "tag_position" row = CInt 0 /\
  cell_at df "tag_name" row <> CNaN /\
  m <= Z.of_nat (occurrences (cell_at df "tag_name" row)
                   (cell_at df "tag_name" <$> position_0 df)).
Proof.
  destruct (load_dataset_Return _ _ _ Hload) as [_ ->]. cbn [rows].
  unfold position_0. rewrite !list_elem_of_filter. tauto.
Qed.

(** The tags of the result occur in it as often as at position 0 of the
    file. *)
Lemma loaded_occurrences c :
  c ∈ tags_of d ->
  occurrences c (tags_of d) = occurrences c (cell_at df "tag_name" <$> position_0 df) /\
  c <> CNaN /\
  m <= Z.of_nat (occurrences c (cell_at df "tag_name" <$> position_0 df)).
Proof.
  intros Hc. unfold tags_of in *.
  apply list_elem_of_fmap in Hc. destruct Hc as (row & -> & Hrow).
  rewrite loaded_cell_at. apply loaded_row in Hrow.
  destruct Hrow as (_ & _ & Hnan & Hm). split; [|split; assumption].
  destruct (load_dataset_Return _ _ _ Hload) as [_ Hd].
  rewrite Hd at 1 2. cbn [rows].
  set (tags0 := cell_at df "tag_name" <$> position_0 df) in *.
  transitivity (occurrences (cell_at df "tag_name" row)
                  (cell_at df "tag_name" <$>
                     filter (fun x => (fun c => c <> CNaN /\ m <= Z.of_nat (occurrences c tags0))
                                        (cell_at df "tag_name" x)) (position_0 df))).
  { reflexivity. }
  apply (occurrences_filter_by_tag (cell_at df "tag_name")
           (fun c => c <> CNaN /\ m <= Z.of_nat (occurrences c tags0))).
  split; assumption.
Qed.

End Loaded.

(** X7. The frame [load_dataset] returns has the columns of the file and a
    subsequence of its rows; every row kept is at tag position 0 and
    carries a tag that occurs at least [min_samples_per_label] times in
    the frame returned; and a tag that is kept keeps all its rows at
    position 0. *)
Theorem load_dataset_guarantee (df d : DataFrame) (min_samples_per_label : Z) :
  load_dataset df min_samples_per_label = Return d ->
  columns d = columns df /\
  rows d `sublist_of` rows df /\
  (forall row, row ∈ rows d ->
     cell_at d "tag_position" row = CInt 0 /\
     cell_at d "tag_name" row <> CNaN /\
     min_samples_per_label
       <= Z.of_nat (occurrences (cell_at d "tag_name" row) (tags_of d))) /\
  (forall row, row ∈ rows df ->
     cell_at df "tag_position" row = CInt 0 ->
     cell_at df "tag_name" row ∈ tags_of d -> row ∈ rows d).
Proof.
  intros Hload. split; [now apply (loaded_columns df d min_samples_per_label)|].
  split.
  { destruct (load_dataset_Return _ _ _ Hload) as [_ ->]. cbn [rows].
    etransitivity; [apply sublist_filter|]. apply sublist_filter. }
  split.
  - intros row Hrow.
    assert (Htag : cell_at d "tag_name" row ∈ tags_of d)
      by (unfold tags_of; now apply list_elem_of_fmap_2).
    destruct (loaded_occurrences df d _ Hload _ Htag) as (Hocc & Hnan & Hm).
    rewrite Hocc. rewrite (loaded_cell_at df d _ Hload "tag_position").
    apply (loaded_row df d _ Hload) in Hrow. tauto.
  - intros row Hrow Hpos Htag.
    destruct (loaded_occurrences df d _ Hload _ Htag) as (_ & Hnan & Hm).
    apply (loaded_row df d _ Hload). tauto.
Qed.

Lemma load_dataset_guarantee_witness :
  columns fixture_6_rows = columns fixture_6_rows /\
  rows fixture_6_rows `sublist_of` rows fixture_6_rows /\
  (forall row, row ∈ rows fixture_6_rows ->
     cell_at fixture_6_rows "tag_position" row = CInt 0 /\
     cell_at fixture_6_rows "tag_name" row <> CNaN /\
     2 <= Z.of_nat (occurrences (cell_at fixture_6_rows "tag_name" row)
                      (tags_of fixture_6_rows))) /\
  (forall row, row ∈ rows fixture_6_rows ->
     cell_at fixture_6_rows "tag_position" row = CInt 0 ->
     cell_at fixture_6_rows "tag_name" row ∈ tags_of fixture_6_rows ->
     row ∈ rows fixture_6_rows).
Proof.
  refine (load_dataset_guarantee fixture_6_rows fixture_6_rows 2 _).
  vm_compute. reflexivity.
Defined.

Lemma position_0_loaded df d m :
  load_dataset df m = Return d -> position_0 d = rows d.
Proof.
  intros Hload. unfold position_0. apply filter_all. intros row Hrow.
  rewrite (loaded_cell_at df d m Hload). apply (loaded_row df d m Hload) in Hrow. tauto.
Qed.

Lemma load_dataset_again df d m m' :
  load_dataset df m = Return d -> m <= m' ->
  load_dataset d m' = load_dataset df m'.
Proof.
  intros Hload Hle.
  destruct (load_dataset_Return _ _ _ Hload) as [Hcols Hd].
  assert (Hcols' : forall col, col ∈ expected_columns -> col ∈ columns d)
    by (rewrite (loaded_columns df d m Hload); assumption).
  assert (H1 := load_dataset_present d m' Hcols').
  assert (H2 := load_dataset_present df m' Hcols). cbv zeta in H1, H2.
  fold (position_0 d) in H1. fold (position_0 df) in H2.
  rewrite H1, H2. f_equal. f_equal; [now apply (loaded_columns df d m)|].
  rewrite (position_0_loaded df d m Hload).
  set (tags0 := cell_at df "tag_name" <$> position_0 df).
  transitivity (filter (fun row => cell_at df "tag_name" row <> CNaN /\
                                   m' <= Z.of_nat (occurrences (cell_at df "tag_name" row) tags0))
                  (rows d)).
  - apply filter_ext_elem_of. intros row Hrow.
    assert (Htag : cell_at d "tag_name" row ∈ tags_of d)
      by (unfold tags_of; now apply list_elem_of_fmap_2).
    destruct (loaded_occurrences df d _ Hload _ Htag) as (Hocc & _ & _).
    fold (tags_of d). rewrite Hocc.
    rewrite (loaded_cell_at df d m Hload). reflexivity.
  - rewrite Hd. cbn [rows]. fold tags0.
    apply list_filter_filter_l. intros row [Hnan Hm']. split; [assumption|lia].
Qed.

(** X8. Loading is idempotent, and loading the result again with a
    threshold at least as large gives what loading the file with that
    threshold gives. *)
Theorem load_dataset_idempotent (df d : DataFrame) (min_samples_per_label : Z) :
  load_dataset df min_samples_per_label = Return d ->
  load_dataset d min_samples_per_label = Return d /\
  forall x, min_samples_per_label <= x -> load_dataset d x = load_dataset df x.
Proof.
  intros Hload. split.
  - rewrite <- Hload. apply (load_dataset_again df d min_samples_per_label); [assumption|lia].
  - intros x Hx. now apply (load_dataset_again df d min_samples_per_label).
Qed.

Lemma load_dataset_idempotent_witness :
  load_dataset (getitem_mask fixture_2_rows [true; false]) 1
    = Return (getitem_mask fixture_2_rows [true; false]) /\
  forall x, 1 <= x ->
    load_dataset (getitem_mask fixture_2_rows [true; false]) x
      = load_dataset fixture_2_rows x.
Proof.
  refine (load_dataset_idempotent fixture_2_rows _ 1 _).
  vm_compute. reflexivity.
Defined.

(** X9. The threshold: at most 1, every tagged row at position 0 is kept;
    above the number of rows, none is; and a larger threshold keeps a
    subsequence of what a smaller one keeps. *)
Theorem load_dataset_thresholds (df d : DataFrame) (min_samples_per_label : Z) :
  load_dataset df min_samples_per_label = Return d ->
  (min_samples_per_label <= 1 ->
   rows d = filter (fun row => cell_at df "tag_position" row = CInt 0 /\
                               cell_at df "tag_name" row <> CNaN) (rows df)) /\
  (len_df df < min_samples_per_label -> rows d = []) /\
  (forall x d', min_samples_per_label <= x ->
     load_dataset df x = Return d' -> rows d' `sublist_of` rows d).
Proof.
  intros Hload. destruct (load_dataset_Return _ _ _ Hload) as [Hcols Hd].
  split; [|split].
  - intros Hm. rewrite Hd. cbn [rows].
    set (tags0 := cell_at df "tag_name" <$> position_0 df).
    unfold position_0.
    rewrite list_filter_filter. apply filter_ext_elem_of. intros row Hrow.
    split; [tauto|]. intros [Hpos Hnan]. split; [|assumption]. split; [assumption|].
    assert (Hin : cell_at df "tag_name" row ∈ tags0).
    { apply list_elem_of_fmap_2. unfold position_0. apply list_elem_of_filter. auto. }
    apply occurrences_pos in Hin. lia.
  - intros Hm. rewrite Hd. cbn [rows].
    destruct (filter _ (position_0 df)) as [|row k] eqn:Hf; [reflexivity|exfalso].
    assert (Hrow : row ∈ row :: k) by now left.
    rewrite <- Hf in Hrow. apply list_elem_of_filter in Hrow.
    destruct Hrow as [[_ Hocc] _].
    assert (H1 := occurrences_le_length (cell_at df "tag_name" row)
                    (cell_at df "tag_name" <$> position_0 df)).
    rewrite length_fmap in H1.
    assert (H2 : (length (position_0 df) <= length (rows df))%nat)
      by apply length_filter.
    unfold len_df in Hm. lia.
  - intros x d' Hx Hload'.
    rewrite <- (load_dataset_again df d _ x Hload Hx) in Hload'.
    destruct (load_dataset_Return _ _ _ Hload') as [_ ->]. cbn [rows].
    etransitivity; [apply sublist_filter|]. apply sublist_filter.
Qed.

Lemma load_dataset_thresholds_witness :
  (1 <= 1 ->
   rows (getitem_mask fixture_2_rows [true; false])
   = filter (fun row => cell_at fixture_2_rows "tag_position" row = CInt 0 /\
                        cell_at fixture_2_rows "tag_name" row <> CNaN)
       (rows fixture_2_rows)) /\
  (len_df fixture_2_rows < 1 -> rows (getitem_mask fixture_2_rows [true; false]) = []) /\
  (forall x d', 1 <= x ->
     load_dataset fixture_2_rows x = Return d' ->
     rows d' `sublist_of` rows (getitem_mask fixture_2_rows [true; false])).
Proof.
  refine (load_dataset_thresholds fixture_2_rows _ 1 _).
  vm_compute. reflexivity.
Defined.

(** ** The labels of a constructed dataset *)

Lemma unique_snoc s c :
  unique (s ++ [c]) = if decide (c ∈ unique s) then unique s else unique s ++ [c].
Proof. unfold unique. now rewrite fold_left_app. Qed.

Lemma elem_of_unique s c : c ∈ unique s <-> c ∈ s.
Proof.
  induction s as [|x s IH] using rev_ind; [reflexivity|].
  rewrite unique_snoc, elem_of_app, list_elem_of_singleton, <- IH.
  case_decide as Hx; [|rewrite elem_of_app, list_elem_of_singleton; tauto].
  split; [tauto|]. intros [Hc| ->]; assumption.
Qed.

Lemma NoDup_unique s : NoDup (unique s).
Proof.
  induction s as [|x s IH] using rev_ind; [constructor|].
  rewrite unique_snoc. case_decide as Hx; [assumption|].
  apply list.NoDup_app. split; [assumption|]. split.
  - intros y Hy Hy'. apply list_elem_of_singleton in Hy'. congruence.
  - apply list.NoDup_singleton.
Qed.

Lemma length_one_hot n i : length (one_hot n i) = n.
Proof. unfold one_hot. now rewrite length_fmap, length_seq. Qed.

Lemma one_hot_lookup n i k :
  (k < n)%nat -> one_hot n i !! k = Some (if decide (k = i) then 1 else 0).
Proof.
  intros Hk. unfold one_hot. rewrite list_lookup_fmap, lookup_seq_lt by assumption.
  reflexivity.
Qed.

(** The label methods read nothing but the label list. *)
Lemma to_indexes_label_list (s s' : LocalTextCategorizationDataset) labels :
  _label_list s' = _label_list s -> to_indexes s' labels = to_indexes s labels.
Proof.
  intros Heq. unfold to_indexes, get_label_to_index_map, get_index_to_label_map.
  cbn [_get_label_list Local_dataset]. now rewrite Heq.
Qed.

Lemma Local__init___labels split file fn b r m pp self :
  Local__init__ split file fn b r m pp = Return self ->
  exists tags idxs titles t,
    getitem_column (_dataset self) "tag_name" = Return tags /\
    _label_list self = unique tags /\
    to_indexes self tags = Return idxs /\
    getitem_column (_dataset self) "title" = Return titles /\
    _get_num_train_samples self = Return t /\
    split titles (to_categorical idxs (length (unique tags))) t
      = Some (x_train self, x_test self, y_train self, y_test self).
Proof.
  intros H. unfold Local__init__ in H. cbv zeta in H.
  step_returned H as b0 Hb.
  step_returned H as d Hd.
  step_returned H as nb Hnb.
  step_returned H as [] Hnb0.
  step_returned H as nb' Hnb'.
  step_returned H as [] Hnb'0.
  step_returned H as tags Htags.
  step_returned H as tags' Htags'.
  step_returned H as y Hy.
  step_returned H as titles Htitles.
  step_returned H as t Ht.
  destruct (split titles _ t) as [[[[xtr xte] ytr] yte]|] eqn:Hsplit; [|discriminate].
  injection H as <-. cbn [_dataset _label_list x_train x_test y_train y_test].
  rewrite Htags in Htags'. injection Htags' as <-.
  exists tags, y, titles, t. split; [assumption|]. split; [reflexivity|].
  split; [|split; [assumption|split; [exact Ht|exact Hsplit]]].
  rewrite <- Hy. now apply to_indexes_label_list.
Qed.

(** X10. The label list of a constructed dataset holds the distinct tag names
    of the frame it loaded, in the order of their first rows, none of them
    missing and none twice; so the two label maps are mutual inverses on
    every constructed dataset, and there is at least one label. *)
Theorem constructed_labels split file fn b r m pp self :
  Local__init__ split file fn b r m pp = Return self ->
  _get_label_list self = Return (unique (tags_of (_dataset self))) /\
  NoDup (_label_list self) /\
  (forall c, c ∈ _label_list self <-> c ∈ tags_of (_dataset self)) /\
  (CNaN ∉ _label_list self) /\
  (exists k, get_num_labels self = Return k /\ 0 < k) /\
  (forall (i : nat) label,
     dict_get i (index_to_label (_label_list self)) = Some label <->
     dict_get label (label_to_index (_label_list self)) = Some i).
Proof.
  intros Hinit.
  destruct (Local__init___labels _ _ _ _ _ _ _ _ Hinit)
    as (tags & idxs & titles & t & Htags & Hlabels & _).
  destruct (Local__init___signs _ _ _ _ _ _ _ _ Hinit)
    as (_ & _ & _ & _ & n_train & _ & _ & _ & Hrows & _).
  apply Local__init___inv in Hinit.
  destruct Hinit as (_ & _ & _ & _ & Hload & _).
  destruct (load_dataset_Return _ _ _ Hload) as [Hcols _].
  rewrite getitem_column_cell_at in Htags
    by (rewrite (loaded_columns _ _ _ Hload); apply Hcols, tag_name_expected).
  injection Htags as <-. fold (tags_of (_dataset self)) in Hlabels.
  assert (Hnd : NoDup (_label_list self)) by (rewrite Hlabels; apply NoDup_unique).
  split; [cbn [_get_label_list Local_dataset]; now rewrite Hlabels|].
  split; [assumption|].
  split; [intros c; rewrite Hlabels; apply elem_of_unique|].
  split.
  { rewrite Hlabels, elem_of_unique. intros Hnan.
    destruct (loaded_occurrences _ _ _ Hload _ Hnan) as (_ & Hne & _). congruence. }
  split.
  { exists (Z.of_nat (length (_label_list self))). split; [reflexivity|].
    destruct (rows (_dataset self)) as [|row rest] eqn:Hrs;
      [unfold len_df in Hrows; rewrite Hrs in Hrows; cbn in Hrows; lia|].
    assert (Hin : cell_at (_dataset self) "tag_name" row ∈ _label_list self).
    { rewrite Hlabels, elem_of_unique. unfold tags_of. rewrite Hrs. now left. }
    destruct (_label_list self); [inversion Hin|cbn; lia]. }
  intros i label. rewrite index_to_label_get. split.
  - now apply label_to_index_NoDup.
  - apply label_to_index_Some.
Qed.

Lemma constructed_labels_witness :
  _get_label_list fixture_dataset = Return (unique (tags_of (_dataset fixture_dataset))) /\
  NoDup (_label_list fixture_dataset) /\
  (forall c, c ∈ _label_list fixture_dataset <-> c ∈ tags_of (_dataset fixture_dataset)) /\
  (CNaN ∉ _label_list fixture_dataset) /\
  (exists k, get_num_labels fixture_dataset = Return k /\ 0 < k) /\
  (forall (i : nat) label,
     dict_get i (index_to_label (_label_list fixture_dataset)) = Some label <->
     dict_get label (label_to_index (_label_list fixture_dataset)) = Some i).
Proof.
  refine (constructed_labels split_in_order fixture_6_rows "fake_path" 1
            ratio_0_5 1 (fun x => x) fixture_dataset _).
  vm_compute. reflexivity.
Defined.

Lemma title_expected : "title"%string ∈ expected_columns.
Proof. unfold expected_columns. do 4 right. left. Qed.

(** X11. What the constructor hands to [train_test_split]: the titles of the
    loaded frame and, row by row, the one-hot code of the row's tag, that
    is a row of as many cells as there are labels with a 1 at the
    position of the tag in the label list; the train size is the train
    count. *)
Theorem one_hot_targets split file fn b r m pp self :
  Local__init__ split file fn b r m pp = Return self ->
  exists titles y t,
    titles = cell_at (_dataset self) "title" <$> rows (_dataset self) /\
    _get_num_train_samples self = Return t /\
    split titles y t = Some (x_train self, x_test self, y_train self, y_test self) /\
    length y = length (rows (_dataset self)) /\
    forall (j : nat) row, rows (_dataset self) !! j = Some row ->
      exists i : nat,
        _label_list self !! i = Some (cell_at (_dataset self) "tag_name" row) /\
        y !! j = Some (one_hot (length (_label_list self)) i) /\
        length (one_hot (length (_label_list self)) i) = length (_label_list self) /\
        one_hot (length (_label_list self)) i !! i = Some 1 /\
        forall k : nat, k <> i -> (k < length (_label_list self))%nat ->
          one_hot (length (_label_list self)) i !! k = Some 0.
Proof.
  intros Hinit.
  destruct (Local__init___labels _ _ _ _ _ _ _ _ Hinit)
    as (tags & idxs & titles & t & Htags & Hlabels & Hidxs & Htitles & Ht & Hsplit).
  apply Local__init___inv in Hinit.
  destruct Hinit as (_ & _ & _ & _ & Hload & _).
  destruct (load_dataset_Return _ _ _ Hload) as [Hcols _].
  assert (Hc := loaded_columns _ _ _ Hload).
  rewrite getitem_column_cell_at in Htags
    by (rewrite Hc; apply Hcols, tag_name_expected).
  rewrite getitem_column_cell_at in Htitles
    by (rewrite Hc; apply Hcols, title_expected).
  injection Htags as <-. injection Htitles as <-.
  unfold to_indexes in Hidxs.
  assert (Hl : _get_label_list self = Return (_label_list self)) by reflexivity.
  rewrite (get_label_to_index_map_eq self (_label_list self) Hl) in Hidxs.
  cbn [mbind py_bind] in Hidxs. apply mapM_py_Return in Hidxs.
  rewrite <- Hlabels in Hsplit.
  eexists _, _, t. split; [reflexivity|]. split; [exact Ht|].
  split; [exact Hsplit|]. split.
  { unfold to_categorical. rewrite length_fmap.
    apply Forall2_length in Hidxs. rewrite <- Hidxs. apply length_fmap. }
  intros j row Hrow.
  assert (Htag : (cell_at (_dataset self) "tag_name" <$> rows (_dataset self)) !! j
                 = Some (cell_at (_dataset self) "tag_name" row))
    by (rewrite list_lookup_fmap, Hrow; reflexivity).
  destruct (Forall2_lookup_l _ _ _ _ _ Hidxs Htag) as (i & Hi & Hget).
  unfold dict_getitem in Hget.
  destruct (dict_get _ (label_to_index (_label_list self))) as [i'|] eqn:Hd;
    [|discriminate].
  injection Hget as ->. apply label_to_index_Some in Hd.
  assert (Hlt : (i < length (_label_list self))%nat)
    by (eapply lookup_lt_Some; eassumption).
  exists i. split; [assumption|]. split.
  { unfold to_categorical. rewrite list_lookup_fmap, Hi. reflexivity. }
  split; [apply length_one_hot|]. split.
  - rewrite one_hot_lookup by assumption. now rewrite decide_True.
  - intros k Hk Hkl. rewrite one_hot_lookup by assumption. now rewrite decide_False.
Qed.

Lemma one_hot_targets_witness :
  exists titles y t,
    titles = cell_at (_dataset fixture_dataset) "title" <$> rows (_dataset fixture_dataset) /\
    _get_num_train_samples fixture_dataset = Return t /\
    split_in_order titles y t
      = Some (x_train fixture_dataset, x_test fixture_dataset,
              y_train fixture_dataset, y_test fixture_dataset) /\
    length y = length (rows (_dataset fixture_dataset)) /\
    forall (j : nat) row, rows (_dataset fixture_dataset) !! j = Some row ->
      exists i : nat,
        _label_list fixture_dataset !! i
          = Some (cell_at (_dataset fixture_dataset) "tag_name" row) /\
        y !! j = Some (one_hot (length (_label_list fixture_dataset)) i) /\
        length (one_hot (length (_label_list fixture_dataset)) i)
          = length (_label_list fixture_dataset) /\
        one_hot (length (_label_list fixture_dataset)) i !! i = Some 1 /\
        forall k : nat, k <> i -> (k < length (_label_list fixture_dataset))%nat ->
          one_hot (length (_label_list fixture_dataset)) i !! k = Some 0.
Proof.
  refine (one_hot_targets split_in_order fixture_6_rows "fake_path" 1
            ratio_0_5 1 (fun x => x) fixture_dataset _).
  vm_compute. reflexivity.
Defined.

(** ** The exceptions of the constructor *)

Lemma int_of_floor_Raise f e :
  int_of_floor f = Raise e -> e = OverflowError \/ e = ValueError.
Proof. destruct f; cbn [int_of_floor]; intros [= <-]; auto. Qed.

Lemma integer_floor_Raise v e :
  integer_floor v = Raise e -> e = OverflowError \/ e = ValueError.
Proof. destruct v; apply int_of_floor_Raise. Qed.

Lemma float_of_int_Raise n e : float_of_int n = Raise e -> e = OverflowError.
Proof.
  unfold float_of_int. destruct (is_finite (of_int n)); [discriminate|]. congruence.
Qed.

Lemma int_true_divide_Raise a b e :
  int_true_divide a b = Raise e ->
  (b = 0 /\ e = ZeroDivisionError) \/ (b <> 0 /\ e = OverflowError).
Proof.
  unfold int_true_divide. destruct (Z.eqb_spec b 0) as [->|Hb].
  - intros [= <-]. now left.
  - destruct (a =? 0); [discriminate|].
    destruct (SFdiv_core_binary prec emax (Z.abs a) 0 (Z.abs b) 0) as [[q e'] l].
    destruct (is_finite _); [discriminate|]. intros [= <-]. now right.
Qed.

Lemma int_true_divide_zero a : int_true_divide a 0 = Raise ZeroDivisionError.
Proof. reflexivity. Qed.

Lemma int_true_divide_Return a b q : int_true_divide a b = Return q -> b <> 0.
Proof. unfold int_true_divide. destruct (Z.eqb_spec b 0); [discriminate|auto]. Qed.

Section LocalErrors.
Variable self : LocalTextCategorizationDataset.

Lemma num_train_samples_Raise e :
  _get_num_train_samples self = Raise e -> e = OverflowError \/ e = ValueError.
Proof.
  unfold _get_num_train_samples. cbn [_get_num_samples Local_dataset mbind py_bind].
  intros H. step_raised H as fn Hfn.
  - left. eapply float_of_int_Raise; eassumption.
  - eapply integer_floor_Raise; eassumption.
Qed.

Lemma num_test_samples_Raise e :
  _get_num_test_samples self = Raise e -> e = OverflowError \/ e = ValueError.
Proof.
  unfold _get_num_test_samples. cbn [_get_num_samples Local_dataset mbind py_bind].
  intros H. step_raised H as t Ht.
  - now apply num_train_samples_Raise.
  - eapply integer_floor_Raise; eassumption.
Qed.

Lemma num_train_batches_Raise e :
  _get_num_train_batches self = Raise e ->
  (e = ZeroDivisionError /\ batch_size (base self) = 0 /\
   exists t, _get_num_train_samples self = Return t) \/
  e = OverflowError \/ e = ValueError.
Proof.
  unfold _get_num_train_batches. cbn [super Local_dataset]. intros H.
  step_raised H as t Ht.
  { right. now apply num_train_samples_Raise. }
  step_raised H as q Hq.
  - apply int_true_divide_Raise in H. destruct H as [[Hb ->]|[_ ->]]; [|auto].
    left. eauto.
  - right. eapply integer_floor_Raise; eassumption.
Qed.

Lemma num_train_batches_Return nb :
  _get_num_train_batches self = Return nb ->
  batch_size (base self) <> 0 /\ exists t, _get_num_train_samples self = Return t.
Proof.
  unfold _get_num_train_batches. cbn [super Local_dataset]. intros H.
  step_returned H as t Ht. step_returned H as q Hq.
  split; [eapply int_true_divide_Return; eassumption|eauto].
Qed.

Lemma num_test_batches_Raise e :
  _get_num_test_batches self = Raise e ->
  (e = ZeroDivisionError /\ batch_size (base self) = 0) \/
  e = OverflowError \/ e = ValueError.
Proof.
  unfold _get_num_test_batches. cbn [super Local_dataset]. intros H.
  step_raised H as t Ht.
  { right. now apply num_test_samples_Raise. }
  step_raised H as q Hq.
  - apply int_true_divide_Raise in H. destruct H as [[Hb ->]|[_ ->]]; auto.
  - right. eapply integer_floor_Raise; eassumption.
Qed.

End LocalErrors.

Lemma getitem_column_Raise df name e :
  getitem_column df name = Raise e -> name ∉ columns df.
Proof.
  intros H Hin. rewrite getitem_column_cell_at in H by assumption. discriminate.
Qed.

Lemma to_indexes_unique_Return (self : LocalTextCategorizationDataset) tags :
  _label_list self = unique tags -> exists idxs, to_indexes self tags = Return idxs.
Proof.
  intros Hl. unfold to_indexes.
  assert (Hlist : _get_label_list self = Return (_label_list self)) by reflexivity.
  rewrite (get_label_to_index_map_eq self (_label_list self) Hlist).
  cbn [mbind py_bind]. apply mapM_py_total. intros x Hx. unfold dict_getitem.
  destruct (dict_get x (label_to_index (_label_list self))) as [i|] eqn:Hget; [eauto|].
  apply label_to_index_None in Hget. exfalso. apply Hget.
  rewrite Hl. now apply elem_of_unique.
Qed.

(** X12. Once [pd.read_csv] has returned the frame [file], the
    constructor raises nothing but [AssertionError], [ZeroDivisionError],
    [OverflowError] and [ValueError]: after the check of the columns no
    column access and no label lookup can fail with a [KeyError]. *)
Theorem construction_exceptions split file fn b r m pp e :
  Local__init__ split file fn b r m pp = Raise e ->
  e = AssertionError \/ e = ZeroDivisionError \/ e = OverflowError \/ e = ValueError.
Proof.
  intros H. unfold Local__init__ in H. cbv zeta in H.
  step_raised H as b0 Hb.
  { unfold Base__init__ in H. destruct (ltb r one); cbn in H; [discriminate|].
    left. congruence. }
  step_raised H as d Hd.
  { left. eapply load_dataset_Raise; eassumption. }
  destruct (load_dataset_Return _ _ _ Hd) as [Hcols _].
  assert (Hc := loaded_columns _ _ _ Hd).
  step_raised H as nb Hnb.
  { apply num_train_batches_Raise in H. tauto. }
  step_raised H as [] Hpos.
  { apply assert_Raise in H. tauto. }
  step_raised H as nb' Hnb'.
  { apply num_test_batches_Raise in H. tauto. }
  step_raised H as [] Hpos'.
  { apply assert_Raise in H. tauto. }
  step_raised H as tags Htags.
  { exfalso. apply getitem_column_Raise in H. apply H. rewrite Hc.
    apply Hcols, tag_name_expected. }
  step_raised H as tags' Htags'.
  { exfalso. apply getitem_column_Raise in H. apply H. rewrite Hc.
    apply Hcols, tag_name_expected. }
  rewrite Htags in Htags'. injection Htags' as <-.
  step_raised H as y Hy.
  { exfalso.
    match type of H with
    | to_indexes ?s _ = _ => destruct (to_indexes_unique_Return s tags eq_refl) as [idxs Hi]
    end.
    rewrite Hi in H. discriminate. }
  step_raised H as titles Htitles.
  { exfalso. apply getitem_column_Raise in H. apply H. rewrite Hc.
    apply Hcols, title_expected. }
  step_raised H as t Ht.
  { apply num_train_samples_Raise in H. tauto. }
  destruct (split titles _ t) as [[[[? ?] ?] ?]|]; [discriminate|].
  injection H as <-. auto.
Qed.

Lemma construction_exceptions_witness :
  AssertionError = AssertionError \/ AssertionError = ZeroDivisionError \/
  AssertionError = OverflowError \/ AssertionError = ValueError.
Proof.
  refine (construction_exceptions split_in_order fixture_6_rows "fake_path" 5
            ratio_0_5 1 (fun x => x) AssertionError _).
  vm_compute. reflexivity.
Defined.

(** X13. A batch size of zero is not caught by an assertion: the constructor
    raises [ZeroDivisionError] at the first batch count, and it raises
    that exception in no other case. *)
Theorem construction_zero_batch_size split file fn b r m pp :
  Local__init__ split file fn b r m pp = Raise ZeroDivisionError <->
  b = 0 /\ ltb r one = true /\
  exists d t,
    load_dataset file m = Return d /\
    _get_num_train_samples (loaded_dataset b r d) = Return t.
Proof.
  split.
  - intros H. unfold Local__init__ in H. cbv zeta in H.
    step_raised H as b0 Hb.
    { unfold Base__init__ in H. destruct (ltb r one); cbn in H; discriminate. }
    apply Base__init___Return in Hb. destruct Hb as [Hr ->].
    step_raised H as d Hd.
    { apply load_dataset_Raise in H. discriminate. }
    destruct (load_dataset_Return _ _ _ Hd) as [Hcols _].
    assert (Hc := loaded_columns _ _ _ Hd).
    step_raised H as nb Hnb.
    { apply num_train_batches_Raise in H.
      destruct H as [(_ & Hb0 & t & Ht)|[H|H]]; try discriminate.
      cbn [base batch_size] in Hb0. split; [assumption|]. split; [assumption|].
      exists d, t. split; [assumption|exact Ht]. }
    exfalso. apply num_train_batches_Return in Hnb. destruct Hnb as [Hb0 _].
    cbn [base batch_size] in Hb0.
    step_raised H as [] Hpos.
    { apply assert_Raise in H. destruct H; discriminate. }
    step_raised H as nb' Hnb'.
    { apply num_test_batches_Raise in H.
      destruct H as [[_ Hb0']|[H|H]]; try discriminate. now cbn in Hb0'. }
    step_raised H as [] Hpos'.
    { apply assert_Raise in H. destruct H; discriminate. }
    step_raised H as tags Htags.
    { apply getitem_column_Raise in H. apply H. rewrite Hc.
      apply Hcols, tag_name_expected. }
    step_raised H as tags' Htags'.
    { apply getitem_column_Raise in H. apply H. rewrite Hc.
      apply Hcols, tag_name_expected. }
    rewrite Htags in Htags'. injection Htags' as <-.
    step_raised H as y Hy.
    { match type of H with
      | to_indexes ?s _ = _ => destruct (to_indexes_unique_Return s tags eq_refl) as [idxs Hi]
      end.
      rewrite Hi in H. discriminate. }
    step_raised H as titles Htitles.
    { apply getitem_column_Raise in H. apply H. rewrite Hc.
      apply Hcols, title_expected. }
    step_raised H as t Ht.
    { apply num_train_samples_Raise in H. destruct H; discriminate. }
    destruct (split titles _ t) as [[[[? ?] ?] ?]|]; discriminate.
  - intros (-> & Hr & d & t & Hd & Ht). unfold Local__init__. cbv zeta.
    rewrite (ltb_true_Base__init__ 0 r Hr). cbn [mbind py_bind].
    rewrite Hd. cbn [mbind py_bind].
    match goal with
    | |- ?m ≫= _ = _ => change m with (_get_num_train_batches (loaded_dataset 0 r d))
    end.
    unfold _get_num_train_batches. rewrite Ht. reflexivity.
Qed.

Lemma construction_zero_batch_size_witness :
  Local__init__ split_in_order fixture_6_rows "fake_path" 0 ratio_0_5 1 (fun x => x)
    = Raise ZeroDivisionError.
Proof.
  apply (proj2 (construction_zero_batch_size split_in_order fixture_6_rows
                  "fake_path" 0 ratio_0_5 1 (fun x => x))).
  split; [reflexivity|]. split; [reflexivity|].
  exists fixture_6_rows, 3. split; vm_compute; reflexivity.
Defined.

(** ** When the constructor returns *)



(** ** The test cursor wraps around as the train cursor does *)

(** X15. After [_get_num_test_batches() + 1] calls of [get_test_batch] on a
    constructed dataset the last batch is the first one again: call
    number [k] returns the test batch at cursor [k mod num_batches]. *)
Theorem test_batches_wrap_around split file fn b r m pp self :
  Local__init__ split file fn b r m pp = Return self ->
  exists nb batches self',
    _get_num_test_batches self = Return nb /\ 0 < nb /\
    call_repeatedly get_test_batch (Z.to_nat nb + 1) self = Return (batches, self') /\
    batches !! 0%nat = Some (test_batch_at self 0) /\
    batches !! Z.to_nat nb = Some (test_batch_at self 0) /\
    (forall k : nat, (k <= Z.to_nat nb)%nat ->
       batches !! k = Some (test_batch_at self (Z.of_nat k mod nb))) /\
    test_batch_index self' = 1 mod nb /\
    train_batch_index self' = 0.
Proof.
  intros Hinit. apply Local__init___inv in Hinit.
  destruct Hinit as (_ & _ & _ & _ & _ & Hc' & Hc & _ & (nb & Hnb & Hpos) & _).
  destruct (call_repeatedly_test nb (Z.to_nat nb + 1) self Hnb) as
    (self' & Hcall & _ & Htrain & Hcur); [lia|].
  rewrite Hc in Hcall, Hcur. eexists nb, _, self'.
  split; [assumption|]. split; [assumption|]. split; [exact Hcall|].
  assert (Hk : forall k : nat, (k <= Z.to_nat nb)%nat ->
            ((fun j : nat => test_batch_at self ((0 + Z.of_nat j) mod nb))
               <$> seq 0 (Z.to_nat nb + 1)) !! k
            = Some (test_batch_at self (Z.of_nat k mod nb))).
  { intros k Hk. rewrite list_lookup_fmap, lookup_seq_lt by lia. reflexivity. }
  split; [|split; [|split; [|split]]].
  - rewrite Hk by lia. reflexivity.
  - rewrite Hk by lia. rewrite Z2Nat.id by lia. now rewrite Z.mod_same by lia.
  - exact Hk.
  - rewrite Hcur. rewrite Nat2Z.inj_add, Z2Nat.id by lia.
    rewrite Z.add_0_l, <- Zplus_mod_idemp_l, Z.mod_same by lia. reflexivity.
  - now rewrite Htrain.
Qed.

Lemma test_batches_wrap_around_witness :
  exists nb batches self',
    _get_num_test_batches fixture_dataset = Return nb /\ 0 < nb /\
    call_repeatedly get_test_batch (Z.to_nat nb + 1) fixture_dataset
      = Return (batches, self') /\
    batches !! 0%nat = Some (test_batch_at fixture_dataset 0) /\
    batches !! Z.to_nat nb = Some (test_batch_at fixture_dataset 0) /\
    (forall k : nat, (k <= Z.to_nat nb)%nat ->
       batches !! k = Some (test_batch_at fixture_dataset (Z.of_nat k mod nb))) /\
    test_batch_index self' = 1 mod nb /\
    train_batch_index self' = 0.
Proof.
  refine (test_batches_wrap_around split_in_order fixture_6_rows "fake_path" 1
            ratio_0_5 1 (fun x => x) fixture_dataset _).
  vm_compute. reflexivity.
Defined.

(** ** A full cycle restores the object *)

Lemma same_data_eq s s' :
  same_data s s' ->
  train_batch_index s' = train_batch_index s ->
  test_batch_index s' = test_batch_index s -> s' = s.
Proof.
  unfold same_data. destruct s, s'. cbn.
  intros (-> & -> & -> & -> & -> & -> & -> & -> & ->) -> ->. reflexivity.
Qed.

(** X16. As many calls of a batch method as there are batches bring the object
    back to the state it was in, cursor included: the batches repeat with
    period [num_batches]. *)
Theorem batch_cycle_restores_object (self : LocalTextCategorizationDataset)
  (n_train n_test : Z) :
  _get_num_train_batches self = Return n_train ->
  _get_num_test_batches self = Return n_test ->
  0 <= train_batch_index self < n_train ->
  0 <= test_batch_index self < n_test ->
  (exists batches,
     call_repeatedly get_train_batch (Z.to_nat n_train) self = Return (batches, self) /\
     Z.of_nat (length batches) = n_train) /\
  (exists batches,
     call_repeatedly get_test_batch (Z.to_nat n_test) self = Return (batches, self) /\
     Z.of_nat (length batches) = n_test).
Proof.
  intros Htrain Htest Hc Hc'. split.
  - destruct (call_repeatedly_train n_train (Z.to_nat n_train) self Htrain Hc)
      as (self' & Hcall & Hsame & Hother & Hcur).
    assert (Heq : self' = self).
    { apply same_data_eq; [assumption| |assumption].
      rewrite Hcur, Z2Nat.id by lia.
      rewrite <- Zplus_mod_idemp_r, Z.mod_same, Z.add_0_r by lia.
      apply Z.mod_small. assumption. }
    rewrite Heq in Hcall. eexists. split; [exact Hcall|].
    rewrite length_fmap, length_seq. lia.
  - destruct (call_repeatedly_test n_test (Z.to_nat n_test) self Htest Hc')
      as (self' & Hcall & Hsame & Hother & Hcur).
    assert (Heq : self' = self).
    { apply same_data_eq; [assumption|assumption|].
      rewrite Hcur, Z2Nat.id by lia.
      rewrite <- Zplus_mod_idemp_r, Z.mod_same, Z.add_0_r by lia.
      apply Z.mod_small. assumption. }
    rewrite Heq in Hcall. eexists. split; [exact Hcall|].
    rewrite length_fmap, length_seq. lia.
Qed.

Lemma batch_cycle_restores_object_witness :
  (exists batches,
     call_repeatedly get_train_batch (Z.to_nat 3) fixture_dataset
       = Return (batches, fixture_dataset) /\
     Z.of_nat (length batches) = 3) /\
  (exists batches,
     call_repeatedly get_test_batch (Z.to_nat 3) fixture_dataset
       = Return (batches, fixture_dataset) /\
     Z.of_nat (length batches) = 3).
Proof.
  refine (batch_cycle_restores_object fixture_dataset 3 3 _ _ _ _);
    first [vm_compute; reflexivity | cbn; lia].
Defined.

(** ** The two cursors are independent *)

(** X17. A train batch and a test batch can be fetched in either order: the
    two batches and the object afterwards are the same. *)
Theorem train_test_batches_commute (self s1 s2 : LocalTextCategorizationDataset)
  (b_train b_test : Batch) :
  get_train_batch self = Return (b_train, s1) ->
  get_test_batch s1 = Return (b_test, s2) ->
  exists s1',
    get_test_batch self = Return (b_test, s1') /\
    get_train_batch s1' = Return (b_train, s2).
Proof.
  cbn [get_train_batch get_test_batch Local_batches].
  unfold Local_get_train_batch, Local_get_test_batch. intros H1 H2.
  step_returned H1 as nb Hnb. step_returned H1 as i Hi. injection H1 as <- <-.
  step_returned H2 as nb' Hnb'. step_returned H2 as j Hj. injection H2 as <- <-.
  change (_get_num_test_batches self = Return nb') in Hnb'.
  cbn [test_batch_index set_train_batch_index] in Hj.
  exists (set_test_batch_index self j). split.
  - rewrite Hnb'. cbn [mbind py_bind]. rewrite Hj. reflexivity.
  - change (_get_num_train_batches (set_test_batch_index self j))
      with (_get_num_train_batches self).
    rewrite Hnb. cbn [mbind py_bind train_batch_index set_test_batch_index].
    rewrite Hi. reflexivity.
Qed.

Lemma train_test_batches_commute_witness :
  exists s1',
    get_test_batch fixture_dataset
      = Return (test_batch_at fixture_dataset 0, s1') /\
    get_train_batch s1'
      = Return (train_batch_at fixture_dataset 0,
                set_test_batch_index (set_train_batch_index fixture_dataset 1) 1).
Proof.
  refine (train_test_batches_commute fixture_dataset
            (set_train_batch_index fixture_dataset 1) _ _ _ _ _);
    vm_compute; reflexivity.
Defined.

Lemma calls_of_cons c c' calls :
  calls_of c (c' :: calls) = (if decide (c' = c) then 1 else 0) + calls_of c calls.
Proof.
  unfold calls_of. rewrite filter_cons. case_decide; cbn [length]; lia.
Qed.

Lemma calls_of_nonneg c calls : 0 <= calls_of c calls.
Proof. unfold calls_of. lia. Qed.

Ltac decide_calls :=
  repeat match goal with
  | |- context [decide (?a = ?b)] =>
      first [rewrite (decide_True (P := a = b)) by reflexivity
            |rewrite (decide_False (P := a = b)) by discriminate]
  end.

Lemma interleaved_calls n_train n_test calls : forall self : LocalTextCategorizationDataset,
  _get_num_train_batches self = Return n_train ->
  _get_num_test_batches self = Return n_test ->
  0 <= train_batch_index self < n_train ->
  0 <= test_batch_index self < n_test ->
  exists batches self',
    call_in_order calls self = Return (batches, self') /\
    same_data self self' /\
    train_batch_index self'
      = (train_batch_index self + calls_of true calls) mod n_train /\
    test_batch_index self'
      = (test_batch_index self + calls_of false calls) mod n_test /\
    length batches = length calls /\
    forall (j : nat) (c : bool), calls !! j = Some c ->
      batches !! j =
      Some (if c
            then train_batch_at self
                   ((train_batch_index self + calls_of true (take j calls)) mod n_train)
            else test_batch_at self
                   ((test_batch_index self + calls_of false (take j calls)) mod n_test)).
Proof.
  induction calls as [|c calls IH]; intros self Htrain Htest Hc Hc'.
  - exists [], self. cbn [call_in_order]. split; [reflexivity|].
    split; [apply same_data_refl|].
    unfold calls_of. cbn. rewrite !Z.add_0_r, !Z.mod_small by lia.
    repeat split. intros j c Hj. discriminate.
  - cbn [call_in_order]. destruct c.
    + rewrite (Local_get_train_batch_eq self n_train) by (auto; lia).
      cbn [mbind py_bind].
      set (s1 := set_train_batch_index self ((train_batch_index self + 1) mod n_train)).
      destruct (IH s1) as (batches & self' & Hcall & Hsame & Hi & Hi' & Hlen & Hlook).
      { exact Htrain. } { exact Htest. }
      { cbn [train_batch_index s1 set_train_batch_index]. apply Z.mod_pos_bound. lia. }
      { exact Hc'. }
      rewrite Hcall. cbn [mbind py_bind]. eexists _, self'.
      split; [reflexivity|].
      split; [eapply same_data_trans; [apply same_data_set_train|exact Hsame]|].
      rewrite !calls_of_cons.
      cbn [train_batch_index test_batch_index s1 set_train_batch_index] in Hi, Hi'.
      split; [|split; [|split]].
      * rewrite Hi. decide_calls.
        rewrite Zplus_mod_idemp_l. f_equal. lia.
      * rewrite Hi'. decide_calls. f_equal.
      * cbn [length]. now rewrite Hlen.
      * intros [|j] c Hj.
        -- injection Hj as <-. cbn [take lookup list_lookup].
           unfold calls_of. cbn. rewrite Z.add_0_r, Z.mod_small by lia. reflexivity.
        -- etransitivity; [exact (Hlook j c Hj)|].
           cbn [take]. rewrite !calls_of_cons.
           decide_calls.
           cbn [train_batch_index test_batch_index s1 set_train_batch_index].
           rewrite (same_data_train_batch_at self s1) by apply same_data_set_train.
           rewrite (same_data_test_batch_at self s1) by apply same_data_set_train.
           rewrite Zplus_mod_idemp_l.
           destruct c; do 3 f_equal; lia.
    + rewrite (Local_get_test_batch_eq self n_test) by (auto; lia).
      cbn [mbind py_bind].
      set (s1 := set_test_batch_index self ((test_batch_index self + 1) mod n_test)).
      destruct (IH s1) as (batches & self' & Hcall & Hsame & Hi & Hi' & Hlen & Hlook).
      { exact Htrain. } { exact Htest. } { exact Hc. }
      { cbn [test_batch_index s1 set_test_batch_index]. apply Z.mod_pos_bound. lia. }
      rewrite Hcall. cbn [mbind py_bind]. eexists _, self'.
      split; [reflexivity|].
      split; [eapply same_data_trans; [apply same_data_set_test|exact Hsame]|].
      rewrite !calls_of_cons.
      cbn [train_batch_index test_batch_index s1 set_test_batch_index] in Hi, Hi'.
      split; [|split; [|split]].
      * rewrite Hi. decide_calls. f_equal.
      * rewrite Hi'. decide_calls.
        rewrite Zplus_mod_idemp_l. f_equal. lia.
      * cbn [length]. now rewrite Hlen.
      * intros [|j] c Hj.
        -- injection Hj as <-. cbn [take lookup list_lookup].
           unfold calls_of. cbn. rewrite Z.add_0_r, Z.mod_small by lia. reflexivity.
        -- etransitivity; [exact (Hlook j c Hj)|].
           cbn [take]. rewrite !calls_of_cons.
           decide_calls.
           cbn [train_batch_index test_batch_index s1 set_test_batch_index].
           rewrite (same_data_train_batch_at self s1) by apply same_data_set_test.
           rewrite (same_data_test_batch_at self s1) by apply same_data_set_test.
           rewrite Zplus_mod_idemp_l.
           destruct c; do 3 f_equal; lia.
Qed.

(** X18. On a constructed dataset every run of calls of the two batch
    methods, in any order, returns: no call raises, the data stay as
    constructed, each cursor stays below its batch count, and each call
    returns the batch at the number of earlier calls of the same method,
    modulo the batch count of its split. *)
Theorem interleaved_batches_safe split file fn b r m pp self (calls : list bool) :
  Local__init__ split file fn b r m pp = Return self ->
  exists n_train n_test batches self',
    _get_num_train_batches self = Return n_train /\
    _get_num_test_batches self = Return n_test /\
    call_in_order calls self = Return (batches, self') /\
    same_data self self' /\
    train_batch_index self' = calls_of true calls mod n_train /\
    test_batch_index self' = calls_of false calls mod n_test /\
    0 <= train_batch_index self' < n_train /\
    0 <= test_batch_index self' < n_test /\
    length batches = length calls /\
    forall (j : nat) (c : bool), calls !! j = Some c ->
      batches !! j =
      Some (if c
            then train_batch_at self (calls_of true (take j calls) mod n_train)
            else test_batch_at self (calls_of false (take j calls) mod n_test)).
Proof.
  intros Hinit. apply Local__init___inv in Hinit.
  destruct Hinit as (_ & _ & _ & _ & _ & Hc & Hc' & (nb & Hnb & Hpos) &
                     (nb' & Hnb' & Hpos') & _).
  destruct (interleaved_calls nb nb' calls self Hnb Hnb')
    as (batches & self' & Hcall & Hsame & Hi & Hi' & Hlen & Hlook); [lia..|].
  rewrite Hc in Hi, Hlook. rewrite Hc' in Hi', Hlook.
  rewrite Z.add_0_l in Hi, Hi'.
  exists nb, nb', batches, self'.
  do 6 (split; [assumption|]).
  split; [rewrite Hi; apply Z.mod_pos_bound; lia|].
  split; [rewrite Hi'; apply Z.mod_pos_bound; lia|].
  split; [assumption|].
  intros j c Hj. rewrite (Hlook j c Hj). now rewrite !Z.add_0_l.
Qed.

Lemma interleaved_batches_safe_witness :
  exists n_train n_test batches self',
    _get_num_train_batches fixture_dataset = Return n_train /\
    _get_num_test_batches fixture_dataset = Return n_test /\
    call_in_order [true; false; true] fixture_dataset = Return (batches, self') /\
    same_data fixture_dataset self' /\
    train_batch_index self' = calls_of true [true; false; true] mod n_train /\
    test_batch_index self' = calls_of false [true; false; true] mod n_test /\
    0 <= train_batch_index self' < n_train /\
    0 <= test_batch_index self' < n_test /\
    length batches = length [true; false; true] /\
    forall (j : nat) (c : bool), [true; false; true] !! j = Some c ->
      batches !! j =
      Some (if c
            then train_batch_at fixture_dataset
                   (calls_of true (take j [true; false; true]) mod n_train)
            else test_batch_at fixture_dataset
                   (calls_of false (take j [true; false; true]) mod n_test)).
Proof.
  refine (interleaved_batches_safe split_in_order fixture_6_rows "fake_path" 1
            ratio_0_5 1 (fun x => x) fixture_dataset [true; false; true] _).
  vm_compute. reflexivity.
Defined.

(** ** What one cycle of batches covers *)

(** Consecutive slices of width [b] make up a prefix. *)
Lemma concat_py_slices {A} (l : list A) (b : Z) (n : nat) :
  0 < b -> Z.of_nat n * b <= Z.of_nat (length l) ->
  concat ((fun j : nat => py_slice l (Z.of_nat j * b) ((Z.of_nat j + 1) * b)) <$> seq 0 n)
  = take (Z.to_nat (Z.of_nat n * b)) l.
Proof.
  intros Hb. induction n as [|n IH]; intros Hn; [reflexivity|].
  rewrite seq_S, fmap_app, concat_app, IH by lia.
  cbn [fmap list_fmap concat Nat.add]. rewrite app_nil_r.
  destruct (py_slice_inside l (Z.of_nat n * b) ((Z.of_nat n + 1) * b)) as [-> _];
    [lia..|].
  rewrite take_take_drop. f_equal. lia.
Qed.

Lemma call_repeatedly_train_slices (self : LocalTextCategorizationDataset) nb :
  _get_num_train_batches self = Return nb -> 0 < nb ->
  train_batch_index self = 0 ->
  exists self',
    call_repeatedly get_train_batch (Z.to_nat nb) self =
    Return ((fun j : nat => train_batch_at self (Z.of_nat j)) <$> seq 0 (Z.to_nat nb),
            self').
Proof.
  intros Hnb Hpos Hc.
  destruct (call_repeatedly_train nb (Z.to_nat nb) self Hnb) as (self' & Hcall & _);
    [lia|].
  exists self'. rewrite Hcall. f_equal. f_equal. apply list_fmap_ext.
  intros i j Hj. apply lookup_seq in Hj. destruct Hj as [-> Hlt].
  rewrite Hc, Z.add_0_l, Z.mod_small by lia. reflexivity.
Qed.

Lemma call_repeatedly_test_slices (self : LocalTextCategorizationDataset) nb :
  _get_num_test_batches self = Return nb -> 0 < nb ->
  test_batch_index self = 0 ->
  exists self',
    call_repeatedly get_test_batch (Z.to_nat nb) self =
    Return ((fun j : nat => test_batch_at self (Z.of_nat j)) <$> seq 0 (Z.to_nat nb),
            self').
Proof.
  intros Hnb Hpos Hc.
  destruct (call_repeatedly_test nb (Z.to_nat nb) self Hnb) as (self' & Hcall & _);
    [lia|].
  exists self'. rewrite Hcall. f_equal. f_equal. apply list_fmap_ext.
  intros i j Hj. apply lookup_seq in Hj. destruct Hj as [-> Hlt].
  rewrite Hc, Z.add_0_l, Z.mod_small by lia. reflexivity.
Qed.

Lemma batch_count_division (samples b nb : Z) :
  0 <= samples < 2 ^ 53 -> 0 < b ->
  (q ← int_true_divide samples b; integer_floor (PyFloat q)) = Return nb ->
  nb * b <= samples < (nb + 1) * b.
Proof.
  intros Hs Hb Hnb. rewrite batches_spec in Hnb by assumption.
  injection Hnb as <-.
  assert (H1 := Z.mul_div_le samples b Hb).
  assert (H2 := Z.mul_succ_div_gt samples b Hb). lia.
Qed.

(** X19. One cycle of train batches of a constructed dataset serves the train
    split from its start, in order and without overlap: the label rows of
    the batches, put end to end, are the first
    [num_batches * batch_size] rows of [y_train], and so are the texts
    when [preprocess_text] is the identity; fewer than [batch_size]
    samples at the end of the split are never served. The same holds for
    the test batches. *)
Theorem cycle_covers_split split file fn b r m pp self :
  split_sizes split ->
  Local__init__ split file fn b r m pp = Return self ->
  len_df (_dataset self) < 2 ^ 53 ->
  (exists nb batches self',
     _get_num_train_batches self = Return nb /\
     call_repeatedly get_train_batch (Z.to_nat nb) self = Return (batches, self') /\
     concat batches.*2 = take (Z.to_nat (nb * b)) (y_train self) /\
     ((forall x, pp x = x) ->
      concat batches.*1 = take (Z.to_nat (nb * b)) (x_train self)) /\
     0 <= Z.of_nat (length (y_train self)) - nb * b < b) /\
  (exists nb batches self',
     _get_num_test_batches self = Return nb /\
     call_repeatedly get_test_batch (Z.to_nat nb) self = Return (batches, self') /\
     concat batches.*2 = take (Z.to_nat (nb * b)) (y_test self) /\
     ((forall x, pp x = x) ->
      concat batches.*1 = take (Z.to_nat (nb * b)) (x_test self)) /\
     0 <= Z.of_nat (length (y_test self)) - nb * b < b).
Proof.
  intros Hsizes Hinit Hlen.
  destruct (constructed_sizes _ _ _ _ _ _ _ _ Hsizes Hinit Hlen)
    as (Htr & Hytr & Hte & Hyte & Hxtr & Hxte).
  destruct (Local__init___signs _ _ _ _ _ _ _ _ Hinit) as (Hb & _).
  apply Local__init___inv in Hinit.
  destruct Hinit as (_ & Hbase & _ & Hpp & _ & Hc & Hc' & (nb & Hnb & Hpos) &
                     (nb' & Hnb' & Hpos') & _).
  assert (Hbs : batch_size (base self) = b) by now rewrite Hbase.
  split.
  - destruct (call_repeatedly_train_slices self nb Hnb Hpos Hc) as (self' & Hcall).
    assert (Hdiv : nb * b <= Z.of_nat (length (x_train self)) < (nb + 1) * b).
    { apply batch_count_division; [lia|assumption|].
      unfold _get_num_train_batches in Hnb. rewrite Htr in Hnb.
      cbn [mbind py_bind super Local_dataset] in Hnb. now rewrite Hbs in Hnb. }
    eexists nb, _, self'. split; [assumption|]. split; [exact Hcall|].
    rewrite <- !list_fmap_compose. unfold train_batch_at. rewrite Hbs.
    split; [|split].
    + erewrite list_fmap_ext; [|intros i j _; cbn [compose snd]; reflexivity].
      rewrite (concat_py_slices (y_train self) b (Z.to_nat nb)) by lia.
      f_equal. lia.
    + intros Hid.
      erewrite list_fmap_ext;
        [|intros i j _; cbn [compose fst]; rewrite Hpp, Hid; reflexivity].
      rewrite (concat_py_slices (x_train self) b (Z.to_nat nb)) by lia.
      f_equal. lia.
    + lia.
  - destruct (call_repeatedly_test_slices self nb' Hnb' Hpos' Hc') as (self' & Hcall).
    assert (Hdiv : nb' * b <= Z.of_nat (length (x_test self)) < (nb' + 1) * b).
    { apply batch_count_division; [lia|assumption|].
      unfold _get_num_test_batches in Hnb'. rewrite Hte in Hnb'.
      cbn [mbind py_bind super Local_dataset] in Hnb'. now rewrite Hbs in Hnb'. }
    eexists nb', _, self'. split; [assumption|]. split; [exact Hcall|].
    rewrite <- !list_fmap_compose. unfold test_batch_at. rewrite Hbs.
    split; [|split].
    + erewrite list_fmap_ext; [|intros i j _; cbn [compose snd]; reflexivity].
      rewrite (concat_py_slices (y_test self) b (Z.to_nat nb')) by lia.
      f_equal. lia.
    + intros Hid.
      erewrite list_fmap_ext;
        [|intros i j _; cbn [compose fst]; rewrite Hpp, Hid; reflexivity].
      rewrite (concat_py_slices (x_test self) b (Z.to_nat nb')) by lia.
      f_equal. lia.
    + lia.
Qed.

Lemma cycle_covers_split_witness :
  (exists nb batches self',
     _get_num_train_batches fixture_dataset = Return nb /\
     call_repeatedly get_train_batch (Z.to_nat nb) fixture_dataset
       = Return (batches, self') /\
     concat batches.*2 = take (Z.to_nat (nb * 1)) (y_train fixture_dataset) /\
     ((forall x : list cell, (fun x => x) x = x) ->
      concat batches.*1 = take (Z.to_nat (nb * 1)) (x_train fixture_dataset)) /\
     0 <= Z.of_nat (length (y_train fixture_dataset)) - nb * 1 < 1) /\
  (exists nb batches self',
     _get_num_test_batches fixture_dataset = Return nb /\
     call_repeatedly get_test_batch (Z.to_nat nb) fixture_dataset
       = Return (batches, self') /\
     concat batches.*2 = take (Z.to_nat (nb * 1)) (y_test fixture_dataset) /\
     ((forall x : list cell, (fun x => x) x = x) ->
      concat batches.*1 = take (Z.to_nat (nb * 1)) (x_test fixture_dataset)) /\
     0 <= Z.of_nat (length (y_test fixture_dataset)) - nb * 1 < 1).
Proof.
  refine (cycle_covers_split split_in_order fixture_6_rows "fake_path" 1
            ratio_0_5 1 (fun x => x) fixture_dataset _ _ _).
  - apply split_in_order_sizes.
  - vm_compute. reflexivity.
  - vm_compute. reflexivity.
Defined.

(** ** The text of [__repr__] *)

(** X20. The text of a constructed dataset shows the sizes the splits really
    have and the number of distinct tags of the loaded frame; where
    [_get_num_samples] raises, as in the base class, [__repr__] raises
    the same exception. *)
Theorem repr_reports_sizes split file fn b r m pp self :
  split_sizes split ->
  Local__init__ split file fn b r m pp = Return self ->
  len_df (_dataset self) < 2 ^ 53 ->
  __repr__ self =
  Return ("LocalTextCategorizationDataset(n_train_samples: "
          +:+ pretty (Z.of_nat (length (x_train self)))
          +:+ ", n_test_samples: " +:+ pretty (Z.of_nat (length (x_test self)))
          +:+ ", n_labels: "
          +:+ pretty (Z.of_nat (length (unique (tags_of (_dataset self)))))
          +:+ ")")%string /\
  Z.of_nat (length (x_train self)) + Z.of_nat (length (x_test self))
    = len_df (_dataset self) /\
  forall (base_self : BaseTextCategorizationDataset),
    __repr__ base_self = Raise NotImplementedError.
Proof.
  intros Hsizes Hinit Hlen.
  destruct (constructed_sizes _ _ _ _ _ _ _ _ Hsizes Hinit Hlen)
    as (Htr & _ & Hte & _).
  destruct (Local__init___labels _ _ _ _ _ _ _ _ Hinit)
    as (tags & idxs & titles & t & Htags & Hlabels & _ & Htitles & Ht & Hsplit).
  assert (Hinv := Hinit). apply Local__init___inv in Hinv.
  destruct Hinv as (_ & _ & _ & _ & Hload & _).
  destruct (load_dataset_Return _ _ _ Hload) as [Hcols _].
  rewrite getitem_column_cell_at in Htags
    by (rewrite (loaded_columns _ _ _ Hload); apply Hcols, tag_name_expected).
  injection Htags as <-. fold (tags_of (_dataset self)) in Hlabels.
  split; [|split].
  - unfold __repr__. rewrite Htr, Hte. cbn [mbind py_bind].
    unfold get_num_labels. cbn [_get_label_list Local_dataset mbind py_bind].
    rewrite Hlabels. reflexivity.
  - apply Hsizes in Hsplit. destruct Hsplit as (H1 & _ & H3 & _).
    apply getitem_column_length in Htitles. unfold len_df. lia.
  - reflexivity.
Qed.

Lemma repr_reports_sizes_witness :
  __repr__ fixture_dataset =
  Return ("LocalTextCategorizationDataset(n_train_samples: "
          +:+ pretty (Z.of_nat (length (x_train fixture_dataset)))
          +:+ ", n_test_samples: "
          +:+ pretty (Z.of_nat (length (x_test fixture_dataset)))
          +:+ ", n_labels: "
          +:+ pretty (Z.of_nat (length (unique (tags_of (_dataset fixture_dataset)))))
          +:+ ")")%string /\
  Z.of_nat (length (x_train fixture_dataset)) + Z.of_nat (length (x_test fixture_dataset))
    = len_df (_dataset fixture_dataset) /\
  forall (base_self : BaseTextCategorizationDataset),
    __repr__ base_self = Raise NotImplementedError.
Proof.
  refine (repr_reports_sizes split_in_order fixture_6_rows "fake_path" 1
            ratio_0_5 1 (fun x => x) fixture_dataset _ _ _).
  - apply split_in_order_sizes.
  - vm_compute. reflexivity.
  - vm_compute. reflexivity.
Defined.

(** The text for the six-row fixture, and for the mock of the unit
    tests. *)
Example repr_of_fixture :
  __repr__ fixture_dataset
    = Return "LocalTextCategorizationDataset(n_train_samples: 3, n_test_samples: 3, n_labels: 3)"%string /\
  __repr__ mock_100
    = Return "BaseTextCategorizationDataset(n_train_samples: 80, n_test_samples: 20, n_labels: 2)"%string.
Proof. split; vm_compute; reflexivity. Qed.

(** ** When a batch method raises *)

(** X21. A batch method raises exactly when its batch count raises, with the
    same exception, or is zero, with [ZeroDivisionError] from the cursor
    update; with any other count it returns, whatever the cursor and the
    splits are, because the slices never raise. *)
Theorem batch_method_errors (self : LocalTextCategorizationDataset) (e : Exception) :
  (get_train_batch self = Raise e <->
   _get_num_train_batches self = Raise e \/
   (_get_num_train_batches self = Return 0 /\ e = ZeroDivisionError)) /\
  (get_test_batch self = Raise e <->
   _get_num_test_batches self = Raise e \/
   (_get_num_test_batches self = Return 0 /\ e = ZeroDivisionError)).
Proof.
  cbn [get_train_batch get_test_batch Local_batches].
  unfold Local_get_train_batch, Local_get_test_batch. split.
  - destruct (_get_num_train_batches self) as [nb|e'] eqn:Hnb; cbn [mbind py_bind].
    + unfold py_mod. destruct (Z.eqb_spec nb 0) as [->|Hne]; cbn [mbind py_bind].
      * split; [intros [= <-]; auto|]. intros [H|[_ ->]]; [discriminate|reflexivity].
      * split; [discriminate|]. intros [H|[H _]]; [discriminate|congruence].
    + split; [intros [= <-]; auto|]. intros [[= <-]|[H _]]; [reflexivity|discriminate].
  - destruct (_get_num_test_batches self) as [nb|e'] eqn:Hnb; cbn [mbind py_bind].
    + unfold py_mod. destruct (Z.eqb_spec nb 0) as [->|Hne]; cbn [mbind py_bind].
      * split; [intros [= <-]; auto|]. intros [H|[_ ->]]; [discriminate|reflexivity].
      * split; [discriminate|]. intros [H|[H _]]; [discriminate|congruence].
    + split; [intros [= <-]; auto|]. intros [[= <-]|[H _]]; [reflexivity|discriminate].
Qed.

(** ** Full batches in both splits *)

(** X22. Every constructed dataset of fewer than [2^53] rows has at least one
    full batch in each split: the batch size exceeds neither the train
    count nor the test count, the two counts add up to the number of rows
    and the batch counts are their quotients by the batch size. *)
Theorem constructed_has_full_batches split file fn b r m pp self :
  Local__init__ split file fn b r m pp = Return self ->
  len_df (_dataset self) < 2 ^ 53 ->
  exists n_train n_test,
    _get_num_train_samples self = Return n_train /\
    _get_num_test_samples self = Return n_test /\
    n_train + n_test = len_df (_dataset self) /\
    0 < b <= n_train /\ b <= n_test /\
    _get_num_train_batches self = Return (n_train / b) /\
    _get_num_test_batches self = Return (n_test / b).
Proof.
  intros Hinit Hlen.
  destruct (Local__init___signs _ _ _ _ _ _ _ _ Hinit)
    as (Hb & _ & _ & _ & t & t' & Ht & Ht' & Hrange & Hpos').
  apply Local__init___inv in Hinit.
  destruct Hinit as (_ & Hbase & _ & _ & _ & _ & _ & (nb & Hnb & Hpos) &
                     (nb' & Hnb' & Hnpos') & _).
  assert (Hbs : batch_size (base self) = b) by now rewrite Hbase.
  assert (Htest : t' = len_df (_dataset self) - t).
  { unfold _get_num_test_samples in Ht'.
    cbn [_get_num_samples Local_dataset mbind py_bind] in Ht'.
    rewrite Ht in Ht'. cbn [mbind py_bind] in Ht'.
    rewrite integer_floor_int in Ht' by lia. now injection Ht' as <-. }
  subst t'.
  assert (Hq : _get_num_train_batches self = Return (t / b)).
  { unfold _get_num_train_batches. rewrite Ht.
    cbn [mbind py_bind super Local_dataset]. rewrite Hbs.
    apply batches_spec; lia. }
  assert (Hq' : _get_num_test_batches self
                = Return ((len_df (_dataset self) - t) / b)).
  { unfold _get_num_test_batches. rewrite Ht'.
    cbn [mbind py_bind super Local_dataset]. rewrite Hbs.
    apply batches_spec; lia. }
  rewrite Hq in Hnb. injection Hnb as <-.
  rewrite Hq' in Hnb'. injection Hnb' as <-.
  exists t, (len_df (_dataset self) - t).
  split; [assumption|]. split; [assumption|]. split; [lia|].
  assert (b <= t).
  { destruct (Z.le_gt_cases b t); [assumption|].
    rewrite Z.div_small in Hpos by lia. lia. }
  assert (b <= len_df (_dataset self) - t).
  { destruct (Z.le_gt_cases b (len_df (_dataset self) - t)); [assumption|].
    rewrite Z.div_small in Hnpos' by lia. lia. }
  repeat split; assumption.
Qed.

Lemma constructed_has_full_batches_witness :
  exists n_train n_test,
    _get_num_train_samples fixture_dataset = Return n_train /\
    _get_num_test_samples fixture_dataset = Return n_test /\
    n_train + n_test = len_df (_dataset fixture_dataset) /\
    0 < 1 <= n_train /\ 1 <= n_test /\
    _get_num_train_batches fixture_dataset = Return (n_train / 1) /\
    _get_num_test_batches fixture_dataset = Return (n_test / 1).
Proof.
  refine (constructed_has_full_batches split_in_order fixture_6_rows "fake_path" 1
            ratio_0_5 1 (fun x => x) fixture_dataset _ _);
    vm_compute; reflexivity.
Defined.

(** ** A batch size that does not fit *)

(** X23. The constructor ends in a failed assertion whenever the batch size,
    being positive, exceeds the train count or the test count; this
    includes a file of which no row is kept. *)
Theorem construction_rejects_large_batch split file fn b r m pp d t :
  load_dataset file m = Return d ->
  len_df d < 2 ^ 53 ->
  is_ratio r = true ->
  0 < b ->
  _get_num_train_samples (loaded_dataset b r d) = Return t ->
  t < b \/ len_df d - t < b ->
  Local__init__ split file fn b r m pp = Raise AssertionError.
Proof.
  intros Hd Hlen Hratio Hb Ht Hshort.
  assert (Hlt : ltb r one = true).
  { unfold is_ratio in Hratio. rewrite !andb_true_iff in Hratio. tauto. }
  assert (Hn : 0 <= len_df d < 2 ^ 53) by (unfold len_df in *; lia).
  assert (Hs : _get_num_samples (loaded_dataset b r d) = Return (len_df d))
    by reflexivity.
  destruct (train_samples_spec (loaded_dataset b r d) (len_df d) Hs Hn Hratio)
    as (t' & Ht' & _ & Htn).
  rewrite Ht in Ht'. injection Ht' as <-.
  assert (Hte := test_samples_spec (loaded_dataset b r d) (len_df d) Hs Hn t Ht Htn).
  unfold Local__init__. cbv zeta.
  rewrite (ltb_true_Base__init__ b r Hlt). cbn [mbind py_bind].
  rewrite Hd. cbn [mbind py_bind].
  match goal with
  | |- context [?m ≫= _] =>
      change m with (_get_num_train_batches (loaded_dataset b r d))
  end.
  unfold _get_num_train_batches at 1. rewrite Ht.
  cbn [mbind py_bind super Local_dataset loaded_dataset base batch_size].
  rewrite batches_spec by lia. cbn [mbind py_bind].
  destruct (Z.ltb_spec 0 (t / b)) as [Hq|Hq]; cbn [assert mbind py_bind];
    [|reflexivity].
  match goal with
  | |- context [?m ≫= _] =>
      change m with (_get_num_test_batches (loaded_dataset b r d))
  end.
  unfold _get_num_test_batches at 1. rewrite Hte.
  cbn [mbind py_bind super Local_dataset loaded_dataset base batch_size].
  rewrite batches_spec by lia. cbn [mbind py_bind].
  destruct (Z.ltb_spec 0 ((len_df d - t) / b)) as [Hq'|Hq'];
    cbn [assert mbind py_bind]; [|reflexivity].
  exfalso. destruct Hshort as [Hshort|Hshort].
  - rewrite Z.div_small in Hq by lia. lia.
  - rewrite Z.div_small in Hq' by lia. lia.
Qed.

Lemma construction_rejects_large_batch_witness :
  Local__init__ split_in_order fixture_6_rows "fake_path" 5 ratio_0_5 1 (fun x => x)
    = Raise AssertionError.
Proof.
  refine (construction_rejects_large_batch split_in_order fixture_6_rows "fake_path" 5
            ratio_0_5 1 (fun x => x) fixture_6_rows 3 _ _ _ _ _ _);
    try (vm_compute; reflexivity).
  left. lia.
Defined.
